(** * Azure networking of PerfKitBenchmarker: a shallow embedding

    Source: [perfkitbenchmarker/providers/azure/azure_network.py].

    The Python module drives the Azure command line tool.  Every object it
    creates (resource group, storage account, virtual network, subnet,
    network security group, regional network) is a mutable Python object
    that other objects hold by reference; the module also keeps three
    pieces of shared state: the attribute [azure_resource_group] of the
    benchmark spec, the class attribute [AzureVirtualNetwork.num_vnets]
    and the global set [ALL_NSGS].

    The embedding keeps all of this in one [State]: a store per class
    (a reference is an index into the store of its class), the shared
    counters, and the [trace] of the calls made to [vm_util].  Methods are
    computations in a state-and-exception monad [M]; a method runs to
    completion before the next one starts (the locks of the source make
    the guarded blocks atomic, and the model is sequential).  The outside
    world is an oracle [env] that answers a call from the history of the
    calls made so far. *)

From stdpp Require Import base gmap strings pretty list fin_maps.

Local Open Scope Z_scope.

(** ** The outside world: [vm_util], [azure.AZURE_PATH], [json], [FLAGS] *)

(** A call made to [vm_util]: which of the two entry points, and the
    argument vector. *)
Inductive Call :=
| IssueCommandCall (cmd : list string) (suppress_warning : bool)
| IssueRetryableCommandCall (cmd : list string).

Record CmdResult := { stdout : string; stderr : string; retcode : Z }.

Record Event := { ev_call : Call; ev_result : CmdResult }.

(** Values produced by [json.loads]. *)
#[local] Set Warnings "-register-all".
Inductive JSON :=
| JNull
| JBool (b : bool)
| JNumber (z : Z)
| JString (s : string)
| JArray (items : list JSON)
| JObject (fields : list (string * JSON)).

Record Flags := {
  run_uri : string;
  zones : list string;
  azure_storage_type : string }.

(** Everything the module reads but does not define.  [env] answers a
    call given the events so far; [retry_budget] is the number of times
    [vm_util.Retry] runs its body again before it gives up, and
    [create_attempts] the same for the retry around a resource's
    creation.  [iteritems] is the order in which a dict yields its
    items: Python leaves it open, so it is any order of the items, and
    it may depend on what happened so far.  [set_iter] is the same for
    the members of a set. *)
Class Environment := {
  env : list Event → Call → CmdResult;
  AZURE_PATH : string;
  json_loads : string → option JSON;
  FLAGS : Flags;
  retry_budget : nat;
  create_attempts : nat;
  iteritems : list Event → gmap (Z * Z) string → list (Z * Z * string);
  iteritems_items : ∀ history d, iteritems history d ≡ₚ map_to_list d;
  set_iter : list Event → gset nat → list nat;
  set_iter_elements : ∀ history s, set_iter history s ≡ₚ elements s }.

Inductive exn :=
| ValueError (msg : string)
| RetryableCreationError (msg : string)
| AssertionError
| CalledProcessException
| KeyError
| IndexError
| TypeError
| InvalidReference.

Inductive result (A : Type) :=
| Ok (a : A)
| Raise (e : exn).
Arguments Ok {A} a.
Arguments Raise {A} e.

Definition SSH_PORT : Z := 22.
Definition DEFAULT_LOCATION : string := "eastus2".

(** ** Objects *)

(** Modelled from the spec: [resource.BaseResource] is not part of the
    sources at hand.  The spec gives every handle an internal "already
    created" flag.  Of deletion it says that the resource group is
    "deleted once, at topology teardown, idempotently", that its
    deletion is "idempotent and safe to invoke once per region even
    though only one physical deletion should occur", and that creation
    and deletion are "collapsed to one call each even if two regions
    share it"; the model keeps this as a second flag. *)
Record BaseResource := { created : bool; deleted : bool }.

Record AzureResourceGroup := {
  rg_base : BaseResource;
  rg_name : string;
  rg_storage_account_prefix : string;
  rg_location : string;
  rg_args : list string }.

Record AzureStorageAccount := {
  sa_base : BaseResource;
  sa_storage_type : string;
  sa_name : string;
  sa_resource_group : nat;
  sa_location : string;
  sa_kind : string;
  sa_access_tier : option string;
  sa_connection_string : option JSON;
  sa_connection_args : option (list JSON);
  sa_key : option JSON }.

Record AzureVirtualNetwork := {
  vnet_base : BaseResource;
  vnet_name : string;
  vnet_resource_group : nat;
  vnet_location : string;
  vnet_args : list string;
  vnet_num : N;
  vnet_address_space : string }.

Record AzureSubnet := {
  subnet_base : BaseResource;
  subnet_resource_group : nat;
  subnet_vnet : nat;
  subnet_name : string;
  subnet_args : list string }.

(** [rules] is the dict [(start_port, end_port) -> rule name].  The lock
    [rules_lock] carries no data of its own. *)
Record AzureNetworkSecurityGroup := {
  nsg_base : BaseResource;
  nsg_location : string;
  nsg_subnet : nat;
  nsg_name : string;
  nsg_resource_group : nat;
  nsg_args : list string;
  rules : gmap (Z * Z) string;
  have_deny_all_rule : bool }.

Record AzureNetwork := {
  net_zone : string;
  net_resource_group : nat;
  net_storage_account : nat;
  net_vnet : nat;
  net_subnet : nat;
  net_nsg : nat }.

(** Of a virtual machine the module only follows [vm.network]. *)
Record VirtualMachine := { vm_network : nat }.

(** The benchmark spec of the running thread: its [uid], and the
    attribute [azure_resource_group], absent until first set. *)
Record BenchmarkSpec := {
  uid : string;
  azure_resource_group : option nat }.

Record State := {
  spec : BenchmarkSpec;
  groups : list AzureResourceGroup;
  accounts : list AzureStorageAccount;
  vnets : list AzureVirtualNetwork;
  subnets : list AzureSubnet;
  nsgs : list AzureNetworkSecurityGroup;
  networks : list AzureNetwork;
  num_vnets : N;
  ALL_NSGS : gset nat;
  trace : list Event }.

(** The state of a process that has not touched the module yet. *)
Definition initial_state (spec_uid : string) : State :=
  {| spec := {| uid := spec_uid; azure_resource_group := None |};
     groups := []; accounts := []; vnets := []; subnets := []; nsgs := [];
     networks := []; num_vnets := 0%N; ALL_NSGS := ∅; trace := [] |}.

(** *** Field updates *)

Definition set_created (b : bool) (r : BaseResource) : BaseResource :=
  {| created := b; deleted := deleted r |}.
Definition set_deleted (b : bool) (r : BaseResource) : BaseResource :=
  {| created := created r; deleted := b |}.

Definition set_rg_base (b : BaseResource) (g : AzureResourceGroup) :=
  {| rg_base := b; rg_name := rg_name g;
     rg_storage_account_prefix := rg_storage_account_prefix g;
     rg_location := rg_location g; rg_args := rg_args g |}.

Definition set_sa_base (b : BaseResource) (a : AzureStorageAccount) :=
  {| sa_base := b; sa_storage_type := sa_storage_type a; sa_name := sa_name a;
     sa_resource_group := sa_resource_group a; sa_location := sa_location a;
     sa_kind := sa_kind a; sa_access_tier := sa_access_tier a;
     sa_connection_string := sa_connection_string a;
     sa_connection_args := sa_connection_args a; sa_key := sa_key a |}.

Definition set_sa_connection (s : JSON) (a : AzureStorageAccount) :=
  {| sa_base := sa_base a; sa_storage_type := sa_storage_type a;
     sa_name := sa_name a; sa_resource_group := sa_resource_group a;
     sa_location := sa_location a; sa_kind := sa_kind a;
     sa_access_tier := sa_access_tier a;
     sa_connection_string := Some s;
     sa_connection_args := Some [JString "--connection-string"; s];
     sa_key := sa_key a |}.

Definition set_sa_key (k : JSON) (a : AzureStorageAccount) :=
  {| sa_base := sa_base a; sa_storage_type := sa_storage_type a;
     sa_name := sa_name a; sa_resource_group := sa_resource_group a;
     sa_location := sa_location a; sa_kind := sa_kind a;
     sa_access_tier := sa_access_tier a;
     sa_connection_string := sa_connection_string a;
     sa_connection_args := sa_connection_args a; sa_key := Some k |}.

Definition set_vnet_base (b : BaseResource) (v : AzureVirtualNetwork) :=
  {| vnet_base := b; vnet_name := vnet_name v;
     vnet_resource_group := vnet_resource_group v;
     vnet_location := vnet_location v; vnet_args := vnet_args v;
     vnet_num := vnet_num v; vnet_address_space := vnet_address_space v |}.

Definition set_subnet_base (b : BaseResource) (s : AzureSubnet) :=
  {| subnet_base := b; subnet_resource_group := subnet_resource_group s;
     subnet_vnet := subnet_vnet s; subnet_name := subnet_name s;
     subnet_args := subnet_args s |}.

Definition set_nsg_base (b : BaseResource) (n : AzureNetworkSecurityGroup) :=
  {| nsg_base := b; nsg_location := nsg_location n; nsg_subnet := nsg_subnet n;
     nsg_name := nsg_name n; nsg_resource_group := nsg_resource_group n;
     nsg_args := nsg_args n; rules := rules n;
     have_deny_all_rule := have_deny_all_rule n |}.

Definition set_rules (r : gmap (Z * Z) string) (n : AzureNetworkSecurityGroup) :=
  {| nsg_base := nsg_base n; nsg_location := nsg_location n;
     nsg_subnet := nsg_subnet n; nsg_name := nsg_name n;
     nsg_resource_group := nsg_resource_group n; nsg_args := nsg_args n;
     rules := r; have_deny_all_rule := have_deny_all_rule n |}.

Definition set_have_deny_all_rule (b : bool) (n : AzureNetworkSecurityGroup) :=
  {| nsg_base := nsg_base n; nsg_location := nsg_location n;
     nsg_subnet := nsg_subnet n; nsg_name := nsg_name n;
     nsg_resource_group := nsg_resource_group n; nsg_args := nsg_args n;
     rules := rules n; have_deny_all_rule := b |}.

Definition set_spec (x : BenchmarkSpec) (st : State) : State :=
  {| spec := x; groups := groups st; accounts := accounts st;
     vnets := vnets st; subnets := subnets st; nsgs := nsgs st;
     networks := networks st; num_vnets := num_vnets st;
     ALL_NSGS := ALL_NSGS st; trace := trace st |}.
Definition set_groups (x : list AzureResourceGroup) (st : State) : State :=
  {| spec := spec st; groups := x; accounts := accounts st;
     vnets := vnets st; subnets := subnets st; nsgs := nsgs st;
     networks := networks st; num_vnets := num_vnets st;
     ALL_NSGS := ALL_NSGS st; trace := trace st |}.
Definition set_accounts (x : list AzureStorageAccount) (st : State) : State :=
  {| spec := spec st; groups := groups st; accounts := x;
     vnets := vnets st; subnets := subnets st; nsgs := nsgs st;
     networks := networks st; num_vnets := num_vnets st;
     ALL_NSGS := ALL_NSGS st; trace := trace st |}.
Definition set_vnets (x : list AzureVirtualNetwork) (st : State) : State :=
  {| spec := spec st; groups := groups st; accounts := accounts st;
     vnets := x; subnets := subnets st; nsgs := nsgs st;
     networks := networks st; num_vnets := num_vnets st;
     ALL_NSGS := ALL_NSGS st; trace := trace st |}.
Definition set_subnets (x : list AzureSubnet) (st : State) : State :=
  {| spec := spec st; groups := groups st; accounts := accounts st;
     vnets := vnets st; subnets := x; nsgs := nsgs st;
     networks := networks st; num_vnets := num_vnets st;
     ALL_NSGS := ALL_NSGS st; trace := trace st |}.
Definition set_nsgs (x : list AzureNetworkSecurityGroup) (st : State) : State :=
  {| spec := spec st; groups := groups st; accounts := accounts st;
     vnets := vnets st; subnets := subnets st; nsgs := x;
     networks := networks st; num_vnets := num_vnets st;
     ALL_NSGS := ALL_NSGS st; trace := trace st |}.
Definition set_networks (x : list AzureNetwork) (st : State) : State :=
  {| spec := spec st; groups := groups st; accounts := accounts st;
     vnets := vnets st; subnets := subnets st; nsgs := nsgs st;
     networks := x; num_vnets := num_vnets st;
     ALL_NSGS := ALL_NSGS st; trace := trace st |}.
Definition set_num_vnets (x : N) (st : State) : State :=
  {| spec := spec st; groups := groups st; accounts := accounts st;
     vnets := vnets st; subnets := subnets st; nsgs := nsgs st;
     networks := networks st; num_vnets := x;
     ALL_NSGS := ALL_NSGS st; trace := trace st |}.
Definition set_ALL_NSGS (x : gset nat) (st : State) : State :=
  {| spec := spec st; groups := groups st; accounts := accounts st;
     vnets := vnets st; subnets := subnets st; nsgs := nsgs st;
     networks := networks st; num_vnets := num_vnets st;
     ALL_NSGS := x; trace := trace st |}.
Definition set_trace (x : list Event) (st : State) : State :=
  {| spec := spec st; groups := groups st; accounts := accounts st;
     vnets := vnets st; subnets := subnets st; nsgs := nsgs st;
     networks := networks st; num_vnets := num_vnets st;
     ALL_NSGS := ALL_NSGS st; trace := x |}.

(** ** The monad of methods: state and exceptions *)

Definition M (A : Type) : Type := State → result A * State.

Global Instance M_ret : MRet M := λ A a st, (Ok a, st).
Global Instance M_bind : MBind M := λ A B f m st,
  match m st with
  | (Ok a, st') => f a st'
  | (Raise e, st') => (Raise e, st')
  end.

Definition raise {A} (e : exn) : M A := λ st, (Raise e, st).
Definition get_state : M State := λ st, (Ok st, st).
Definition modify (f : State → State) : M unit := λ st, (Ok tt, f st).

(** Following a reference.  A Python reference always leads to an object;
    [InvalidReference] is the outcome the model gives to an index that is
    not in its store. *)
Definition deref {A} (store : State → list A) (r : nat) : M A := λ st,
  match store st !! r with
  | Some a => (Ok a, st)
  | None => (Raise InvalidReference, st)
  end.

(** [for x in xs: body(x)] *)
Fixpoint for_each {A} (body : A → M unit) (xs : list A) : M unit :=
  match xs with
  | [] => mret tt
  | x :: xs' => body x;; for_each body xs'
  end.

(** Modelled from the spec: [vm_util.Retry] is not part of the sources at
    hand.  The spec describes a bounded retry that runs the body again
    when it fails and lets the last failure through; [retryable] selects
    the failures that are retried and [budget] counts the further
    attempts. *)
Fixpoint Retry {A} (retryable : exn → bool) (budget : nat) (body : M A) : M A :=
  λ st,
    match body st with
    | (Ok a, st') => (Ok a, st')
    | (Raise e, st') =>
        match budget with
        | S budget' =>
            if retryable e then Retry retryable budget' body st'
            else (Raise e, st')
        | O => (Raise e, st')
        end
    end.

(** ** Python helpers *)

(** [x or y] on an optional integer: [None] and [0] are the falsy ones. *)
Definition py_or (x : option Z) (y : Z) : Z :=
  match x with
  | Some v => if decide (v = 0) then y else v
  | None => y
  end.

(** [x or y] on an optional string: [None] and [''] are the falsy ones. *)
Definition py_or_str (x : option string) (y : string) : string :=
  match x with
  | Some v => if decide (v = "") then y else v
  | None => y
  end.

(** [s[:n]]: a negative bound counts from the end of the string. *)
Definition py_slice_to (n : Z) (s : string) : string :=
  let len := Z.of_nat (String.length s) in
  let stop := if decide (n < 0) then Z.max 0 (len + n) else Z.min n len in
  String.substring 0 (Z.to_nat stop) s.

(** [obj[key]] on a parsed JSON value. *)
Fixpoint assoc_lookup (key : string) (fields : list (string * JSON)) : option JSON :=
  match fields with
  | [] => None
  | (k, v) :: rest => if decide (k = key) then Some v else assoc_lookup key rest
  end.

Definition json_getitem_str (key : string) (j : JSON) : result JSON :=
  match j with
  | JObject fields =>
      match assoc_lookup key fields with
      | Some v => Ok v
      | None => Raise KeyError
      end
  | _ => Raise TypeError
  end.

(** [obj[0]]: the first item of a list, the first character of a text;
    a dict has no key [0], the other values cannot be indexed. *)
Definition json_getitem_0 (j : JSON) : result JSON :=
  match j with
  | JArray (x :: _) => Ok x
  | JArray [] => Raise IndexError
  | JString (String c _) => Ok (JString (String c EmptyString))
  | JString EmptyString => Raise IndexError
  | JObject _ => Raise KeyError
  | _ => Raise TypeError
  end.

(** [value == 'text'] for a parsed JSON value. *)
Definition json_eq_str (j : JSON) (s : string) : bool :=
  match j with
  | JString s' => bool_decide (s' = s)
  | _ => false
  end.

(** The text ['{}\n']: an empty JSON object and a line feed. *)
Definition EMPTY_OBJECT : string :=
  "{}" +:+ String (Ascii.ascii_of_nat 10) EmptyString.

Definition lift_result {A} (r : result A) : M A := λ st, (r, st).

(** ** [vm_util] *)

Module vm_util.
Section vm_util.
Context `{!Environment}.

Definition record (c : Call) (r : CmdResult) (st : State) : State :=
  set_trace (trace st ++ [{| ev_call := c; ev_result := r |}]) st.

(** [vm_util.IssueCommand(cmd)]: runs the command once and returns
    [(stdout, stderr, retcode)]; it does not raise on a non-zero
    status. *)
Definition IssueCommand (cmd : list string) (suppress_warning : bool)
  : M CmdResult := λ st,
  let c := IssueCommandCall cmd suppress_warning in
  let r := env (trace st) c in
  (Ok r, record c r st).

(** Modelled from the spec: [vm_util.IssueRetryableCommand] is not part
    of the sources at hand.  The spec describes it as
    [RunRetryableCommand(argv) -> (stdout, stderr)] "that fails
    (propagating) if all attempts exhaust".  One event stands for the
    whole call; its status tells whether the wrapper came back with a
    result. *)
Definition IssueRetryableCommand (cmd : list string)
  : M (string * string) := λ st,
  let c := IssueRetryableCommandCall cmd in
  let r := env (trace st) c in
  if decide (retcode r = 0) then (Ok (stdout r, stderr r), record c r st)
  else (Raise CalledProcessException, record c r st).

(** [@vm_util.Retry()] with its default arguments retries on every
    exception. *)
Definition Retry_default {A} (body : M A) : M A :=
  Retry (λ _, true) retry_budget body.
End vm_util.
End vm_util.

(** ** [resource.BaseResource] *)

Module resource.
Section resource.
Context `{!Environment}.

Definition BaseResource__init__ : BaseResource :=
  {| created := false; deleted := false |}.

Definition is_RetryableCreationError (e : exn) : bool :=
  match e with RetryableCreationError _ => true | _ => false end.

(** The methods of [BaseResource] are inherited: they are given the
    accessors of the handle's own base fields and the subclass's
    [_Create], [_PostCreate] and [_Delete], already applied to
    [self]. *)
Section methods.
Variable load : M BaseResource.
Variable store : BaseResource → M unit.
Variables _Create _PostCreate _Delete : M unit.

(** Modelled from the spec: [BaseResource.Create] is not part of the
    sources at hand.  "Once a given handle instance has successfully
    created its underlying object, subsequent [Create] calls on the
    same instance are no-ops (guarded by an internal 'already
    created' flag set only after the underlying operation reports
    success)"; the creation is retried, a bounded number of times,
    "when the underlying operation signals a retryable creation
    failure"; [PostCreate] "runs only after a successful
    [Create]". *)
Definition Create : M unit :=
  b ← load;
  if created b then mret tt
  else
    Retry is_RetryableCreationError create_attempts _Create;;
    b ← load;
    store (set_created true b);;
    _PostCreate.

(** Modelled from the spec: [BaseResource.Delete] is not part of the
    sources at hand.  Deletion is "idempotent": a resource is
    "deleted once, at topology teardown, idempotently", failures
    "are not retried by the framework; they propagate", and [Delete]
    may be called on a handle that was never created. *)
Definition Delete : M unit :=
  b ← load;
  if deleted b then mret tt
  else
    _Delete;;
    b ← load;
    store (set_deleted true b).
End methods.
End resource.
End resource.

(** ** [GetResourceGroup] and [AzureResourceGroup] *)

Module AzureResourceGroup.
Section AzureResourceGroup.
Context `{!Environment}.
Import vm_util.

Definition get (self : nat) : M AzureResourceGroup := deref groups self.
Definition put (self : nat) (g : AzureResourceGroup) : M unit :=
  modify (λ st, set_groups (<[self := g]> (groups st)) st).

(** A new object joins the store; its reference is its index. *)
Definition alloc (self : AzureResourceGroup) : M nat := λ st,
  (Ok (length (groups st)), set_groups (groups st ++ [self]) st).

Definition __init__ (run_uri spec_uid : string) : M nat :=
  let name := "pkb" +:+ run_uri +:+ "-" +:+ spec_uid in
  alloc {| rg_base := resource.BaseResource__init__;
           rg_name := name;
           rg_storage_account_prefix := "pkb" +:+ run_uri +:+ spec_uid;
           rg_location := match zones FLAGS with
                          | z :: _ => z
                          | [] => DEFAULT_LOCATION
                          end;
           rg_args := ["--resource-group"; name] |}.

Definition _Create (self : nat) : M unit :=
  g ← get self;
  r ← IssueCommand [AZURE_PATH; "group"; "create"; rg_name g; rg_location g]
        false;
  if decide (retcode r = 0) then mret tt
  else raise (RetryableCreationError "Error creating Azure resource group").

Definition _Exists (self : nat) : M bool :=
  g ← get self;
  r ← IssueCommand [AZURE_PATH; "resource"; "list"; rg_name g] false;
  mret (bool_decide (retcode r = 0)).

Definition _Delete (self : nat) : M unit :=
  g ← get self;
  IssueCommand [AZURE_PATH; "group"; "delete"; "--quiet"; rg_name g] false;;
  mret tt.

Definition load (self : nat) : M BaseResource := g ← get self; mret (rg_base g).
Definition store (self : nat) (b : BaseResource) : M unit :=
  g ← get self; put self (set_rg_base b g).

Definition Create (self : nat) : M unit :=
  resource.Create (load self) (store self) (_Create self) (mret tt).
Definition Delete (self : nat) : M unit :=
  resource.Delete (load self) (store self) (_Delete self).
End AzureResourceGroup.
End AzureResourceGroup.

Section GetResourceGroup.
Context `{!Environment}.

(** The [try: ... except AttributeError:] of the source is the test
    whether the attribute has been set. *)
Definition GetResourceGroup : M nat :=
  st ← get_state;
  match azure_resource_group (spec st) with
  | Some group => mret group
  | None =>
      group ← AzureResourceGroup.__init__ (run_uri FLAGS) (uid (spec st));
      modify (λ st, set_spec {| uid := uid (spec st);
                                azure_resource_group := Some group |} st);;
      mret group
  end.
End GetResourceGroup.

(** ** [AzureStorageAccount] *)

Module AzureStorageAccount.
Section AzureStorageAccount.
Context `{!Environment}.
Import vm_util.

Definition get (self : nat) : M AzureStorageAccount := deref accounts self.
Definition put (self : nat) (a : AzureStorageAccount) : M unit :=
  modify (λ st, set_accounts (<[self := a]> (accounts st)) st).

(** A new object joins the store; its reference is its index. *)
Definition alloc (self : AzureStorageAccount) : M nat := λ st,
  (Ok (length (accounts st)), set_accounts (accounts st ++ [self]) st).

Definition __init__ (storage_type location name : string)
    (kind access_tier : option string) : M nat :=
  resource_group ← GetResourceGroup;
  access_tier' ←
    (if decide (kind = Some "BlobStorage")
     then mret (Some (py_or_str access_tier "Hot"))
     else match access_tier with
          | None => mret None
          | Some _ => raise AssertionError
          end);
  alloc {| sa_base := resource.BaseResource__init__;
           sa_storage_type := storage_type;
           sa_name := name;
           sa_resource_group := resource_group;
           sa_location := location;
           sa_kind := py_or_str kind "Storage";
           sa_access_tier := access_tier';
           sa_connection_string := None;
           sa_connection_args := None;
           sa_key := None |}.

(** The list [create_cmd] that [_Create] builds.  An access tier that
    is [None] cannot be an argument of a command: there is no list
    then, and issuing it is a [TypeError]. *)
Definition create_cmd (a : AzureStorageAccount) (g : AzureResourceGroup)
  : option (list string) :=
  let create_cmd :=
    [AZURE_PATH; "storage"; "account"; "create";
     "--kind"; sa_kind a; "--sku-name"; sa_storage_type a; sa_name a]
    ++ rg_args g in
  let create_cmd :=
    if decide (sa_location a = "") then create_cmd
    else create_cmd ++ ["--location"; sa_location a] in
  if decide (sa_kind a = "BlobStorage") then
    match sa_access_tier a with
    | Some tier => Some (create_cmd ++ ["--access-tier"; tier])
    | None => None
    end
  else Some create_cmd.

Definition _Create (self : nat) : M unit :=
  a ← get self;
  g ← AzureResourceGroup.get (sa_resource_group a);
  match create_cmd a g with
  | Some cmd => IssueCommand cmd false;; mret tt
  | None => raise TypeError
  end.

Definition _PostCreate (self : nat) : M unit :=
  a ← get self;
  g ← AzureResourceGroup.get (sa_resource_group a);
  out ← IssueRetryableCommand
          ([AZURE_PATH; "storage"; "account"; "connectionstring"; "show";
            "--json"; sa_name a] ++ rg_args g);
  response ← (match json_loads out.1 with
              | Some j => mret j
              | None => raise (ValueError "No JSON object could be decoded")
              end);
  connection_string ← lift_result (json_getitem_str "string" response);
  a ← get self;
  put self (set_sa_connection connection_string a);;
  a ← get self;
  g ← AzureResourceGroup.get (sa_resource_group a);
  out ← IssueRetryableCommand
          ([AZURE_PATH; "storage"; "account"; "keys"; "list";
            "--json"; sa_name a] ++ rg_args g);
  response ← (match json_loads out.1 with
              | Some j => mret j
              | None => raise (ValueError "No JSON object could be decoded")
              end);
  first ← lift_result (json_getitem_0 response);
  permissions ← lift_result (json_getitem_str "permissions" first);
  if json_eq_str permissions "Full" then
    first ← lift_result (json_getitem_0 response);
    value ← lift_result (json_getitem_str "value" first);
    a ← get self;
    put self (set_sa_key value a)
  else raise AssertionError.

Definition _Delete (self : nat) : M unit :=
  a ← get self;
  g ← AzureResourceGroup.get (sa_resource_group a);
  IssueCommand ([AZURE_PATH; "storage"; "account"; "delete"; "--quiet";
                 sa_name a] ++ rg_args g) false;;
  mret tt.

Definition _Exists (self : nat) : M bool :=
  a ← get self;
  g ← AzureResourceGroup.get (sa_resource_group a);
  r ← IssueCommand ([AZURE_PATH; "storage"; "account"; "show"; "--json";
                     sa_name a] ++ rg_args g) true;
  mret (bool_decide (retcode r = 0)).

Definition load (self : nat) : M BaseResource := a ← get self; mret (sa_base a).
Definition store (self : nat) (b : BaseResource) : M unit :=
  a ← get self; put self (set_sa_base b a).

Definition Create (self : nat) : M unit :=
  resource.Create (load self) (store self) (_Create self) (_PostCreate self).
Definition Delete (self : nat) : M unit :=
  resource.Delete (load self) (store self) (_Delete self).
End AzureStorageAccount.
End AzureStorageAccount.

(** ** [AzureVirtualNetwork] *)

Module AzureVirtualNetwork.
Section AzureVirtualNetwork.
Context `{!Environment}.
Import vm_util.

Definition get (self : nat) : M AzureVirtualNetwork := deref vnets self.
Definition put (self : nat) (v : AzureVirtualNetwork) : M unit :=
  modify (λ st, set_vnets (<[self := v]> (vnets st)) st).

Definition alloc (self : AzureVirtualNetwork) : M nat := λ st,
  (Ok (length (vnets st)), set_vnets (vnets st ++ [self]) st).

(** [with self.vnet_lock:] reads the class counter and increments it. *)
Definition take_vnet_num : M N := λ st,
  (Ok (num_vnets st), set_num_vnets (num_vnets st + 1)%N st).

Definition __init__ (location name : string) : M nat :=
  resource_group ← GetResourceGroup;
  num ← take_vnet_num;
  alloc {| vnet_base := resource.BaseResource__init__;
           vnet_name := name;
           vnet_resource_group := resource_group;
           vnet_location := location;
           vnet_args := ["--vnet-name"; name];
           vnet_num := num;
           vnet_address_space := "10." +:+ pretty num +:+ ".0.0/16" |}.

Definition _Create (self : nat) : M unit :=
  v ← get self;
  g ← AzureResourceGroup.get (vnet_resource_group v);
  IssueCommand ([AZURE_PATH; "network"; "vnet"; "create";
                 "--location"; vnet_location v;
                 "--address-prefixes"; vnet_address_space v;
                 vnet_name v] ++ rg_args g) false;;
  mret tt.

Definition _Delete (self : nat) : M unit :=
  v ← get self;
  g ← AzureResourceGroup.get (vnet_resource_group v);
  IssueCommand ([AZURE_PATH; "network"; "vnet"; "delete"; "--quiet";
                 vnet_name v] ++ rg_args g) false;;
  mret tt.

Definition _Exists (self : nat) : M bool :=
  v ← get self;
  g ← AzureResourceGroup.get (vnet_resource_group v);
  r ← IssueCommand ([AZURE_PATH; "network"; "vnet"; "show"; "--json";
                     vnet_name v] ++ rg_args g) true;
  mret (bool_decide (retcode r = 0) && negb (bool_decide (stdout r = EMPTY_OBJECT))).

Definition load (self : nat) : M BaseResource := v ← get self; mret (vnet_base v).
Definition store (self : nat) (b : BaseResource) : M unit :=
  v ← get self; put self (set_vnet_base b v).

Definition Create (self : nat) : M unit :=
  resource.Create (load self) (store self) (_Create self) (mret tt).
Definition Delete (self : nat) : M unit :=
  resource.Delete (load self) (store self) (_Delete self).
End AzureVirtualNetwork.
End AzureVirtualNetwork.

(** ** [AzureSubnet] *)

Module AzureSubnet.
Section AzureSubnet.
Context `{!Environment}.
Import vm_util.

Definition get (self : nat) : M AzureSubnet := deref subnets self.
Definition put (self : nat) (s : AzureSubnet) : M unit :=
  modify (λ st, set_subnets (<[self := s]> (subnets st)) st).

Definition alloc (self : AzureSubnet) : M nat := λ st,
  (Ok (length (subnets st)), set_subnets (subnets st ++ [self]) st).

Definition __init__ (vnet : nat) (name : string) : M nat :=
  resource_group ← GetResourceGroup;
  alloc {| subnet_base := resource.BaseResource__init__;
           subnet_resource_group := resource_group;
           subnet_vnet := vnet;
           subnet_name := name;
           subnet_args := ["--vnet-subnet-name"; name] |}.

Definition _Create (self : nat) : M unit :=
  s ← get self;
  v ← AzureVirtualNetwork.get (subnet_vnet s);
  g ← AzureResourceGroup.get (subnet_resource_group s);
  IssueCommand ([AZURE_PATH; "network"; "vnet"; "subnet"; "create";
                 "--vnet-name"; vnet_name v;
                 "--address-prefix"; vnet_address_space v;
                 subnet_name s] ++ rg_args g) false;;
  mret tt.

Definition _Exists (self : nat) : M bool :=
  s ← get self;
  v ← AzureVirtualNetwork.get (subnet_vnet s);
  g ← AzureResourceGroup.get (subnet_resource_group s);
  r ← IssueCommand ([AZURE_PATH; "network"; "vnet"; "subnet"; "show";
                     "--vnet-name"; vnet_name v; "--json";
                     subnet_name s] ++ rg_args g) false;
  mret (bool_decide (retcode r = 0) && negb (bool_decide (stdout r = EMPTY_OBJECT))).

Definition _Delete (self : nat) : M unit :=
  s ← get self;
  v ← AzureVirtualNetwork.get (subnet_vnet s);
  g ← AzureResourceGroup.get (subnet_resource_group s);
  IssueCommand ([AZURE_PATH; "network"; "vnet"; "subnet"; "delete";
                 "--vnet-name"; vnet_name v; "--quiet";
                 subnet_name s] ++ rg_args g) false;;
  mret tt.

Definition load (self : nat) : M BaseResource := s ← get self; mret (subnet_base s).
Definition store (self : nat) (b : BaseResource) : M unit :=
  s ← get self; put self (set_subnet_base b s).

Definition Create (self : nat) : M unit :=
  resource.Create (load self) (store self) (_Create self) (mret tt).
Definition Delete (self : nat) : M unit :=
  resource.Delete (load self) (store self) (_Delete self).
End AzureSubnet.
End AzureSubnet.

(** ** [AzureNetworkSecurityGroup] *)

Module AzureNetworkSecurityGroup.
Section AzureNetworkSecurityGroup.
Context `{!Environment}.
Import vm_util.

Definition get (self : nat) : M AzureNetworkSecurityGroup := deref nsgs self.
Definition put (self : nat) (n : AzureNetworkSecurityGroup) : M unit :=
  modify (λ st, set_nsgs (<[self := n]> (nsgs st)) st).

Definition alloc (self : AzureNetworkSecurityGroup) : M nat := λ st,
  (Ok (length (nsgs st)), set_nsgs (nsgs st ++ [self]) st).

Definition __init__ (location : string) (subnet : nat) (name : string)
  : M nat :=
  resource_group ← GetResourceGroup;
  alloc {| nsg_base := resource.BaseResource__init__;
           nsg_location := location;
           nsg_subnet := subnet;
           nsg_name := name;
           nsg_resource_group := resource_group;
           nsg_args := ["--nsg-name"; name];
           rules := ∅;
           have_deny_all_rule := false |}.

Definition _Create (self : nat) : M unit :=
  n ← get self;
  g ← AzureResourceGroup.get (nsg_resource_group n);
  IssueCommand ([AZURE_PATH; "network"; "nsg"; "create";
                 "--location"; nsg_location n; nsg_name n] ++ rg_args g)
    false;;
  mret tt.

Definition _Exists (self : nat) : M bool :=
  n ← get self;
  g ← AzureResourceGroup.get (nsg_resource_group n);
  r ← IssueCommand ([AZURE_PATH; "network"; "nsg"; "show"; "--json";
                     nsg_name n] ++ rg_args g) false;
  mret (bool_decide (retcode r = 0) && negb (bool_decide (stdout r = EMPTY_OBJECT))).

Definition _Delete (self : nat) : M unit :=
  n ← get self;
  g ← AzureResourceGroup.get (nsg_resource_group n);
  IssueCommand ([AZURE_PATH; "network"; "nsg"; "delete"; "--quiet";
                 nsg_name n] ++ rg_args g) false;;
  mret tt.

Definition AttachToSubnet (self : nat) : M unit :=
  n ← get self;
  s ← AzureSubnet.get (nsg_subnet n);
  g ← AzureResourceGroup.get (nsg_resource_group n);
  v ← AzureVirtualNetwork.get (subnet_vnet s);
  IssueRetryableCommand
    ([AZURE_PATH; "network"; "vnet"; "subnet"; "set";
      "--name"; subnet_name s;
      "--network-security-group-name"; nsg_name n]
     ++ rg_args g ++ vnet_args v);;
  mret tt.

(** The argument vector of the rule creation issued by [AllowPort]. *)
Definition rule_create_cmd (rule_name port_range : string)
    (rule_priority : Z) (g : AzureResourceGroup)
    (n : AzureNetworkSecurityGroup) : list string :=
  [AZURE_PATH; "network"; "nsg"; "rule"; "create"; rule_name;
   "--destination-port-range"; port_range;
   "--access"; "Allow";
   "--priority"; pretty rule_priority]
  ++ rg_args g ++ nsg_args n.

(** The block of [AllowPort] under [with self.rules_lock:].  It returns
    [None] where the source returns from the method, and otherwise the
    values the rest of the method uses. *)
Definition AllowPort_locked (self : nat) (start_port : Z)
    (end_port : option Z) : M (option (string * string * Z)) :=
  n ← get self;
  let end_port := py_or end_port start_port in
  match rules n !! (start_port, end_port) with
  | Some _ => mret None
  | None =>
      let port_range := pretty start_port +:+ "-" +:+ pretty end_port in
      let rule_name := "allow-" +:+ port_range in
      let rule_priority := 100 + Z.of_nat (size (rules n)) in
      if decide (4095 ≤ rule_priority)
      then raise (ValueError "Too many firewall rules!")
      else
        put self (set_rules (<[(start_port, end_port) := rule_name]> (rules n)) n);;
        mret (Some (rule_name, port_range, rule_priority))
  end.

Definition AllowPort (self : nat) (vm : VirtualMachine) (start_port : Z)
    (end_port : option Z) (source_range : option string) : M unit :=
  pending ← AllowPort_locked self start_port end_port;
  match pending with
  | None => mret tt
  | Some (rule_name, port_range, rule_priority) =>
      n ← get self;
      g ← AzureResourceGroup.get (nsg_resource_group n);
      IssueRetryableCommand
        (rule_create_cmd rule_name port_range rule_priority g n);;
      mret tt
  end.

Definition rule_delete_cmd (rule : string) (g : AzureResourceGroup)
    (n : AzureNetworkSecurityGroup) : list string :=
  [AZURE_PATH; "network"; "nsg"; "rule"; "delete"; "--quiet"; rule]
  ++ rg_args g ++ nsg_args n.

Definition deny_all_cmd (g : AzureResourceGroup)
    (n : AzureNetworkSecurityGroup) : list string :=
  [AZURE_PATH; "network"; "nsg"; "rule"; "create"; "DenyAll";
   "--access"; "Deny"; "--priority"; "4095"]
  ++ rg_args g ++ nsg_args n.

(** The body of the loop of [DisallowAllPorts], for one item
    [(port, rule)] of the dict. *)
Definition DisallowAllPorts_body (self : nat) (item : (Z * Z) * string)
  : M unit :=
  n ← get self;
  g ← AzureResourceGroup.get (nsg_resource_group n);
  IssueRetryableCommand (rule_delete_cmd item.2 g n);;
  mret tt.

(** The loop of [DisallowAllPorts]: one deletion for each item of the
    dict, in the order [self.rules.iteritems()] yields them. *)
Definition DisallowAllPorts_loop (self : nat) : M unit :=
  n ← get self;
  st ← get_state;
  for_each (DisallowAllPorts_body self) (iteritems (trace st) (rules n)).

Definition DisallowAllPorts (self : nat) : M unit :=
  DisallowAllPorts_loop self;;
  n ← get self;
  put self (set_rules ∅ n);;
  n ← get self;
  if have_deny_all_rule n then mret tt
  else
    g ← AzureResourceGroup.get (nsg_resource_group n);
    IssueRetryableCommand (deny_all_cmd g n);;
    n ← get self;
    put self (set_have_deny_all_rule true n).

Definition load (self : nat) : M BaseResource := n ← get self; mret (nsg_base n).
Definition store (self : nat) (b : BaseResource) : M unit :=
  n ← get self; put self (set_nsg_base b n).

Definition Create (self : nat) : M unit :=
  resource.Create (load self) (store self) (_Create self) (mret tt).
Definition Delete (self : nat) : M unit :=
  resource.Delete (load self) (store self) (_Delete self).
End AzureNetworkSecurityGroup.
End AzureNetworkSecurityGroup.

(** ** [AzureNetwork] *)

Module AzureNetwork.
Section AzureNetwork.
Context `{!Environment}.

Definition get (self : nat) : M AzureNetwork := deref networks self.

Definition alloc (self : AzureNetwork) : M nat := λ st,
  (Ok (length (networks st)), set_networks (networks st ++ [self]) st).

(** [spec.zone] is what [BaseNetwork.__init__] stores as [self.zone]. *)
Definition __init__ (zone : string) : M nat :=
  resource_group ← GetResourceGroup;
  g ← AzureResourceGroup.get resource_group;
  let suffix := zone +:+ "storage" in
  storage_account ←
    AzureStorageAccount.__init__ (azure_storage_type FLAGS) zone
      (py_slice_to (24 - Z.of_nat (String.length suffix))
                   (rg_storage_account_prefix g) +:+ suffix)
      None None;
  let prefix := rg_name g +:+ "-" +:+ zone in
  vnet ← AzureVirtualNetwork.__init__ zone (prefix +:+ "-vnet");
  v ← AzureVirtualNetwork.get vnet;
  subnet ← AzureSubnet.__init__ vnet (vnet_name v +:+ "-subnet");
  s ← AzureSubnet.get subnet;
  nsg ← AzureNetworkSecurityGroup.__init__ zone subnet
          (subnet_name s +:+ "-nsg");
  modify (λ st, set_ALL_NSGS ({[nsg]} ∪ ALL_NSGS st) st);;
  alloc {| net_zone := zone;
           net_resource_group := resource_group;
           net_storage_account := storage_account;
           net_vnet := vnet;
           net_subnet := subnet;
           net_nsg := nsg |}.

(** The body of [Create], which [@vm_util.Retry()] wraps. *)
Definition Create_body (self : nat) : M unit :=
  net ← get self;
  AzureResourceGroup.Create (net_resource_group net);;
  AzureStorageAccount.Create (net_storage_account net);;
  AzureVirtualNetwork.Create (net_vnet net);;
  AzureSubnet.Create (net_subnet net);;
  AzureNetworkSecurityGroup.Create (net_nsg net);;
  AzureNetworkSecurityGroup.AttachToSubnet (net_nsg net).

Definition Create (self : nat) : M unit :=
  vm_util.Retry_default (Create_body self).

Definition Delete (self : nat) : M unit :=
  net ← get self;
  AzureSubnet.Delete (net_subnet net);;
  AzureNetworkSecurityGroup.Delete (net_nsg net);;
  AzureVirtualNetwork.Delete (net_vnet net);;
  AzureStorageAccount.Delete (net_storage_account net);;
  AzureResourceGroup.Delete (net_resource_group net).
End AzureNetwork.
End AzureNetwork.

(** ** [AzureFirewall] *)

Module AzureFirewall.
Section AzureFirewall.
Context `{!Environment}.

Definition AllowPort (vm : VirtualMachine) (start_port : Z)
    (end_port : option Z) (source_range : option string) : M unit :=
  net ← AzureNetwork.get (vm_network vm);
  AzureNetworkSecurityGroup.AllowPort (net_nsg net) vm start_port
    end_port source_range.

Definition DisallowAllPorts : M unit :=
  st ← get_state;
  for_each AzureNetworkSecurityGroup.DisallowAllPorts
           (set_iter (trace st) (ALL_NSGS st)).
End AzureFirewall.
End AzureFirewall.

(** ** Observing runs

    The definitions below are not in the source: they name what the
    statements about the module talk about. *)

(** The calls made to [vm_util] so far, oldest first. *)
Definition calls (st : State) : list Call := map ev_call (trace st).

(** Independent calls made one after the other: each starts in the state
    the previous one left, whether that one returned or raised. *)
Fixpoint after_calls (ms : list (M unit)) (st : State) : State :=
  match ms with
  | [] => st
  | m :: ms' => after_calls ms' (m st).2
  end.

(** A request to open ports, as [AllowPort] receives it. *)
Record PortRequest := {
  req_vm : VirtualMachine;
  req_start_port : Z;
  req_end_port : option Z;
  req_source_range : option string }.

(** The pair of ports a request asks for, which is the key of the rule
    table it is filed under: an end port that is not given, or is 0,
    stands for the start port. *)
Definition request_key (start_port : Z) (end_port : option Z) : Z * Z :=
  match end_port with
  | None | Some 0 => (start_port, start_port)
  | Some end_port => (start_port, end_port)
  end.

Definition req_key (r : PortRequest) : Z * Z :=
  request_key (req_start_port r) (req_end_port r).

(** The port range and the rule name of a pair of ports: for the pair
    (80, 443) the texts "80-443" and "allow-80-443". *)
Definition port_range_of (k : Z * Z) : string :=
  pretty k.1 +:+ "-" +:+ pretty k.2.

Definition rule_name_of (k : Z * Z) : string :=
  "allow-" +:+ pretty k.1 +:+ "-" +:+ pretty k.2.

(** An operation on one network security group. *)
Inductive NsgOp :=
| OpAllowPort (r : PortRequest)
| OpDisallowAllPorts.

(** The steps of creating and deleting a regional network. *)
Inductive Step :=
| CreateResourceGroup
| CreateStorageAccount
| CreateVirtualNetwork
| CreateSubnet
| CreateNetworkSecurityGroup
| AttachSecurityGroup
| DeleteSubnet
| DeleteNetworkSecurityGroup
| DeleteVirtualNetwork
| DeleteStorageAccount
| DeleteResourceGroup.

Definition cmd_of (c : Call) : list string :=
  match c with
  | IssueCommandCall cmd _ => cmd
  | IssueRetryableCommandCall cmd => cmd
  end.

(** The step a command stands for, read off the words that follow the
    path of the tool; [None] for the read-only queries and the rule
    commands. *)
Definition step_of (c : Call) : option Step :=
  match cmd_of c with
  | _ :: "group" :: "create" :: _ => Some CreateResourceGroup
  | _ :: "group" :: "delete" :: _ => Some DeleteResourceGroup
  | _ :: "storage" :: "account" :: "create" :: _ => Some CreateStorageAccount
  | _ :: "storage" :: "account" :: "delete" :: _ => Some DeleteStorageAccount
  | _ :: "network" :: "vnet" :: "create" :: _ => Some CreateVirtualNetwork
  | _ :: "network" :: "vnet" :: "delete" :: _ => Some DeleteVirtualNetwork
  | _ :: "network" :: "vnet" :: "subnet" :: "create" :: _ => Some CreateSubnet
  | _ :: "network" :: "vnet" :: "subnet" :: "delete" :: _ => Some DeleteSubnet
  | _ :: "network" :: "vnet" :: "subnet" :: "set" :: _ => Some AttachSecurityGroup
  | _ :: "network" :: "nsg" :: "create" :: _ => Some CreateNetworkSecurityGroup
  | _ :: "network" :: "nsg" :: "delete" :: _ => Some DeleteNetworkSecurityGroup
  | _ => None
  end.

(** Whether a command creates the [DenyAll] rule. *)
Definition is_deny_all (c : Call) : bool :=
  match cmd_of c with
  | _ :: "network" :: "nsg" :: "rule" :: "create" :: "DenyAll" :: _ => true
  | _ => false
  end.

(** What [_Exists] answers when it reads the status and the payload, and
    when it reads the status alone. *)
Definition by_status_and_payload (r : CmdResult) : bool :=
  bool_decide (retcode r = 0) && negb (bool_decide (stdout r = EMPTY_OBJECT)).

Definition by_status (r : CmdResult) : bool := bool_decide (retcode r = 0).

(** The address space of the [k]-th virtual network. *)
Definition address_space_of (k : N) : string :=
  "10." +:+ pretty k +:+ ".0.0/16".

(** The counter is the number of networks constructed, and the network
    at index [k] has the [k]-th address space. *)
Definition vnets_numbered (st : State) : Prop :=
  num_vnets st = N.of_nat (length (vnets st))
  ∧ ∀ k v, vnets st !! k = Some v →
           vnet_address_space v = address_space_of (N.of_nat k).

(** The objects a regional network refers to, all in the same resource
    group, as [AzureNetwork.__init__] wires them. *)
Definition network_objects (st : State) (net : AzureNetwork)
    (g : AzureResourceGroup) (a : AzureStorageAccount)
    (v : AzureVirtualNetwork) (s : AzureSubnet)
    (n : AzureNetworkSecurityGroup) : Prop :=
  groups st !! net_resource_group net = Some g
  ∧ accounts st !! net_storage_account net = Some a
  ∧ sa_resource_group a = net_resource_group net
  ∧ vnets st !! net_vnet net = Some v
  ∧ vnet_resource_group v = net_resource_group net
  ∧ subnets st !! net_subnet net = Some s
  ∧ subnet_vnet s = net_vnet net
  ∧ subnet_resource_group s = net_resource_group net
  ∧ nsgs st !! net_nsg net = Some n
  ∧ nsg_subnet n = net_subnet net
  ∧ nsg_resource_group n = net_resource_group net.

(** Two regional networks that have the resource group in common and
    nothing else. *)
Definition share_only_group (net1 net2 : AzureNetwork) : Prop :=
  net_resource_group net1 = net_resource_group net2
  ∧ net_storage_account net1 ≠ net_storage_account net2
  ∧ net_vnet net1 ≠ net_vnet net2
  ∧ net_subnet net1 ≠ net_subnet net2
  ∧ net_nsg net1 ≠ net_nsg net2.

(** [st'] is [st] with the objects of [net] replaced by the given ones. *)
Definition stores_updated (st st' : State) (net : AzureNetwork)
    (g' : AzureResourceGroup) (a' : AzureStorageAccount)
    (v' : AzureVirtualNetwork) (s' : AzureSubnet)
    (n' : AzureNetworkSecurityGroup) : Prop :=
  groups st' = <[net_resource_group net := g']> (groups st)
  ∧ accounts st' = <[net_storage_account net := a']> (accounts st)
  ∧ vnets st' = <[net_vnet net := v']> (vnets st)
  ∧ subnets st' = <[net_subnet net := s']> (subnets st)
  ∧ nsgs st' = <[net_nsg net := n']> (nsgs st)
  ∧ networks st' = networks st.

(** The steps among the calls made between two states. *)
Definition steps_between (st st' : State) : list Step :=
  omap step_of (drop (length (calls st)) (calls st')).

Section observers.
Context `{!Environment}.

(** The state after one more call to [vm_util]. *)
Definition issue (c : Call) (st : State) : State :=
  vm_util.record c (env (trace st) c) st.

(** What [IssueRetryableCommand] hands back for a call made in [st]. *)
Definition retryable_outcome (c : Call) (st : State) : result unit :=
  if decide (retcode (env (trace st) c) = 0) then Ok tt
  else Raise CalledProcessException.

(** The commands on the rules of a security group, written out: the
    creation of the allow rule of a pair of ports at a priority, the
    deletion of a rule, and the creation of [DenyAll]. *)
Definition rule_create_call (k : Z * Z) (priority : Z)
    (g : AzureResourceGroup) (n : AzureNetworkSecurityGroup) : Call :=
  IssueRetryableCommandCall
    ([AZURE_PATH; "network"; "nsg"; "rule"; "create";
      "allow-" +:+ pretty k.1 +:+ "-" +:+ pretty k.2;
      "--destination-port-range"; pretty k.1 +:+ "-" +:+ pretty k.2;
      "--access"; "Allow";
      "--priority"; pretty priority]
     ++ rg_args g ++ nsg_args n).

Definition rule_delete_call (rule : string)
    (g : AzureResourceGroup) (n : AzureNetworkSecurityGroup) : Call :=
  IssueRetryableCommandCall
    ([AZURE_PATH; "network"; "nsg"; "rule"; "delete"; "--quiet"; rule]
     ++ rg_args g ++ nsg_args n).

Definition deny_all_call
    (g : AzureResourceGroup) (n : AzureNetworkSecurityGroup) : Call :=
  IssueRetryableCommandCall
    ([AZURE_PATH; "network"; "nsg"; "rule"; "create"; "DenyAll";
      "--access"; "Deny"; "--priority"; "4095"]
     ++ rg_args g ++ nsg_args n).

(** The state in which the group at [self] holds the table [r]. *)
Definition with_rules (self : nat) (r : gmap (Z * Z) string)
    (n : AzureNetworkSecurityGroup) (st : State) : State :=
  set_nsgs (<[self := set_rules r n]> (nsgs st)) st.

Definition allow (self : nat) (r : PortRequest) : M unit :=
  AzureNetworkSecurityGroup.AllowPort self (req_vm r) (req_start_port r)
    (req_end_port r) (req_source_range r).

Definition run_op (self : nat) (op : NsgOp) : M unit :=
  match op with
  | OpAllowPort r => allow self r
  | OpDisallowAllPorts => AzureNetworkSecurityGroup.DisallowAllPorts self
  end.

(** The [DenyAll] creations in a trace that came back with status 0. *)
Definition deny_all_successes (events : list Event) : list Event :=
  filter (λ ev, is_deny_all (ev_call ev) = true ∧ retcode (ev_result ev) = 0)
         events.

(** Every command of the provider comes back with status 0. *)
Definition commands_succeed : Prop := ∀ history c, retcode (env history c) = 0.

(** The two queries of [AzureStorageAccount._PostCreate] come back with
    the payload the method reads. *)
Definition storage_queries_answered : Prop :=
  (∀ history rest, ∃ fields v,
      json_loads (stdout (env history (IssueRetryableCommandCall
        (AZURE_PATH :: "storage" :: "account" :: "connectionstring"
           :: "show" :: rest)))) = Some (JObject fields)
      ∧ assoc_lookup "string" fields = Some v)
  ∧ (∀ history rest, ∃ fields items v,
      json_loads (stdout (env history (IssueRetryableCommandCall
        (AZURE_PATH :: "storage" :: "account" :: "keys" :: "list"
           :: rest)))) = Some (JArray (JObject fields :: items))
      ∧ assoc_lookup "permissions" fields = Some (JString "Full")
      ∧ assoc_lookup "value" fields = Some v).

(** [names] stand for the constructor calls
    [AzureVirtualNetwork(location, name)], made in turn. *)
Fixpoint construct_vnets (names : list (string * string)) : M (list nat) :=
  match names with
  | [] => mret []
  | (location, name) :: rest =>
      vnet ← AzureVirtualNetwork.__init__ location name;
      vnets ← construct_vnets rest;
      mret (vnet :: vnets)
  end.

(** The resource group [GetResourceGroup] constructs in [st]. *)
Definition new_group (st : State) : AzureResourceGroup :=
  let name := "pkb" +:+ run_uri FLAGS +:+ "-" +:+ uid (spec st) in
  {| rg_base := resource.BaseResource__init__;
     rg_name := name;
     rg_storage_account_prefix := "pkb" +:+ run_uri FLAGS +:+ uid (spec st);
     rg_location := match zones FLAGS with
                    | z :: _ => z
                    | [] => DEFAULT_LOCATION
                    end;
     rg_args := ["--resource-group"; name] |}.

(** [k] callers, one after the other, obtain the resource group of the
    run and create it. *)
Fixpoint obtain_and_create (k : nat) : M (list nat) :=
  match k with
  | O => mret []
  | S k' =>
      group ← GetResourceGroup;
      AzureResourceGroup.Create group;;
      rest ← obtain_and_create k';
      mret (group :: rest)
  end.

(** The calls of the lifecycle methods. *)
Definition group_create_call (g : AzureResourceGroup) : Call :=
  IssueCommandCall [AZURE_PATH; "group"; "create"; rg_name g; rg_location g]
    false.
Definition group_delete_call (g : AzureResourceGroup) : Call :=
  IssueCommandCall [AZURE_PATH; "group"; "delete"; "--quiet"; rg_name g]
    false.
Definition connection_call (a : AzureStorageAccount)
    (g : AzureResourceGroup) : Call :=
  IssueRetryableCommandCall
    ([AZURE_PATH; "storage"; "account"; "connectionstring"; "show";
      "--json"; sa_name a] ++ rg_args g).
Definition keys_call (a : AzureStorageAccount) (g : AzureResourceGroup)
  : Call :=
  IssueRetryableCommandCall
    ([AZURE_PATH; "storage"; "account"; "keys"; "list";
      "--json"; sa_name a] ++ rg_args g).
Definition account_delete_call (a : AzureStorageAccount)
    (g : AzureResourceGroup) : Call :=
  IssueCommandCall ([AZURE_PATH; "storage"; "account"; "delete"; "--quiet";
                     sa_name a] ++ rg_args g) false.
Definition vnet_create_call (v : AzureVirtualNetwork)
    (g : AzureResourceGroup) : Call :=
  IssueCommandCall ([AZURE_PATH; "network"; "vnet"; "create";
                     "--location"; vnet_location v;
                     "--address-prefixes"; vnet_address_space v;
                     vnet_name v] ++ rg_args g) false.
Definition vnet_delete_call (v : AzureVirtualNetwork)
    (g : AzureResourceGroup) : Call :=
  IssueCommandCall ([AZURE_PATH; "network"; "vnet"; "delete"; "--quiet";
                     vnet_name v] ++ rg_args g) false.
Definition subnet_create_call (s : AzureSubnet) (v : AzureVirtualNetwork)
    (g : AzureResourceGroup) : Call :=
  IssueCommandCall ([AZURE_PATH; "network"; "vnet"; "subnet"; "create";
                     "--vnet-name"; vnet_name v;
                     "--address-prefix"; vnet_address_space v;
                     subnet_name s] ++ rg_args g) false.
Definition subnet_delete_call (s : AzureSubnet) (v : AzureVirtualNetwork)
    (g : AzureResourceGroup) : Call :=
  IssueCommandCall ([AZURE_PATH; "network"; "vnet"; "subnet"; "delete";
                     "--vnet-name"; vnet_name v; "--quiet";
                     subnet_name s] ++ rg_args g) false.
Definition nsg_create_call (n : AzureNetworkSecurityGroup)
    (g : AzureResourceGroup) : Call :=
  IssueCommandCall ([AZURE_PATH; "network"; "nsg"; "create";
                     "--location"; nsg_location n; nsg_name n]
                    ++ rg_args g) false.
Definition nsg_delete_call (n : AzureNetworkSecurityGroup)
    (g : AzureResourceGroup) : Call :=
  IssueCommandCall ([AZURE_PATH; "network"; "nsg"; "delete"; "--quiet";
                     nsg_name n] ++ rg_args g) false.
Definition attach_call (n : AzureNetworkSecurityGroup) (s : AzureSubnet)
    (g : AzureResourceGroup) (v : AzureVirtualNetwork) : Call :=
  IssueRetryableCommandCall
    ([AZURE_PATH; "network"; "vnet"; "subnet"; "set";
      "--name"; subnet_name s;
      "--network-security-group-name"; nsg_name n]
     ++ rg_args g ++ vnet_args v).

(** A regional network none of whose resources has been created or
    deleted yet, except perhaps the resource group, whose flags are
    [b]; [cmd] is the command that creates its storage account. *)
Definition fresh_network (st : State) (net : AzureNetwork)
    (b : BaseResource) (g : AzureResourceGroup) (a : AzureStorageAccount)
    (v : AzureVirtualNetwork) (s : AzureSubnet)
    (n : AzureNetworkSecurityGroup) (cmd : list string) : Prop :=
  network_objects st net g a v s n
  ∧ rg_base g = b
  ∧ sa_base a = resource.BaseResource__init__
  ∧ vnet_base v = resource.BaseResource__init__
  ∧ subnet_base s = resource.BaseResource__init__
  ∧ nsg_base n = resource.BaseResource__init__
  ∧ AzureStorageAccount.create_cmd a g = Some cmd.
End observers.

(** ** Providers and states to run the model on *)

(** The payload of a provider that answers every query of the module. *)
Definition payload_for (c : Call) : string :=
  match cmd_of c with
  | _ :: _ :: _ :: "keys" :: _ => "keys"
  | _ => "connection"
  end.

(** A provider with which every command succeeds; the run of the spec's
    example: run id "abc", no zone flag. *)
Definition obliging_environment : Environment :=
  {| env := λ _ c, {| stdout := payload_for c; stderr := ""; retcode := 0 |};
     AZURE_PATH := "azure";
     json_loads := λ s,
       if decide (s = "keys")
       then Some (JArray [JObject [("permissions", JString "Full");
                                   ("value", JString "secret")]])
       else Some (JObject [("string", JString "connection")]);
     FLAGS := {| run_uri := "abc"; zones := [];
                 azure_storage_type := "Standard_LRS" |};
     retry_budget := 3;
     create_attempts := 3;
     iteritems := λ _ d, map_to_list d;
     iteritems_items := λ _ d, reflexivity (map_to_list d);
     set_iter := λ _ s, elements s;
     set_iter_elements := λ _ s, reflexivity (elements s) |}.

(** A provider whose every query exits with status 0 and prints an empty
    JSON object. *)
Definition empty_object_environment : Environment :=
  {| env := λ _ _, {| stdout := EMPTY_OBJECT; stderr := ""; retcode := 0 |};
     AZURE_PATH := "azure";
     json_loads := λ _, Some (JObject []);
     FLAGS := {| run_uri := "abc"; zones := [];
                 azure_storage_type := "Standard_LRS" |};
     retry_budget := 3;
     create_attempts := 3;
     iteritems := λ _ d, map_to_list d;
     iteritems_items := λ _ d, reflexivity (map_to_list d);
     set_iter := λ _ s, elements s;
     set_iter_elements := λ _ s, reflexivity (elements s) |}.

(** The state after the networks of two regions were constructed for the
    spec with uid "1". *)
Definition two_regions : State :=
  Eval vm_compute in
    (@AzureNetwork.__init__ obliging_environment "westus2"
       (@AzureNetwork.__init__ obliging_environment "eastus2"
          (initial_state "1")).2).2.

Definition port (p : Z) : PortRequest :=
  {| req_vm := {| vm_network := 0 |}; req_start_port := p;
     req_end_port := None; req_source_range := None |}.

(** The first region's group after ports 80 and 443 were opened. *)
Definition two_rules : State :=
  after_calls (@allow obliging_environment 0 <$> [port 80; port 443])
    two_regions.

(** The state in which the group at [self] has its flag [created] set. *)
Definition mark_created_group (self : nat) (g : AzureResourceGroup)
    (st : State) : State :=
  set_groups (<[self := set_rg_base (set_created true (rg_base g)) g]>
                (groups st)) st.

(** Running a method on a state of which the objects it reads are known:
    unfold the monad, compute, and use the known lookups. *)
Ltac run_method :=
  repeat (progress (unfold mbind, M_bind, mret, M_ret, deref, modify, raise,
                      lift_result, vm_util.IssueCommand, issue,
                      vm_util.record;
                    simpl)).

(** ** More to observe

    Like the definitions above, these are not in the source. *)

(** Every rule of the table carries the name made from its key. *)
Definition table_named (t : gmap (Z * Z) string) : Prop :=
  ∀ k name, t !! k = Some name → name = rule_name_of k.

Section observers2.
Context `{!Environment}.

(** The commands the operations on a group issue: the deletion of a rule
    named after a key, the creation of [DenyAll], or the creation of an
    allow rule at a priority from 100 to 4094. *)
Definition nsg_call (g : AzureResourceGroup) (n : AzureNetworkSecurityGroup)
    (c : Call) : Prop :=
  (∃ k, c = rule_delete_call (rule_name_of k) g n)
  ∨ c = deny_all_call g n
  ∨ ∃ k p, c = rule_create_call k p g n ∧ 100 ≤ p < 4095.
End observers2.

(** The group [n] with another table and another flag. *)
Definition with_table (table : gmap (Z * Z) string) (flag : bool)
    (n : AzureNetworkSecurityGroup) : AzureNetworkSecurityGroup :=
  set_have_deny_all_rule flag (set_rules table n).

(** Every registered group is in the store, and so is its resource
    group. *)
Definition registered_valid (st : State) : Prop :=
  ∀ i, i ∈ ALL_NSGS st →
       ∃ n g, nsgs st !! i = Some n
              ∧ groups st !! nsg_resource_group n = Some g.

(** No character of the text is a hyphen. *)
Fixpoint no_dash (s : string) : Prop :=
  match s with
  | EmptyString => True
  | String c s' => String c "" ≠ "-" ∧ no_dash s'
  end.

(** The resource group the spec has cached, if any, is in the store. *)
Definition spec_group_valid (st : State) : Prop :=
  ∀ r, azure_resource_group (spec st) = Some r → is_Some (groups st !! r).

Section constructed.
Context `{!Environment}.

(** The command that creates a storage account, written out: the
    location follows if there is one, and the access tier if the kind
    is ['BlobStorage']. *)
Definition account_create_call (a : AzureStorageAccount)
    (g : AzureResourceGroup) : Call :=
  IssueCommandCall
    ([AZURE_PATH; "storage"; "account"; "create";
      "--kind"; sa_kind a; "--sku-name"; sa_storage_type a; sa_name a]
     ++ rg_args g
     ++ (if decide (sa_location a = "") then []
         else ["--location"; sa_location a])
     ++ (if decide (sa_kind a = "BlobStorage")
         then match sa_access_tier a with
              | Some tier => ["--access-tier"; tier]
              | None => []
              end
         else []))
    false.

(** The name [AzureNetwork.__init__] gives to the storage account of a
    zone, in a resource group whose storage account prefix is
    [prefix]. *)
Definition storage_account_name (zone prefix : string) : string :=
  let suffix := zone +:+ "storage" in
  py_slice_to (24 - Z.of_nat (String.length suffix)) prefix +:+ suffix.

(** The objects [AzureNetwork.__init__] constructs for a zone, in the
    resource group [g] at [r], in the state [st]. *)
Definition constructed_account (zone : string) (r : nat)
    (g : AzureResourceGroup) : AzureStorageAccount :=
  {| sa_base := resource.BaseResource__init__;
     sa_storage_type := azure_storage_type FLAGS;
     sa_name := storage_account_name zone (rg_storage_account_prefix g);
     sa_resource_group := r;
     sa_location := zone;
     sa_kind := "Storage";
     sa_access_tier := None;
     sa_connection_string := None;
     sa_connection_args := None;
     sa_key := None |}.

Definition constructed_vnet (zone : string) (r : nat)
    (g : AzureResourceGroup) (num : N) : AzureVirtualNetwork :=
  let name := (rg_name g +:+ "-" +:+ zone) +:+ "-vnet" in
  {| vnet_base := resource.BaseResource__init__;
     vnet_name := name;
     vnet_resource_group := r;
     vnet_location := zone;
     vnet_args := ["--vnet-name"; name];
     vnet_num := num;
     vnet_address_space := address_space_of num |}.

Definition constructed_subnet (zone : string) (r : nat)
    (g : AzureResourceGroup) (vnet : nat) : AzureSubnet :=
  let name := ((rg_name g +:+ "-" +:+ zone) +:+ "-vnet") +:+ "-subnet" in
  {| subnet_base := resource.BaseResource__init__;
     subnet_resource_group := r;
     subnet_vnet := vnet;
     subnet_name := name;
     subnet_args := ["--vnet-subnet-name"; name] |}.

Definition constructed_nsg (zone : string) (r : nat)
    (g : AzureResourceGroup) (subnet : nat) : AzureNetworkSecurityGroup :=
  let name :=
    (((rg_name g +:+ "-" +:+ zone) +:+ "-vnet") +:+ "-subnet") +:+ "-nsg" in
  {| nsg_base := resource.BaseResource__init__;
     nsg_location := zone;
     nsg_subnet := subnet;
     nsg_name := name;
     nsg_resource_group := r;
     nsg_args := ["--nsg-name"; name];
     rules := ∅;
     have_deny_all_rule := false |}.

Definition constructed_network (zone : string) (r : nat) (st : State)
  : AzureNetwork :=
  {| net_zone := zone;
     net_resource_group := r;
     net_storage_account := length (accounts st);
     net_vnet := length (vnets st);
     net_subnet := length (subnets st);
     net_nsg := length (nsgs st) |}.

(** The state [AzureNetwork.__init__] leaves when it starts in [st], in
    which the spec has the resource group [g] at [r]. *)
Definition with_constructed_network (zone : string) (r : nat)
    (g : AzureResourceGroup) (st : State) : State :=
  {| spec := spec st;
     groups := groups st;
     accounts := accounts st ++ [constructed_account zone r g];
     vnets := vnets st ++ [constructed_vnet zone r g (num_vnets st)];
     subnets := subnets st
                ++ [constructed_subnet zone r g (length (vnets st))];
     nsgs := nsgs st ++ [constructed_nsg zone r g (length (subnets st))];
     networks := networks st ++ [constructed_network zone r st];
     num_vnets := (num_vnets st + 1)%N;
     ALL_NSGS := {[length (nsgs st)]} ∪ ALL_NSGS st;
     trace := trace st |}.
End constructed.

Section regions_defs.
Context `{!Environment}.

(** [zones] stand for the constructor calls [AzureNetwork(spec)], made
    in turn for specs with these zones. *)
Fixpoint construct_networks (zones : list string) : M (list nat) :=
  match zones with
  | [] => mret []
  | zone :: rest =>
      network ← AzureNetwork.__init__ zone;
      networks ← construct_networks rest;
      mret (network :: networks)
  end.

(** The state these calls leave. *)
Fixpoint with_constructed_networks (zones : list string) (r : nat)
    (g : AzureResourceGroup) (st : State) : State :=
  match zones with
  | [] => st
  | zone :: rest =>
      with_constructed_networks rest r g (with_constructed_network zone r g st)
  end.

(** The [i]-th regional network constructed from [st] on. *)
Definition nth_network (zone : string) (r : nat) (st : State) (i : nat)
  : AzureNetwork :=
  {| net_zone := zone;
     net_resource_group := r;
     net_storage_account := length (accounts st) + i;
     net_vnet := length (vnets st) + i;
     net_subnet := length (subnets st) + i;
     net_nsg := length (nsgs st) + i |}.
End regions_defs.

(** The account [a] with the connection string and the key of [a']. *)
Definition with_credentials (a' a : AzureStorageAccount)
  : AzureStorageAccount :=
  {| sa_base := sa_base a; sa_storage_type := sa_storage_type a;
     sa_name := sa_name a; sa_resource_group := sa_resource_group a;
     sa_location := sa_location a; sa_kind := sa_kind a;
     sa_access_tier := sa_access_tier a;
     sa_connection_string := sa_connection_string a';
     sa_connection_args := sa_connection_args a';
     sa_key := sa_key a' |}.

(** A provider that refuses every command: each one exits with
    status 1. *)
Definition refusing_environment : Environment :=
  {| env := λ _ _, {| stdout := ""; stderr := "refused"; retcode := 1 |};
     AZURE_PATH := "azure";
     json_loads := λ _, None;
     FLAGS := {| run_uri := "abc"; zones := [];
                 azure_storage_type := "Standard_LRS" |};
     retry_budget := 3;
     create_attempts := 3;
     iteritems := λ _ d, map_to_list d;
     iteritems_items := λ _ d, reflexivity (map_to_list d);
     set_iter := λ _ s, elements s;
     set_iter_elements := λ _ s, reflexivity (elements s) |}.

(** The zones of three specs, two of them in the same zone. *)
Definition three_zones : list string := ["eastus2"; "westus2"; "eastus2"].

(** * Proofs *)

#[local] Set Warnings "-clear-no-such-hyp".

(** ** The trace *)

Section trace_facts.
Context `{!Environment}.

Lemma calls_issue c st : calls (issue c st) = calls st ++ [c].
Proof. unfold calls, issue, vm_util.record. simpl. by rewrite map_app. Qed.

Lemma after_calls_app ms1 ms2 st :
  after_calls (ms1 ++ ms2) st = after_calls ms2 (after_calls ms1 st).
Proof. revert st. induction ms1 as [|m ms1 IH]; intros st; simpl; [done|apply IH]. Qed.

Lemma set_nsgs_id st : set_nsgs (nsgs st) st = st.
Proof. by destruct st. Qed.

Lemma set_rules_id n : set_rules (rules n) n = n.
Proof. by destruct n. Qed.
End trace_facts.

(** ** [AllowPort], one call *)

Section AllowPort_cases.
Context `{!Environment}.
Import AzureNetworkSecurityGroup.

(** The pair a request asks for is the key [AllowPort] computes with
    [end_port or start_port]. *)
Lemma request_key_or s e : request_key s e = (s, py_or e s).
Proof. destruct e as [[|p|p]|]; reflexivity. Qed.

Lemma AllowPort_present st self n vm s e sr x :
  nsgs st !! self = Some n →
  rules n !! request_key s e = Some x →
  AllowPort self vm s e sr st = (Ok tt, st).
Proof.
  intros Hn Hk. unfold AllowPort, AllowPort_locked, get, deref, mbind, M_bind.
  rewrite Hn. rewrite request_key_or in Hk. rewrite Hk. reflexivity.
Qed.

Lemma AllowPort_full st self n vm s e sr :
  nsgs st !! self = Some n →
  rules n !! request_key s e = None →
  3995 ≤ Z.of_nat (size (rules n)) →
  AllowPort self vm s e sr st = (Raise (ValueError "Too many firewall rules!"), st).
Proof.
  intros Hn Hk Hsz. unfold AllowPort, AllowPort_locked, get, deref, mbind, M_bind.
  rewrite Hn. rewrite request_key_or in Hk. rewrite Hk.
  destruct (decide _) as [_|Hc]; [reflexivity | lia].
Qed.

Lemma AllowPort_absent st self n g vm s e sr :
  nsgs st !! self = Some n →
  groups st !! nsg_resource_group n = Some g →
  rules n !! request_key s e = None →
  Z.of_nat (size (rules n)) < 3995 →
  let k := request_key s e in
  let c := rule_create_call k (100 + Z.of_nat (size (rules n))) g n in
  let st1 := with_rules self (<[k := rule_name_of k]> (rules n)) n st in
  AllowPort self vm s e sr st = (retryable_outcome c st1, issue c st1).
Proof.
  intros Hn Hg Hk Hsz k c st1. subst c st1 k.
  rewrite request_key_or in Hk |- *.
  unfold AllowPort, AllowPort_locked, get, put, modify, deref, mbind, M_bind, mret, M_ret.
  rewrite Hn, Hk.
  destruct (decide _) as [Hc|_]; [lia|].
  simpl. rewrite list_lookup_insert_eq by (by eapply lookup_lt_Some).
  unfold AzureResourceGroup.get, deref. simpl. rewrite Hg.
  unfold vm_util.IssueRetryableCommand, retryable_outcome, issue. simpl.
  destruct (decide _); reflexivity.
Qed.

Lemma filter_key_absent (l : list (Z * Z * string)) k :
  k ∉ l.*1 → filter (λ item, item.1 = k) l = [].
Proof.
  induction l as [|[k' v'] l IH]; intros Hk; [done|].
  rewrite filter_cons. simpl in *.
  apply not_elem_of_cons in Hk as [Hne Hk].
  destruct (decide (k' = k)); [congruence|]. by apply IH.
Qed.

(** A table holds a key at most once: the items filed under a key
    that is present are one. *)
Lemma one_item_per_key (m : gmap (Z * Z) string) k v :
  m !! k = Some v →
  length (filter (λ item, item.1 = k) (map_to_list m)) = 1%nat.
Proof.
  intros Hk.
  pose proof (NoDup_fst_map_to_list m) as Hnd.
  apply elem_of_map_to_list in Hk.
  induction (map_to_list m) as [|[k' v'] l IH]; [by apply elem_of_nil in Hk|].
  simpl in Hnd. apply NoDup_cons in Hnd as [Hnotin Hnd].
  rewrite filter_cons. simpl. destruct (decide (k' = k)) as [->|Hne].
  - simpl. by rewrite filter_key_absent.
  - apply elem_of_cons in Hk as [Heq|Hin]; [congruence|]. by apply IH.
Qed.
End AllowPort_cases.

(** ** [AllowPort], many calls *)

Section AllowPort_runs.
Context `{!Environment}.
Import AzureNetworkSecurityGroup.

Lemma allow_present st self n r x :
  nsgs st !! self = Some n →
  rules n !! req_key r = Some x →
  allow self r st = (Ok tt, st).
Proof. intros. by eapply AllowPort_present. Qed.

Lemma allow_full st self n r :
  nsgs st !! self = Some n →
  rules n !! req_key r = None →
  3995 ≤ Z.of_nat (size (rules n)) →
  allow self r st = (Raise (ValueError "Too many firewall rules!"), st).
Proof. intros. by eapply AllowPort_full. Qed.

Lemma allow_absent st self n g r :
  nsgs st !! self = Some n →
  groups st !! nsg_resource_group n = Some g →
  rules n !! req_key r = None →
  Z.of_nat (size (rules n)) < 3995 →
  let k := req_key r in
  let c := rule_create_call k (100 + Z.of_nat (size (rules n))) g n in
  let st1 := with_rules self (<[k := rule_name_of k]> (rules n)) n st in
  allow self r st = (retryable_outcome c st1, issue c st1).
Proof. intros. by eapply AllowPort_absent. Qed.

End AllowPort_runs.

Section AllowPort_claims.
Context `{!Environment}.
Import AzureNetworkSecurityGroup.

(** C1.  Requests for one and the same (start_port, end_port) pair, from
    any callers and with any source range, on a group whose table does
    not hold the pair yet and has room for it (a new group is one):
    the first request files the pair and issues the one rule creation,
    the command [nsg rule create allow-<start>-<end>] that
    [rule_create_call] writes out; every further request returns and
    leaves the state, trace included, as it was.  So one creation is
    issued and the table holds one item for the pair.  The pair is
    [request_key]: an end port that is not given, or is 0, stands for
    the start port. *)
Theorem AllowPort_same_pair_once st self n g s e vm0 sr0
    (callers : list (VirtualMachine * option string)) :
  nsgs st !! self = Some n →
  groups st !! nsg_resource_group n = Some g →
  rules n !! request_key s e = None →
  Z.of_nat (size (rules n)) < 3995 →
  let k := request_key s e in
  let c := rule_create_call k (100 + Z.of_nat (size (rules n))) g n in
  let table := <[k := rule_name_of k]> (rules n) in
  let st1 := issue c (with_rules self table n st) in
  let again := λ caller : VirtualMachine * option string,
                 AllowPort self caller.1 s e caller.2 in
  (AllowPort self vm0 s e sr0 st).2 = st1
  ∧ Forall (λ caller, again caller st1 = (Ok tt, st1)) callers
  ∧ after_calls (AllowPort self vm0 s e sr0 :: map again callers) st = st1
  ∧ calls st1 = calls st ++ [c]
  ∧ nsgs st1 !! self = Some (set_rules table n)
  ∧ length (filter (λ item, item.1 = k) (map_to_list table)) = 1%nat.
Proof.
  intros Hn Hg Hk Hsz k c table st1 again.
  assert (Hfirst : (AllowPort self vm0 s e sr0 st).2 = st1).
  { by rewrite (AllowPort_absent st self n g). }
  assert (Hn1 : nsgs st1 !! self = Some (set_rules table n)).
  { subst st1. simpl. rewrite list_lookup_insert_eq; [done|].
    by eapply lookup_lt_Some. }
  assert (Hagain : ∀ caller, again caller st1 = (Ok tt, st1)).
  { intros [vm sr]. subst again. simpl.
    eapply AllowPort_present; [exact Hn1|]. simpl. subst table k.
    apply lookup_insert_eq. }
  split_and!.
  - done.
  - apply Forall_forall. intros caller _. apply Hagain.
  - simpl. rewrite Hfirst. clear Hfirst.
    induction callers as [|caller callers IH]; [done|].
    simpl. by rewrite Hagain.
  - subst st1. by rewrite calls_issue.
  - done.
  - eapply one_item_per_key. subst table. apply lookup_insert_eq.
Qed.

End AllowPort_claims.

Section AllowPort_any_run.
Context `{!Environment}.
Import AzureNetworkSecurityGroup.

(** Any run of requests, repeated or not: the table ends up with the
    keys it had and the keys requested, as far as it has room, and the
    creations issued carry consecutive priorities. *)
Lemma after_calls_allow self g reqs : ∀ st n,
  nsgs st !! self = Some n →
  groups st !! nsg_resource_group n = Some g →
  Z.of_nat (size (rules n)) ≤ 3995 →
  let st' := after_calls (allow self <$> reqs) st in
  let requested : gset (Z * Z) := list_to_set (req_key <$> reqs) in
  ∃ table added,
    nsgs st' = <[self := set_rules table n]> (nsgs st)
    ∧ groups st' = groups st
    ∧ dom table ⊆ dom (rules n) ∪ requested
    ∧ Z.of_nat (size table)
      = Z.of_nat (size (dom (rules n) ∪ requested)) `min` 3995
    ∧ size table = (size (rules n) + length added)%nat
    ∧ calls st' = calls st ++
        imap (λ i key, rule_create_call key
                         (100 + Z.of_nat (size (rules n) + i)) g n) added.
Proof.
  induction reqs as [|r reqs IH]; intros st n Hn Hg Hsz st' requested.
  - exists (rules n), []. subst st' requested.
    rewrite !fmap_nil. cbn [after_calls list_to_set imap length].
    rewrite set_rules_id, list_insert_id, app_nil_r by done.
    rewrite (right_id_L ∅ (∪)), size_dom.
    split_and!; try done; lia.
  - subst st' requested. rewrite !fmap_cons. cbn [after_calls list_to_set].
    assert (Hself : (self < length (nsgs st))%nat) by (by eapply lookup_lt_Some).
    destruct (rules n !! req_key r) as [x|] eqn:Hk.
    + (* the key is in the table *)
      rewrite (allow_present st self n r x) by done. cbn [snd].
      destruct (IH st n Hn Hg Hsz) as (table & added & Hns & Hgs & Hdom & Hsize & Hlen & Hcalls).
      exists table, added.
      assert (Hin : req_key r ∈ dom (rules n)) by (apply elem_of_dom; eauto).
      assert (Heq : dom (rules n) ∪ ({[req_key r]} ∪ list_to_set (req_key <$> reqs))
                    = dom (rules n) ∪ list_to_set (req_key <$> reqs) :> gset (Z * Z))
        by set_solver.
      rewrite Heq. by split_and!.
    + destruct (decide (Z.of_nat (size (rules n)) < 3995)) as [Hroom|Hfull].
      * (* the key is new and the table has room *)
        rewrite (allow_absent st self n g r) by done. cbn [snd].
        set (n1 := set_rules (<[req_key r := rule_name_of (req_key r)]> (rules n)) n).
        set (c := rule_create_call _ _ _ _).
        set (st1 := issue c _).
        assert (Hn1 : nsgs st1 !! self = Some n1).
        { subst st1. simpl. by rewrite list_lookup_insert_eq. }
        assert (Hsz1 : size (rules n1) = S (size (rules n))).
        { subst n1. simpl. by rewrite map_size_insert_None. }
        destruct (IH st1 n1 Hn1 Hg ltac:(lia))
          as (table & added & Hns & Hgs & Hdom & Hsize & Hlen & Hcalls).
        exists table, (req_key r :: added).
        assert (Heq : dom (rules n1) ∪ list_to_set (req_key <$> reqs)
                      = dom (rules n) ∪ ({[req_key r]} ∪ list_to_set (req_key <$> reqs))
                      :> gset (Z * Z)).
        { subst n1. simpl. rewrite dom_insert_L. set_solver. }
        rewrite Heq in Hdom, Hsize.
        split_and!.
        -- rewrite Hns. subst st1 n1. simpl. by rewrite list_insert_insert_eq.
        -- by rewrite Hgs.
        -- done.
        -- done.
        -- rewrite Hlen, Hsz1. simpl. lia.
        -- rewrite Hcalls. subst st1. rewrite calls_issue.
           unfold with_rules, calls. simpl.
           rewrite <- app_assoc. f_equal. simpl. f_equal.
           ++ subst c. do 2 f_equal. lia.
           ++ apply imap_ext. intros i key _. simpl.
              rewrite map_size_insert_None by done.
              replace (S (size (rules n)) + i)%nat
                with (size (rules n) + S i)%nat by lia.
              reflexivity.
      * (* the key is new and the table is full *)
        rewrite (allow_full st self n r) by (done || lia). cbn [snd].
        destruct (IH st n Hn Hg Hsz)
          as (table & added & Hns & Hgs & Hdom & Hsize & Hlen & Hcalls).
        exists table, added. split_and!; try done.
        -- set_solver.
        -- rewrite Hsize.
           assert (Hlow : ∀ X : gset (Z * Z),
                     3995 ≤ Z.of_nat (size (dom (rules n) ∪ X))).
           { intros X.
             assert (size (dom (rules n)) ≤ size (dom (rules n) ∪ X))%nat
               by (apply subseteq_size, union_subseteq_l).
             rewrite size_dom in *. lia. }
           pose proof (Hlow (list_to_set (req_key <$> reqs))).
           pose proof (Hlow ({[req_key r]} ∪ list_to_set (req_key <$> reqs))).
           lia.
Qed.

(** C2.  On a group that starts with an empty table, whatever requests
    came before (repeated ones included) and with no [DisallowAllPorts]
    in between: the creations issued so far carry the priorities 100,
    101, 102, ... in the order of the calls, and a request for a pair
    not requested before, the [k]-th distinct one, is given priority
    [99 + k] as long as [k <= 3995]: the command it issues is the one
    [rule_create_call] writes out, with [--priority] and the text of
    [99 + k]; from the 3996th on it raises [ValueError], issues nothing
    and leaves the state as it was. *)
Theorem AllowPort_priorities st self n g (pre : list PortRequest)
    (req : PortRequest) :
  nsgs st !! self = Some n →
  groups st !! nsg_resource_group n = Some g →
  rules n = ∅ →
  req_key req ∉ req_key <$> pre →
  let st1 := after_calls (allow self <$> pre) st in
  let distinct : gset (Z * Z) := list_to_set (req_key <$> pre) in
  let k := S (size distinct) in
  (∃ added,
      calls st1 = calls st ++
        imap (λ i key, rule_create_call key (100 + Z.of_nat i) g n) added
      ∧ Z.of_nat (length added) = Z.of_nat (size distinct) `min` 3995)
  ∧ (Z.of_nat k ≤ 3995 →
       ∃ table,
         nsgs st1 !! self = Some (set_rules table n)
         ∧ let c := rule_create_call (req_key req) (99 + Z.of_nat k) g n in
           let st2 := with_rules self
                        (<[req_key req := rule_name_of (req_key req)]> table)
                        n st1 in
           allow self req st1 = (retryable_outcome c st2, issue c st2))
  ∧ (3995 < Z.of_nat k →
       allow self req st1
       = (Raise (ValueError "Too many firewall rules!"), st1)).
Proof.
  intros Hn Hg Hempty Hnew st1 distinct k.
  assert (Hself : (self < length (nsgs st))%nat) by (by eapply lookup_lt_Some).
  destruct (after_calls_allow self g pre st n Hn Hg)
    as (table & added & Hns & Hgs & Hdom & Hsize & Hlen & Hcalls).
  { rewrite Hempty, map_size_empty. lia. }
  fold st1 in Hns, Hgs, Hcalls.
  rewrite Hempty, dom_empty_L, union_empty_l_L in Hdom, Hsize.
  rewrite Hempty, map_size_empty in Hlen, Hcalls.
  fold distinct in Hdom, Hsize.
  assert (Hn1 : nsgs st1 !! self = Some (set_rules table n)).
  { rewrite Hns. by apply list_lookup_insert_eq. }
  assert (Habsent : table !! req_key req = None).
  { apply not_elem_of_dom. intros Hin. apply Hdom in Hin.
    subst distinct. apply elem_of_list_to_set in Hin. done. }
  split_and!.
  - exists added. split; [exact Hcalls|lia].
  - intros Hk. exists table. split; [done|]. simpl.
    rewrite (allow_absent st1 self (set_rules table n) g).
    + simpl.
      replace (100 + Z.of_nat (size table)) with (99 + Z.of_nat k) by lia.
      done.
    + done.
    + by rewrite Hgs.
    + done.
    + simpl. lia.
  - intros Hk. eapply allow_full; [exact Hn1|done|]. simpl. lia.
Qed.
End AllowPort_any_run.

Section DisallowAllPorts_facts.
Context `{!Environment}.
Import AzureNetworkSecurityGroup.

Lemma is_deny_all_rule_delete rule g n :
  is_deny_all (rule_delete_call rule g n) = false.
Proof. reflexivity. Qed.

Lemma is_deny_all_rule_create k p g n :
  is_deny_all (rule_create_call k p g n) = false.
Proof. reflexivity. Qed.

Lemma is_deny_all_deny_all g n : is_deny_all (deny_all_call g n) = true.
Proof. reflexivity. Qed.

(** The loop only adds events: one deletion for each item it got to,
    and for each item if it came to its end. *)
Lemma DisallowAllPorts_items self n g items : ∀ st r st',
  nsgs st !! self = Some n →
  groups st !! nsg_resource_group n = Some g →
  for_each (DisallowAllPorts_body self) items st = (r, st') →
  ∃ events,
    st' = set_trace (trace st ++ events) st
    ∧ Forall (λ ev, is_deny_all (ev_call ev) = false) events
    ∧ (r = Ok tt →
         ev_call <$> events = (λ item, rule_delete_call item.2 g n) <$> items).
Proof.
  induction items as [|item items IH]; intros st r st' Hn Hg Hrun.
  - simpl in Hrun. injection Hrun as <- <-. exists [].
    rewrite app_nil_r. split_and!; [by destruct st|done..].
  - simpl in Hrun.
    unfold mbind, M_bind, DisallowAllPorts_body at 1, get, deref in Hrun.
    unfold mbind, M_bind, AzureResourceGroup.get, deref in Hrun.
    rewrite Hn, Hg in Hrun.
    unfold vm_util.IssueRetryableCommand in Hrun.
    change (IssueRetryableCommandCall (rule_delete_cmd item.2 g n))
      with (rule_delete_call item.2 g n) in Hrun.
    set (c := rule_delete_call item.2 g n) in *.
    set (ev := {| ev_call := c; ev_result := env (trace st) c |}).
    destruct (decide (retcode (env (trace st) c) = 0)) as [Hok|Hfail].
    + simpl in Hrun.
      apply IH in Hrun as (events & Hst' & Hnot & Hcalls); [|done..].
      exists (ev :: events). split_and!.
      * rewrite Hst'. unfold vm_util.record. simpl. by rewrite <- app_assoc.
      * by constructor.
      * intros Hr. simpl. f_equal. by apply Hcalls.
    + injection Hrun as <- <-. exists [ev]. split_and!.
      * done.
      * by repeat constructor.
      * done.
Qed.

(** Every way [DisallowAllPorts] can go. *)
Lemma DisallowAllPorts_outcome st self n g r st' :
  nsgs st !! self = Some n →
  groups st !! nsg_resource_group n = Some g →
  DisallowAllPorts self st = (r, st') →
  ∃ r_loop st_loop events,
    DisallowAllPorts_loop self st = (r_loop, st_loop)
    ∧ st_loop = set_trace (trace st ++ events) st
    ∧ Forall (λ ev, is_deny_all (ev_call ev) = false) events
    ∧ (r_loop = Ok tt →
         ev_call <$> events
         = (λ item, rule_delete_call item.2 g n)
             <$> iteritems (trace st) (rules n))
    ∧ match r_loop with
      | Raise e => r = Raise e ∧ st' = st_loop
      | Ok _ =>
          let st2 := with_rules self ∅ n st_loop in
          if have_deny_all_rule n then r = Ok tt ∧ st' = st2
          else
            let c := deny_all_call g n in
            if decide (retcode (env (trace st2) c) = 0)
            then r = Ok tt
                 ∧ st' = set_nsgs (<[self := set_have_deny_all_rule true
                                             (set_rules ∅ n)]> (nsgs st))
                                  (issue c st2)
            else r = Raise CalledProcessException ∧ st' = issue c st2
      end.
Proof.
  intros Hn Hg Hrun.
  assert (Hself : (self < length (nsgs st))%nat) by (by eapply lookup_lt_Some).
  unfold DisallowAllPorts in Hrun. unfold mbind at 1, M_bind at 1 in Hrun.
  destruct (DisallowAllPorts_loop self st) as [r_loop st_loop] eqn:Hloop.
  exists r_loop, st_loop.
  pose proof Hloop as Hloop'.
  unfold DisallowAllPorts_loop, mbind, M_bind, get, get_state, deref in Hloop'.
  rewrite Hn in Hloop'.
  apply (DisallowAllPorts_items self n g) in Hloop'
    as (events & Hst & Hnot & Hcalls); [|done..].
  exists events. split_and!; [done..|].
  destruct r_loop as [[]|e].
  - unfold mbind, M_bind, get, put, modify, deref in Hrun.
    assert (Hn' : nsgs st_loop !! self = Some n) by (by rewrite Hst).
    rewrite Hn' in Hrun. simpl in Hrun.
    rewrite list_lookup_insert_eq in Hrun by (by rewrite Hst).
    simpl in Hrun. unfold with_rules.
    destruct (have_deny_all_rule n) eqn:Hflag.
    + by injection Hrun as <- <-.
    + unfold AzureResourceGroup.get, deref in Hrun. simpl in Hrun.
      assert (Hg' : groups st_loop !! nsg_resource_group n = Some g)
        by (by rewrite Hst).
      rewrite Hg' in Hrun.
      unfold vm_util.IssueRetryableCommand in Hrun. simpl in Hrun.
      unfold deny_all_call in *.
      simpl.
      destruct (decide _) as [Hok|Hfail].
      * simpl in Hrun.
        rewrite list_lookup_insert_eq in Hrun by (by rewrite Hst).
        injection Hrun as <- <-. split; [done|].
        unfold issue, vm_util.record. simpl.
        rewrite list_insert_insert_eq. rewrite Hst. simpl. done.
      * by injection Hrun as <- <-.
  - by injection Hrun as <- <-.
Qed.

(** An empty dict yields no item. *)
Lemma iteritems_empty history : iteritems history ∅ = [].
Proof.
  apply Permutation_nil. symmetry.
  rewrite <- (map_to_list_empty (A := string)). apply iteritems_items.
Qed.

(** On a group whose table is empty and whose flag is set the method
    does nothing. *)
Lemma DisallowAllPorts_closed st self n :
  nsgs st !! self = Some n →
  rules n = ∅ →
  have_deny_all_rule n = true →
  DisallowAllPorts self st = (Ok tt, st).
Proof.
  intros Hn Hempty Hflag.
  unfold DisallowAllPorts, DisallowAllPorts_loop, mbind, M_bind, get, put,
    get_state, modify, deref.
  rewrite Hn, Hempty, iteritems_empty. simpl. rewrite Hn. simpl.
  assert (Hid : set_rules ∅ n = n) by (destruct n; simpl in *; by subst).
  rewrite Hid, list_insert_id by done. rewrite set_nsgs_id, Hn, Hflag. done.
Qed.

(** C3.  When [DisallowAllPorts] returns: its loop has issued, while
    the table was still whole, one rule deletion for each rule of the
    table and nothing else (the commands written out in
    [rule_delete_call], in the order the dict yields its items, which
    is any order); after that comes the creation of [DenyAll], unless
    the flag was set already; the table is empty and the flag is set;
    and a second call returns without issuing anything and without
    changing the state. *)
Theorem DisallowAllPorts_closes st self n g st1 :
  nsgs st !! self = Some n →
  groups st !! nsg_resource_group n = Some g →
  DisallowAllPorts self st = (Ok tt, st1) →
  ∃ st_loop n1 deletions,
    DisallowAllPorts_loop self st = (Ok tt, st_loop)
    ∧ nsgs st_loop = nsgs st
    ∧ calls st_loop = calls st ++ deletions
    ∧ deletions
      ≡ₚ (λ item : Z * Z * string,
            IssueRetryableCommandCall
              ([AZURE_PATH; "network"; "nsg"; "rule"; "delete"; "--quiet";
                item.2] ++ rg_args g ++ nsg_args n))
           <$> map_to_list (rules n)
    ∧ calls st1
      = calls st_loop
          ++ (if have_deny_all_rule n then []
              else [IssueRetryableCommandCall
                      ([AZURE_PATH; "network"; "nsg"; "rule"; "create";
                        "DenyAll"; "--access"; "Deny"; "--priority"; "4095"]
                       ++ rg_args g ++ nsg_args n)])
    ∧ nsgs st1 !! self = Some n1
    ∧ rules n1 = ∅
    ∧ have_deny_all_rule n1 = true
    ∧ DisallowAllPorts self st1 = (Ok tt, st1).
Proof.
  intros Hn Hg Hrun.
  assert (Hself : (self < length (nsgs st))%nat) by (by eapply lookup_lt_Some).
  destruct (DisallowAllPorts_outcome st self n g _ _ Hn Hg Hrun)
    as (r_loop & st_loop & events & Hloop & Hst & _ & Hcalls & Hrest).
  destruct r_loop as [[]|e]; [|by destruct Hrest].
  specialize (Hcalls eq_refl). simpl in Hrest.
  set (deletions := (λ item : Z * Z * string, rule_delete_call item.2 g n)
                      <$> iteritems (trace st) (rules n)).
  assert (Hcalls_loop : calls st_loop = calls st ++ deletions).
  { rewrite Hst. unfold calls. simpl. rewrite map_app. f_equal. exact Hcalls. }
  assert (Hperm : deletions
            ≡ₚ (λ item : Z * Z * string, rule_delete_call item.2 g n)
                 <$> map_to_list (rules n)).
  { subst deletions. by rewrite iteritems_items. }
  destruct (have_deny_all_rule n) eqn:Hflag.
  - destruct Hrest as [_ ->].
    assert (Hn1 : nsgs (with_rules self ∅ n st_loop) !! self
                  = Some (set_rules ∅ n)).
    { unfold with_rules. simpl. rewrite Hst. simpl.
      by apply list_lookup_insert_eq. }
    exists st_loop, (set_rules ∅ n), deletions. split_and!; try done.
    + by rewrite Hst.
    + by rewrite app_nil_r.
    + by eapply DisallowAllPorts_closed.
  - destruct (decide _) as [Hok|Hfail]; [|by destruct Hrest].
    destruct Hrest as [_ ->].
    set (n1 := set_have_deny_all_rule true (set_rules ∅ n)).
    assert (Hn1 : nsgs (set_nsgs (<[self := n1]> (nsgs st))
                    (issue (deny_all_call g n) (with_rules self ∅ n st_loop)))
                  !! self = Some n1).
    { simpl. by apply list_lookup_insert_eq. }
    exists st_loop, n1, deletions. split_and!; try done.
    + by rewrite Hst.
    + unfold calls at 1. simpl. rewrite map_app. done.
    + by eapply DisallowAllPorts_closed.
Qed.
End DisallowAllPorts_facts.

Section operations.
Context `{!Environment}.
Import AzureNetworkSecurityGroup.

Lemma deny_all_successes_app l1 l2 :
  deny_all_successes (l1 ++ l2) = deny_all_successes l1 ++ deny_all_successes l2.
Proof. apply filter_app. Qed.

Lemma deny_all_successes_none events :
  Forall (λ ev, is_deny_all (ev_call ev) = false) events →
  deny_all_successes events = [].
Proof.
  induction 1 as [|ev events Hev _ IH]; [done|].
  unfold deny_all_successes in *. rewrite filter_cons.
  destruct (decide _) as [[Hd _]|_]; [congruence|done].
Qed.

(** What one operation does to the flag and to the [DenyAll]
    creations in the trace. *)
Lemma run_op_step st self n g op r st' :
  nsgs st !! self = Some n →
  groups st !! nsg_resource_group n = Some g →
  run_op self op st = (r, st') →
  ∃ n' events,
    nsgs st' !! self = Some n'
    ∧ groups st' = groups st
    ∧ nsg_resource_group n' = nsg_resource_group n
    ∧ trace st' = trace st ++ events
    ∧ (have_deny_all_rule n = true →
         have_deny_all_rule n' = true
         ∧ Forall (λ ev, is_deny_all (ev_call ev) = false) events)
    ∧ (length (deny_all_successes events) ≤ 1)%nat
    ∧ (have_deny_all_rule n' = false → deny_all_successes events = []).
Proof.
  intros Hn Hg Hrun.
  assert (Hself : (self < length (nsgs st))%nat) by (by eapply lookup_lt_Some).
  destruct op as [req|]; simpl in Hrun.
  - destruct (rules n !! req_key req) as [x|] eqn:Hk.
    + rewrite (allow_present st self n req x) in Hrun by done.
      injection Hrun as <- <-. exists n, []. rewrite app_nil_r.
      split_and!; try done. simpl. lia.
    + destruct (decide (3995 ≤ Z.of_nat (size (rules n)))) as [Hfull|Hroom].
      * rewrite (allow_full st self n req) in Hrun by done.
        injection Hrun as <- <-. exists n, []. rewrite app_nil_r.
        split_and!; try done. simpl. lia.
      * rewrite (allow_absent st self n g req) in Hrun by (done || lia).
        injection Hrun as <- <-.
        set (c := rule_create_call _ _ _ _).
        set (st1 := with_rules _ _ _ _).
        exists (set_rules (<[req_key req := rule_name_of (req_key req)]> (rules n)) n),
               [{| ev_call := c; ev_result := env (trace st1) c |}].
        assert (Hnot : Forall (λ ev, is_deny_all (ev_call ev) = false)
                  [{| ev_call := c; ev_result := env (trace st1) c |}])
          by (by repeat constructor).
        rewrite (deny_all_successes_none _ Hnot).
        split_and!; try done.
        -- simpl. by apply list_lookup_insert_eq.
        -- simpl. lia.
  - destruct (DisallowAllPorts_outcome st self n g _ _ Hn Hg Hrun)
      as (r_loop & st_loop & events & Hloop & Hst & Hnot & _ & Hrest).
    destruct r_loop as [[]|e].
    + simpl in Hrest. destruct (have_deny_all_rule n) eqn:Hflag.
      * destruct Hrest as [_ ->]. exists (set_rules ∅ n), events.
        rewrite Hst. simpl. rewrite deny_all_successes_none by done.
        split_and!; try done.
        -- by apply list_lookup_insert_eq.
        -- simpl. lia.
      * destruct (decide _) as [Hok|Hfail]; destruct Hrest as [_ ->].
        -- set (c := deny_all_call g n) in *.
           set (st2 := with_rules self ∅ n st_loop) in *.
           exists (set_have_deny_all_rule true (set_rules ∅ n)),
                  (events ++ [{| ev_call := c; ev_result := env (trace st2) c |}]).
           subst st2. rewrite Hst. simpl. split_and!; try done.
           ++ by apply list_lookup_insert_eq.
           ++ by rewrite app_assoc.
           ++ rewrite deny_all_successes_app, deny_all_successes_none by done.
              simpl. apply length_filter.
        -- set (c := deny_all_call g n) in *.
           set (st2 := with_rules self ∅ n st_loop) in *.
           exists (set_rules ∅ n),
                  (events ++ [{| ev_call := c; ev_result := env (trace st2) c |}]).
           subst st2. rewrite Hst. simpl. split_and!; try done.
           ++ by apply list_lookup_insert_eq.
           ++ by rewrite app_assoc.
           ++ rewrite deny_all_successes_app, deny_all_successes_none by done.
              simpl. apply length_filter.
           ++ intros _.
              rewrite deny_all_successes_app, deny_all_successes_none by done.
              simpl. unfold deny_all_successes. rewrite filter_cons.
              destruct (decide _) as [[_ Hz]|_]; [|done]. simpl in Hz.
              rewrite Hst in Hfail. simpl in Hfail. done.
    + destruct Hrest as [-> ->]. exists n, events. rewrite Hst. simpl.
      rewrite deny_all_successes_none by done.
      split_and!; try done. simpl. lia.
Qed.

Lemma run_ops_steps self g ops : ∀ st n,
  nsgs st !! self = Some n →
  groups st !! nsg_resource_group n = Some g →
  let st' := after_calls (run_op self <$> ops) st in
  ∃ n' events,
    nsgs st' !! self = Some n'
    ∧ groups st' !! nsg_resource_group n' = Some g
    ∧ trace st' = trace st ++ events
    ∧ (have_deny_all_rule n = true →
         have_deny_all_rule n' = true
         ∧ Forall (λ ev, is_deny_all (ev_call ev) = false) events)
    ∧ (length (deny_all_successes events) ≤ 1)%nat.
Proof.
  induction ops as [|op ops IH]; intros st n Hn Hg st'.
  - exists n, []. subst st'. simpl. rewrite app_nil_r.
    split_and!; try done. lia.
  - subst st'. rewrite fmap_cons. cbn [after_calls].
    destruct (run_op self op st) as [r st1] eqn:Hop. cbn [snd].
    destruct (run_op_step st self n g op r st1 Hn Hg Hop)
      as (n1 & ev1 & Hn1 & Hg1 & Hrg1 & Htr1 & Hset1 & Hlen1 & Hnone1).
    assert (Hg1' : groups st1 !! nsg_resource_group n1 = Some g)
      by (by rewrite Hg1, Hrg1).
    destruct (IH st1 n1 Hn1 Hg1') as (n2 & ev2 & Hn2 & Hg2 & Htr2 & Hset2 & Hlen2).
    exists n2, (ev1 ++ ev2). split_and!; try done.
    + by rewrite Htr2, Htr1, app_assoc.
    + intros Hflag. destruct (Hset1 Hflag) as [Hflag1 Hnot1].
      destruct (Hset2 Hflag1) as [Hflag2 Hnot2].
      split; [done|]. by apply Forall_app.
    + rewrite deny_all_successes_app, length_app.
      destruct (have_deny_all_rule n1) eqn:Hflag1.
      * destruct (Hset2 eq_refl) as [_ Hnot2].
        rewrite (deny_all_successes_none ev2) by done. simpl. lia.
      * rewrite Hnone1 by done. simpl. lia.
Qed.

(** C4, in the form the code satisfies.  Over any operations on one
    group: once the flag is set it stays set, and no [DenyAll] creation
    is issued any more; from a group whose flag is not set, at most one
    [DenyAll] creation comes back with success; and whenever
    [DisallowAllPorts] returns, the table is empty and the flag is set.
    The table does not stay empty: [AllowPort] does not read the flag
    and files its rule as before. *)
Theorem deny_all_flag_is_final st self n g (ops1 ops2 : list NsgOp) :
  nsgs st !! self = Some n →
  groups st !! nsg_resource_group n = Some g →
  let st1 := after_calls (run_op self <$> ops1) st in
  let st2 := after_calls (run_op self <$> ops2) st1 in
  let flag := λ s : State, have_deny_all_rule <$> nsgs s !! self in
  (flag st1 = Some true →
     flag st2 = Some true
     ∧ Forall (λ c, is_deny_all c = false)
              (drop (length (calls st1)) (calls st2)))
  ∧ (have_deny_all_rule n = false →
     (length (deny_all_successes (drop (length (trace st)) (trace st2))) ≤ 1)%nat)
  ∧ (∀ st3, DisallowAllPorts self st2 = (Ok tt, st3) →
       ∃ n3, nsgs st3 !! self = Some n3
             ∧ rules n3 = ∅ ∧ have_deny_all_rule n3 = true).
Proof.
  intros Hn Hg st1 st2 flag.
  destruct (run_ops_steps self g ops1 st n Hn Hg)
    as (n1 & ev1 & Hn1 & Hg1 & Htr1 & Hset1 & Hlen1).
  fold st1 in Hn1, Hg1, Htr1.
  destruct (run_ops_steps self g ops2 st1 n1 Hn1 Hg1)
    as (n2 & ev2 & Hn2 & Hg2 & Htr2 & Hset2 & Hlen2).
  fold st2 in Hn2, Hg2, Htr2.
  split_and!.
  - subst flag. simpl. rewrite Hn1, Hn2. simpl. intros [= Hflag1].
    destruct (Hset2 Hflag1) as [Hflag2 Hnot2]. split; [by rewrite Hflag2|].
    unfold calls. rewrite Htr2, map_app, drop_app_length', Forall_fmap by
      (by rewrite length_map).
    done.
  - intros _.
    destruct (run_ops_steps self g (ops1 ++ ops2) st n Hn Hg)
      as (n' & ev & _ & _ & Htr & _ & Hlen).
    rewrite fmap_app, after_calls_app in Htr. fold st1 st2 in Htr.
    by rewrite Htr, drop_app_length.
  - intros st3 Hrun.
    assert (Hself : (self < length (nsgs st2))%nat) by (by eapply lookup_lt_Some).
    destruct (DisallowAllPorts_outcome st2 self n2 g _ _ Hn2 Hg2 Hrun)
      as (r_loop & st_loop & events & _ & Hst & _ & _ & Hrest).
    destruct r_loop as [[]|e]; [|by destruct Hrest].
    simpl in Hrest. destruct (have_deny_all_rule n2) eqn:Hflag2.
    + destruct Hrest as [_ ->]. exists (set_rules ∅ n2). rewrite Hst. simpl.
      split_and!; try done. by apply list_lookup_insert_eq.
    + destruct (decide _); destruct Hrest as [? ->]; [|done].
      exists (set_have_deny_all_rule true (set_rules ∅ n2)). simpl.
      split_and!; try done. by apply list_lookup_insert_eq.
Qed.
End operations.

Section source_range.
Context `{!Environment}.

(** C8.  [AllowPort], on the group and through the firewall, does the
    same whatever [source_range] is: same result, same state, same
    command. *)
Theorem AllowPort_ignores_source_range st self vm start_port end_port
    (source_range1 source_range2 : option string) :
  AzureNetworkSecurityGroup.AllowPort self vm start_port end_port
    source_range1 st
  = AzureNetworkSecurityGroup.AllowPort self vm start_port end_port
      source_range2 st
  ∧ AzureFirewall.AllowPort vm start_port end_port source_range1 st
    = AzureFirewall.AllowPort vm start_port end_port source_range2 st.
Proof. split; reflexivity. Qed.
End source_range.

Section falsy_end_port.
Context `{!Environment}.
Import AzureNetworkSecurityGroup.

Lemma request_key_falsy p e :
  e ∈ [None; Some 0; Some p] → request_key p e = (p, p).
Proof.
  intros He. unfold request_key.
  repeat (apply elem_of_cons in He as [->|He]); [done|done| |by apply elem_of_nil in He].
  by destruct p.
Qed.

(** C10.  For a start port [p], the end ports [None], [0] and [p] all
    file the request under the key [(p, p)]; so after a call with one
    of them has returned, a call with any of them returns without any
    effect. *)
Theorem AllowPort_falsy_end_port st self n g p e1 e2 vm1 vm2 sr1 sr2 st1 :
  e1 ∈ [None; Some 0; Some p] →
  e2 ∈ [None; Some 0; Some p] →
  nsgs st !! self = Some n →
  groups st !! nsg_resource_group n = Some g →
  AllowPort self vm1 p e1 sr1 st = (Ok tt, st1) →
  request_key p e1 = (p, p)
  ∧ request_key p e2 = (p, p)
  ∧ (∃ n1, nsgs st1 !! self = Some n1 ∧ is_Some (rules n1 !! (p, p)))
  ∧ AllowPort self vm2 p e2 sr2 st1 = (Ok tt, st1).
Proof.
  intros He1 He2 Hn Hg Hrun.
  pose proof (request_key_falsy p e1 He1) as Hk1.
  pose proof (request_key_falsy p e2 He2) as Hk2.
  assert (Hself : (self < length (nsgs st))%nat) by (by eapply lookup_lt_Some).
  assert (∃ n1, nsgs st1 !! self = Some n1 ∧ is_Some (rules n1 !! (p, p)))
    as (n1 & Hn1 & [x Hx]).
  { destruct (rules n !! request_key p e1) as [x|] eqn:Hk.
    - rewrite (AllowPort_present st self n vm1 p e1 sr1 x) in Hrun by done.
      injection Hrun as <-. exists n. rewrite <- Hk1. eauto.
    - destruct (decide (3995 ≤ Z.of_nat (size (rules n)))) as [Hfull|Hroom].
      + by rewrite (AllowPort_full st self n) in Hrun.
      + rewrite (AllowPort_absent st self n g) in Hrun by (done || lia).
        injection Hrun as _ <-. eexists. split.
        * simpl. by apply list_lookup_insert_eq.
        * simpl. rewrite Hk1. rewrite lookup_insert_eq. eauto. }
  split_and!; [done|done|eauto|].
  eapply AllowPort_present; [exact Hn1|]. rewrite Hk2. exact Hx.
Qed.
End falsy_end_port.

Section Exists.
Context `{!Environment}.

Lemma by_status_and_payload_empty r :
  stdout r = EMPTY_OBJECT → by_status_and_payload r = false.
Proof.
  intros Hr. unfold by_status_and_payload.
  rewrite (bool_decide_eq_true_2 _ Hr). apply andb_false_r.
Qed.

(** C6, in the form the code satisfies.  For the virtual network, the
    subnet and the network security group, [_Exists] is true exactly
    when the query exits with status 0 and its output is not ['{}\n']:
    an empty object means absence.  For the resource group and the
    storage account, [_Exists] reads the status alone, whatever the
    output. *)
Theorem Exists_reads_the_answer st net g a v s n :
  network_objects st net g a v s n →
  let answer := λ c, env (trace st) c in
  let c_vnet := IssueCommandCall
        ([AZURE_PATH; "network"; "vnet"; "show"; "--json"; vnet_name v]
         ++ rg_args g) true in
  let c_subnet := IssueCommandCall
        ([AZURE_PATH; "network"; "vnet"; "subnet"; "show";
          "--vnet-name"; vnet_name v; "--json"; subnet_name s]
         ++ rg_args g) false in
  let c_nsg := IssueCommandCall
        ([AZURE_PATH; "network"; "nsg"; "show"; "--json"; nsg_name n]
         ++ rg_args g) false in
  let c_group := IssueCommandCall
        [AZURE_PATH; "resource"; "list"; rg_name g] false in
  let c_account := IssueCommandCall
        ([AZURE_PATH; "storage"; "account"; "show"; "--json"; sa_name a]
         ++ rg_args g) true in
  (AzureVirtualNetwork._Exists (net_vnet net) st
     = (Ok (by_status_and_payload (answer c_vnet)), issue c_vnet st)
   ∧ (stdout (answer c_vnet) = EMPTY_OBJECT →
        (AzureVirtualNetwork._Exists (net_vnet net) st).1 = Ok false))
  ∧ (AzureSubnet._Exists (net_subnet net) st
       = (Ok (by_status_and_payload (answer c_subnet)), issue c_subnet st)
     ∧ (stdout (answer c_subnet) = EMPTY_OBJECT →
          (AzureSubnet._Exists (net_subnet net) st).1 = Ok false))
  ∧ (AzureNetworkSecurityGroup._Exists (net_nsg net) st
       = (Ok (by_status_and_payload (answer c_nsg)), issue c_nsg st)
     ∧ (stdout (answer c_nsg) = EMPTY_OBJECT →
          (AzureNetworkSecurityGroup._Exists (net_nsg net) st).1 = Ok false))
  ∧ AzureResourceGroup._Exists (net_resource_group net) st
      = (Ok (by_status (answer c_group)), issue c_group st)
  ∧ AzureStorageAccount._Exists (net_storage_account net) st
      = (Ok (by_status (answer c_account)), issue c_account st).
Proof.
  intros (Hg & Ha & Ea & Hv & Ev & Hs & Esv & Es & Hn & _ & En)
    answer c_vnet c_subnet c_nsg c_group c_account.
  assert (Hag : groups st !! sa_resource_group a = Some g) by (by rewrite Ea).
  assert (Hvg : groups st !! vnet_resource_group v = Some g) by (by rewrite Ev).
  assert (Hsg : groups st !! subnet_resource_group s = Some g) by (by rewrite Es).
  assert (Hng : groups st !! nsg_resource_group n = Some g) by (by rewrite En).
  assert (Hsv : vnets st !! subnet_vnet s = Some v) by (by rewrite Esv).
  assert (Hvnet : AzureVirtualNetwork._Exists (net_vnet net) st
     = (Ok (by_status_and_payload (answer c_vnet)), issue c_vnet st)).
  { unfold AzureVirtualNetwork._Exists, AzureVirtualNetwork.get,
      AzureResourceGroup.get, deref, mbind, M_bind.
    by rewrite Hv, Hvg. }
  assert (Hsubnet : AzureSubnet._Exists (net_subnet net) st
     = (Ok (by_status_and_payload (answer c_subnet)), issue c_subnet st)).
  { unfold AzureSubnet._Exists, AzureSubnet.get, AzureVirtualNetwork.get,
      AzureResourceGroup.get, deref, mbind, M_bind.
    by rewrite Hs, Hsv, Hsg. }
  assert (Hnsg : AzureNetworkSecurityGroup._Exists (net_nsg net) st
     = (Ok (by_status_and_payload (answer c_nsg)), issue c_nsg st)).
  { unfold AzureNetworkSecurityGroup._Exists, AzureNetworkSecurityGroup.get,
      AzureResourceGroup.get, deref, mbind, M_bind.
    by rewrite Hn, Hng. }
  split_and!; try done.
  - intros Hempty. by rewrite Hvnet, by_status_and_payload_empty.
  - intros Hempty. by rewrite Hsubnet, by_status_and_payload_empty.
  - intros Hempty. by rewrite Hnsg, by_status_and_payload_empty.
  - unfold AzureResourceGroup._Exists, AzureResourceGroup.get, deref,
      mbind, M_bind.
    by rewrite Hg.
  - unfold AzureStorageAccount._Exists, AzureStorageAccount.get,
      AzureResourceGroup.get, deref, mbind, M_bind.
    by rewrite Ha, Hag.
Qed.
End Exists.

(** ** Strings *)

Lemma string_length_app (s t : string) :
  String.length (s +:+ t) = (String.length s + String.length t)%nat.
Proof. induction s as [|c s IH]; simpl; [done|by rewrite IH]. Qed.

Lemma string_app_inj_r (t s1 s2 : string) :
  s1 +:+ t = s2 +:+ t → s1 = s2.
Proof.
  revert s2. induction s1 as [|c s1 IH]; intros [|c' s2] Heq.
  - done.
  - apply (f_equal String.length) in Heq.
    rewrite !string_length_app in Heq. simpl in Heq. lia.
  - apply (f_equal String.length) in Heq.
    rewrite !string_length_app in Heq. simpl in Heq. lia.
  - change (String c (s1 +:+ t) = String c' (s2 +:+ t)) in Heq.
    injection Heq as -> Heq. f_equal. by apply IH.
Qed.

Lemma address_space_of_inj : Inj (=) (=) address_space_of.
Proof.
  intros a b Heq. unfold address_space_of in Heq.
  apply (inj (String.app "10.")) in Heq.
  apply string_app_inj_r in Heq. by apply (inj pretty) in Heq.
Qed.

Section GetResourceGroup_facts.
Context `{!Environment}.

Lemma GetResourceGroup_cached st r :
  azure_resource_group (spec st) = Some r →
  GetResourceGroup st = (Ok r, st).
Proof.
  intros Hc. unfold GetResourceGroup, get_state, mbind, M_bind. by rewrite Hc.
Qed.

Lemma GetResourceGroup_first st :
  azure_resource_group (spec st) = None →
  GetResourceGroup st
  = (Ok (length (groups st)),
     set_spec {| uid := uid (spec st);
                 azure_resource_group := Some (length (groups st)) |}
       (set_groups (groups st ++ [new_group st]) st)).
Proof.
  intros Hc. unfold GetResourceGroup, get_state, mbind, M_bind. by rewrite Hc.
Qed.

(** [GetResourceGroup] always returns, and touches nothing but the
    groups and the attribute of the spec. *)
Lemma GetResourceGroup_frame st :
  ∃ r st', GetResourceGroup st = (Ok r, st')
    ∧ vnets st' = vnets st ∧ num_vnets st' = num_vnets st
    ∧ trace st' = trace st.
Proof.
  destruct (azure_resource_group (spec st)) as [r|] eqn:Hc.
  - exists r, st. by rewrite (GetResourceGroup_cached st r).
  - eexists _, _. by rewrite GetResourceGroup_first.
Qed.
End GetResourceGroup_facts.

Section vnets.
Context `{!Environment}.

Lemma AzureVirtualNetwork__init__numbered st location name :
  vnets_numbered st →
  ∃ st', AzureVirtualNetwork.__init__ location name st
         = (Ok (length (vnets st)), st')
    ∧ length (vnets st') = S (length (vnets st))
    ∧ vnets_numbered st'.
Proof.
  intros [Hnum Haddr].
  destruct (GetResourceGroup_frame st) as (r & st0 & Hget & Hv & Hnv & _).
  unfold AzureVirtualNetwork.__init__, mbind, M_bind. rewrite Hget.
  unfold AzureVirtualNetwork.take_vnet_num, AzureVirtualNetwork.alloc.
  simpl. rewrite Hv, Hnv. eexists. split; [done|]. simpl.
  rewrite length_app. simpl. split; [lia|]. split.
  - simpl. rewrite length_app. simpl. lia.
  - simpl. intros k v Hk. apply lookup_app_Some in Hk as [Hk|[Hlen Hk]].
    + by apply Haddr.
    + apply list_lookup_singleton_Some in Hk as [Hk <-]. simpl.
      rewrite Hnum. unfold address_space_of. do 3 f_equal. lia.
Qed.

Lemma vnets_numbered_NoDup st :
  vnets_numbered st → NoDup (vnet_address_space <$> vnets st).
Proof.
  intros [_ Haddr]. apply NoDup_alt. intros i j x Hi Hj.
  rewrite list_lookup_fmap in Hi, Hj.
  destruct (vnets st !! i) as [vi|] eqn:Hvi; [|done].
  destruct (vnets st !! j) as [vj|] eqn:Hvj; [|done].
  simpl in Hi, Hj. apply Haddr in Hvi, Hvj.
  assert (Heq : address_space_of (N.of_nat i) = address_space_of (N.of_nat j))
    by congruence.
  apply address_space_of_inj in Heq. lia.
Qed.

Lemma construct_vnets_numbered args : ∀ st,
  vnets_numbered st →
  ∃ st', construct_vnets args st
         = (Ok (seq (length (vnets st)) (length args)), st')
    ∧ length (vnets st') = (length (vnets st) + length args)%nat
    ∧ vnets_numbered st'.
Proof.
  induction args as [|[location name] args IH]; intros st Hinv.
  - exists st. simpl. split_and!; [done|lia|done].
  - destruct (AzureVirtualNetwork__init__numbered st location name Hinv)
      as (st1 & Hinit & Hlen1 & Hinv1).
    destruct (IH st1 Hinv1) as (st2 & Hrest & Hlen2 & Hinv2).
    exists st2. simpl. unfold mbind, M_bind. rewrite Hinit, Hrest, Hlen1.
    split_and!; [done|lia|done].
Qed.

(** C9.  From a process in which no virtual network was constructed:
    the [k]-th construction, counted from 0, is given the address space
    ['10.k.0.0/16'], and the address spaces of the networks constructed
    are pairwise distinct. *)
Theorem vnet_address_spaces_distinct st (args : list (string * string)) :
  vnets st = [] →
  num_vnets st = 0%N →
  ∃ st',
    construct_vnets args st = (Ok (seq 0 (length args)), st')
    ∧ length (vnets st') = length args
    ∧ (∀ k v, vnets st' !! k = Some v →
         vnet_address_space v = "10." +:+ pretty (N.of_nat k) +:+ ".0.0/16")
    ∧ NoDup (vnet_address_space <$> vnets st').
Proof.
  intros Hnone Hzero.
  assert (Hinv : vnets_numbered st).
  { split; [by rewrite Hnone, Hzero|]. intros k v. by rewrite Hnone. }
  destruct (construct_vnets_numbered args st Hinv) as (st' & Hrun & Hlen & Hinv').
  rewrite Hnone in Hrun, Hlen. simpl in Hrun, Hlen.
  exists st'. split_and!; [done|done| |by apply vnets_numbered_NoDup].
  intros k v Hk. by apply Hinv'.
Qed.
End vnets.

Section Retry_facts.
Context `{!Environment}.

Lemma Retry_returns {A} retryable budget (body : M A) st a st' :
  body st = (Ok a, st') → Retry retryable budget body st = (Ok a, st').
Proof. intros Hbody. destruct budget; simpl; by rewrite Hbody. Qed.
End Retry_facts.

Section resource_group.
Context `{!Environment}.

Lemma AzureResourceGroup_Create_created st self g :
  groups st !! self = Some g →
  created (rg_base g) = true →
  AzureResourceGroup.Create self st = (Ok tt, st).
Proof.
  intros Hg Hc.
  unfold AzureResourceGroup.Create, resource.Create, AzureResourceGroup.load,
    AzureResourceGroup.get, deref, mbind, M_bind.
  rewrite Hg. simpl. by rewrite Hc.
Qed.

Lemma AzureResourceGroup_Create_fresh st self g :
  groups st !! self = Some g →
  created (rg_base g) = false →
  retcode (env (trace st) (group_create_call g)) = 0 →
  AzureResourceGroup.Create self st
  = (Ok tt, mark_created_group self g (issue (group_create_call g) st)).
Proof.
  intros Hg Hc Hok.
  unfold AzureResourceGroup.Create, resource.Create, AzureResourceGroup.load,
    AzureResourceGroup.get, deref.
  unfold mbind at 1, M_bind at 1. unfold mbind at 1, M_bind at 1.
  rewrite Hg. unfold mret at 1, M_ret at 1. rewrite Hc.
  unfold mbind at 1, M_bind at 1.
  erewrite Retry_returns; cycle 1.
  { unfold AzureResourceGroup._Create, AzureResourceGroup.get, deref,
      mbind, M_bind, vm_util.IssueCommand.
    rewrite Hg. fold (group_create_call g).
    destruct (decide _) as [_|Hne]; [reflexivity|done]. }
  unfold AzureResourceGroup.store, AzureResourceGroup.put,
    AzureResourceGroup.get, deref, modify, mbind, M_bind, mret, M_ret.
  simpl. rewrite Hg. simpl. rewrite Hg. reflexivity.
Qed.

Lemma obtain_and_create_cached k : ∀ st r g,
  azure_resource_group (spec st) = Some r →
  groups st !! r = Some g →
  created (rg_base g) = true →
  obtain_and_create k st = (Ok (replicate k r), st).
Proof.
  induction k as [|k IH]; intros st r g Hc Hg Hcr; [done|].
  simpl. unfold mbind, M_bind.
  rewrite (GetResourceGroup_cached st r Hc).
  rewrite (AzureResourceGroup_Create_created st r g Hg Hcr).
  by rewrite (IH st r g).
Qed.

(** C7.  In a run whose spec has no resource group yet:
    [GetResourceGroup] returns a new group named
    ['pkb<run_uri>-<spec_uid>'], and a further call returns the same
    object; and when the creation command succeeds, any number of
    callers that obtain the group and create it get the same object,
    and one creation is issued in all. *)
Theorem GetResourceGroup_one_group st (k : nat) :
  azure_resource_group (spec st) = None →
  let r := length (groups st) in
  let g := new_group st in
  retcode (env (trace st) (group_create_call g)) = 0 →
  (∀ r1 st1, GetResourceGroup st = (Ok r1, st1) →
             r1 = r ∧ groups st1 !! r1 = Some g
             ∧ GetResourceGroup st1 = (Ok r1, st1))
  ∧ rg_name g = "pkb" +:+ run_uri FLAGS +:+ "-" +:+ uid (spec st)
  ∧ ∃ st' g',
      obtain_and_create (S k) st = (Ok (replicate (S k) r), st')
      ∧ azure_resource_group (spec st') = Some r
      ∧ groups st' !! r = Some g'
      ∧ rg_name g' = rg_name g
      ∧ calls st' = calls st ++ [group_create_call g].
Proof.
  intros Hnone r g Hok.
  pose proof (GetResourceGroup_first st Hnone) as Hfirst.
  fold r g in Hfirst.
  set (st1 := set_spec _ _) in Hfirst.
  assert (Hg1 : groups st1 !! r = Some g).
  { subst st1 r. simpl. by rewrite lookup_app_r, Nat.sub_diag. }
  assert (Hc1 : azure_resource_group (spec st1) = Some r) by done.
  split_and!.
  - intros r1 st1' Hget. rewrite Hfirst in Hget. injection Hget as <- <-.
    split_and!; [done..|]. by apply GetResourceGroup_cached.
  - done.
  - set (g' := set_rg_base (set_created true (rg_base g)) g).
    exists (mark_created_group r g (issue (group_create_call g) st1)), g'.
    assert (Hcreate : AzureResourceGroup.Create r st1
      = (Ok tt, mark_created_group r g (issue (group_create_call g) st1))).
    { by apply AzureResourceGroup_Create_fresh. }
    split_and!.
    + cbn [obtain_and_create]. unfold mbind, M_bind.
      rewrite Hfirst, Hcreate.
      rewrite (obtain_and_create_cached k _ r g'); [done|done| |done].
      simpl. apply list_lookup_insert_eq. subst r.
      rewrite length_app. simpl. lia.
    + done.
    + simpl. apply list_lookup_insert_eq. subst r.
      rewrite length_app. simpl. lia.
    + done.
    + unfold calls. simpl. by rewrite map_app.
Qed.
End resource_group.

(** ** The lifecycle of each resource *)

Section lifecycle.
Context `{!Environment}.

Lemma AzureResourceGroup_Delete_deleted st self g :
  groups st !! self = Some g →
  deleted (rg_base g) = true →
  AzureResourceGroup.Delete self st = (Ok tt, st).
Proof.
  intros Hg Hd.
  unfold AzureResourceGroup.Delete, resource.Delete, AzureResourceGroup.load,
    AzureResourceGroup.get.
  run_method. rewrite Hg. run_method. by rewrite Hd.
Qed.

Lemma AzureResourceGroup_Delete_fresh st self g :
  groups st !! self = Some g →
  deleted (rg_base g) = false →
  AzureResourceGroup.Delete self st
  = (Ok tt,
     set_groups (<[self := set_rg_base (set_deleted true (rg_base g)) g]>
                   (groups st))
                (issue (group_delete_call g) st)).
Proof.
  intros Hg Hd.
  unfold AzureResourceGroup.Delete, resource.Delete, AzureResourceGroup.load,
    AzureResourceGroup.store, AzureResourceGroup._Delete,
    AzureResourceGroup.put, AzureResourceGroup.get.
  run_method. rewrite Hg. run_method. rewrite Hd. run_method.
  rewrite Hg. run_method. rewrite Hg. run_method. by rewrite Hg.
Qed.

Lemma AzureVirtualNetwork_Create_fresh st self v g :
  vnets st !! self = Some v →
  groups st !! vnet_resource_group v = Some g →
  created (vnet_base v) = false →
  AzureVirtualNetwork.Create self st
  = (Ok tt,
     set_vnets (<[self := set_vnet_base (set_created true (vnet_base v)) v]>
                  (vnets st))
               (issue (vnet_create_call v g) st)).
Proof.
  intros Hv Hg Hc.
  unfold AzureVirtualNetwork.Create, resource.Create,
    AzureVirtualNetwork.load, AzureVirtualNetwork.store,
    AzureVirtualNetwork.put, AzureVirtualNetwork.get.
  run_method. rewrite Hv. run_method. rewrite Hc.
  erewrite Retry_returns; cycle 1.
  { unfold AzureVirtualNetwork._Create, AzureVirtualNetwork.get,
      AzureResourceGroup.get.
    run_method. rewrite Hv. run_method. rewrite Hg. reflexivity. }
  run_method. rewrite Hv. run_method. by rewrite Hv.
Qed.

Lemma AzureVirtualNetwork_Delete_fresh st self v g :
  vnets st !! self = Some v →
  groups st !! vnet_resource_group v = Some g →
  deleted (vnet_base v) = false →
  AzureVirtualNetwork.Delete self st
  = (Ok tt,
     set_vnets (<[self := set_vnet_base (set_deleted true (vnet_base v)) v]>
                  (vnets st))
               (issue (vnet_delete_call v g) st)).
Proof.
  intros Hv Hg Hd.
  unfold AzureVirtualNetwork.Delete, resource.Delete,
    AzureVirtualNetwork.load, AzureVirtualNetwork.store,
    AzureVirtualNetwork._Delete, AzureResourceGroup.get,
    AzureVirtualNetwork.put, AzureVirtualNetwork.get.
  run_method. rewrite Hv. run_method. rewrite Hd. run_method.
  rewrite Hv. run_method. rewrite Hg. run_method. rewrite Hv. run_method.
  by rewrite Hv.
Qed.

Lemma AzureSubnet_Create_fresh st self s v g :
  subnets st !! self = Some s →
  vnets st !! subnet_vnet s = Some v →
  groups st !! subnet_resource_group s = Some g →
  created (subnet_base s) = false →
  AzureSubnet.Create self st
  = (Ok tt,
     set_subnets (<[self := set_subnet_base (set_created true (subnet_base s)) s]>
                    (subnets st))
                 (issue (subnet_create_call s v g) st)).
Proof.
  intros Hs Hv Hg Hc.
  unfold AzureSubnet.Create, resource.Create, AzureSubnet.load,
    AzureSubnet.store, AzureSubnet.put, AzureSubnet.get.
  run_method. rewrite Hs. run_method. rewrite Hc.
  erewrite Retry_returns; cycle 1.
  { unfold AzureSubnet._Create, AzureSubnet.get, AzureVirtualNetwork.get,
      AzureResourceGroup.get.
    run_method. rewrite Hs. run_method. rewrite Hv. run_method.
    rewrite Hg. reflexivity. }
  run_method. rewrite Hs. run_method. by rewrite Hs.
Qed.

Lemma AzureSubnet_Delete_fresh st self s v g :
  subnets st !! self = Some s →
  vnets st !! subnet_vnet s = Some v →
  groups st !! subnet_resource_group s = Some g →
  deleted (subnet_base s) = false →
  AzureSubnet.Delete self st
  = (Ok tt,
     set_subnets (<[self := set_subnet_base (set_deleted true (subnet_base s)) s]>
                    (subnets st))
                 (issue (subnet_delete_call s v g) st)).
Proof.
  intros Hs Hv Hg Hd.
  unfold AzureSubnet.Delete, resource.Delete, AzureSubnet.load,
    AzureSubnet.store, AzureSubnet._Delete, AzureResourceGroup.get,
    AzureVirtualNetwork.get, AzureSubnet.put, AzureSubnet.get.
  run_method. rewrite Hs. run_method. rewrite Hd. run_method.
  rewrite Hs. run_method. rewrite Hv. run_method. rewrite Hg. run_method.
  rewrite Hs. run_method. by rewrite Hs.
Qed.

Lemma AzureNetworkSecurityGroup_Create_fresh st self n g :
  nsgs st !! self = Some n →
  groups st !! nsg_resource_group n = Some g →
  created (nsg_base n) = false →
  AzureNetworkSecurityGroup.Create self st
  = (Ok tt,
     set_nsgs (<[self := set_nsg_base (set_created true (nsg_base n)) n]>
                 (nsgs st))
              (issue (nsg_create_call n g) st)).
Proof.
  intros Hn Hg Hc.
  unfold AzureNetworkSecurityGroup.Create, resource.Create,
    AzureNetworkSecurityGroup.load, AzureNetworkSecurityGroup.store,
    AzureNetworkSecurityGroup.put, AzureNetworkSecurityGroup.get.
  run_method. rewrite Hn. run_method. rewrite Hc.
  erewrite Retry_returns; cycle 1.
  { unfold AzureNetworkSecurityGroup._Create, AzureNetworkSecurityGroup.get,
      AzureResourceGroup.get.
    run_method. rewrite Hn. run_method. rewrite Hg. reflexivity. }
  run_method. rewrite Hn. run_method. by rewrite Hn.
Qed.

Lemma AzureNetworkSecurityGroup_Delete_fresh st self n g :
  nsgs st !! self = Some n →
  groups st !! nsg_resource_group n = Some g →
  deleted (nsg_base n) = false →
  AzureNetworkSecurityGroup.Delete self st
  = (Ok tt,
     set_nsgs (<[self := set_nsg_base (set_deleted true (nsg_base n)) n]>
                 (nsgs st))
              (issue (nsg_delete_call n g) st)).
Proof.
  intros Hn Hg Hd.
  unfold AzureNetworkSecurityGroup.Delete, resource.Delete,
    AzureNetworkSecurityGroup.load, AzureNetworkSecurityGroup.store,
    AzureNetworkSecurityGroup._Delete, AzureResourceGroup.get,
    AzureNetworkSecurityGroup.put, AzureNetworkSecurityGroup.get.
  run_method. rewrite Hn. run_method. rewrite Hd. run_method.
  rewrite Hn. run_method. rewrite Hg. run_method. rewrite Hn. run_method.
  by rewrite Hn.
Qed.

Lemma AttachToSubnet_returns st self n s g v :
  commands_succeed →
  nsgs st !! self = Some n →
  subnets st !! nsg_subnet n = Some s →
  groups st !! nsg_resource_group n = Some g →
  vnets st !! subnet_vnet s = Some v →
  AzureNetworkSecurityGroup.AttachToSubnet self st
  = (Ok tt, issue (attach_call n s g v) st).
Proof.
  intros Hok Hn Hs Hg Hv.
  unfold AzureNetworkSecurityGroup.AttachToSubnet,
    AzureNetworkSecurityGroup.get, AzureSubnet.get, AzureResourceGroup.get,
    AzureVirtualNetwork.get, vm_util.IssueRetryableCommand.
  run_method. rewrite Hn. run_method. rewrite Hs. run_method.
  rewrite Hg. run_method. rewrite Hv.
  fold (attach_call n s g v).
  destruct (decide _) as [_|Hne]; [done|]. by rewrite Hok in Hne.
Qed.

Lemma AzureStorageAccount_Delete_fresh st self a g :
  accounts st !! self = Some a →
  groups st !! sa_resource_group a = Some g →
  deleted (sa_base a) = false →
  AzureStorageAccount.Delete self st
  = (Ok tt,
     set_accounts (<[self := set_sa_base (set_deleted true (sa_base a)) a]>
                     (accounts st))
                  (issue (account_delete_call a g) st)).
Proof.
  intros Ha Hg Hd.
  unfold AzureStorageAccount.Delete, resource.Delete,
    AzureStorageAccount.load, AzureStorageAccount.store,
    AzureStorageAccount._Delete, AzureResourceGroup.get,
    AzureStorageAccount.put, AzureStorageAccount.get.
  run_method. rewrite Ha. run_method. rewrite Hd. run_method.
  rewrite Ha. run_method. rewrite Hg. run_method. rewrite Ha. run_method.
  by rewrite Ha.
Qed.

Lemma AzureStorageAccount_PostCreate_returns st self a g :
  commands_succeed →
  storage_queries_answered →
  accounts st !! self = Some a →
  groups st !! sa_resource_group a = Some g →
  ∃ connection key,
    AzureStorageAccount._PostCreate self st
    = (Ok tt,
       set_accounts (<[self := set_sa_key key (set_sa_connection connection a)]>
                       (accounts st))
                    (issue (keys_call a g) (issue (connection_call a g) st))).
Proof.
  intros Hok [Hconn Hkeys] Ha Hg.
  assert (Hself : (self < length (accounts st))%nat) by (by eapply lookup_lt_Some).
  unfold AzureStorageAccount._PostCreate, AzureStorageAccount.put,
    AzureStorageAccount.get, AzureResourceGroup.get,
    vm_util.IssueRetryableCommand.
  run_method. rewrite Ha. run_method. rewrite Hg.
  destruct (decide _) as [_|Hne]; [|by rewrite Hok in Hne].
  run_method.
  destruct (Hconn (trace st) ("--json" :: sa_name a :: rg_args g))
    as (fields & connection & -> & Hfield).
  run_method. rewrite Hfield. run_method. rewrite Ha. run_method.
  rewrite list_lookup_insert_eq by done. run_method. rewrite Hg.
  destruct (decide _) as [_|Hne]; [|by rewrite Hok in Hne].
  run_method.
  match goal with
  | |- context [json_loads (stdout (env ?h _))] =>
      destruct (Hkeys h ("--json" :: sa_name a :: rg_args g))
        as (kfields & items & key & -> & Hperm & Hvalue)
  end.
  run_method. rewrite Hperm. run_method. rewrite Hvalue. run_method.
  rewrite list_lookup_insert_eq by done. run_method.
  rewrite list_insert_insert_eq.
  exists connection, key. reflexivity.
Qed.

Lemma AzureStorageAccount_Create_fresh st self a g cmd :
  commands_succeed →
  storage_queries_answered →
  accounts st !! self = Some a →
  groups st !! sa_resource_group a = Some g →
  created (sa_base a) = false →
  AzureStorageAccount.create_cmd a g = Some cmd →
  ∃ a',
    AzureStorageAccount.Create self st
    = (Ok tt,
       set_accounts (<[self := a']> (accounts st))
         (issue (keys_call a g)
            (issue (connection_call a g)
               (issue (IssueCommandCall cmd false) st))))
    ∧ sa_base a' = set_created true (sa_base a)
    ∧ sa_name a' = sa_name a
    ∧ sa_resource_group a' = sa_resource_group a.
Proof.
  intros Hok Hans Ha Hg Hc Hcmd.
  assert (Hself : (self < length (accounts st))%nat) by (by eapply lookup_lt_Some).
  set (a1 := set_sa_base (set_created true (sa_base a)) a).
  set (st1 := set_accounts (<[self := a1]> (accounts st))
                (issue (IssueCommandCall cmd false) st)).
  destruct (AzureStorageAccount_PostCreate_returns st1 self a1 g Hok Hans)
    as (connection & key & Hpost).
  { subst st1. simpl. by apply list_lookup_insert_eq. }
  { done. }
  exists (set_sa_key key (set_sa_connection connection a1)).
  split; [|done].
  unfold AzureStorageAccount.Create, resource.Create,
    AzureStorageAccount.load, AzureStorageAccount.store,
    AzureStorageAccount.put, AzureStorageAccount.get.
  unfold mbind at 1, M_bind at 1. unfold mbind at 1, M_bind at 1.
  unfold deref at 1. rewrite Ha. unfold mret at 1, M_ret at 1. rewrite Hc.
  unfold mbind at 1, M_bind at 1.
  erewrite Retry_returns; cycle 1.
  { unfold AzureStorageAccount._Create, AzureStorageAccount.get,
      AzureResourceGroup.get.
    run_method. rewrite Ha. run_method. rewrite Hg, Hcmd. reflexivity. }
  unfold mbind at 1, M_bind at 1. unfold mbind at 1, M_bind at 1.
  unfold deref at 1. simpl (accounts _). rewrite Ha.
  unfold mret at 1, M_ret at 1.
  unfold mbind at 1, M_bind at 1. unfold mbind at 1, M_bind at 1.
  unfold deref at 1. simpl (accounts _). rewrite Ha.
  unfold modify at 1.
  change (set_accounts _ _) with st1 at 1.
  rewrite Hpost. f_equal. subst st1. unfold issue, vm_util.record. simpl.
  by rewrite list_insert_insert_eq.
Qed.
End lifecycle.

(** ** The lifecycle of a regional network *)

Section network.
Context `{!Environment}.

Lemma set_created_created b :
  created b = true → set_created true b = b.
Proof. destruct b. simpl. by intros ->. Qed.

Lemma set_rg_base_id g : set_rg_base (rg_base g) g = g.
Proof. by destruct g. Qed.

Lemma set_groups_id st : set_groups (groups st) st = st.
Proof. by destruct st. Qed.

Lemma set_deleted_deleted b :
  deleted b = true → set_deleted true b = b.
Proof. destruct b. simpl. by intros ->. Qed.

(** Creating the resource group, whatever its flag. *)
Lemma AzureResourceGroup_Create_returns st self g :
  commands_succeed →
  groups st !! self = Some g →
  ∃ st',
    AzureResourceGroup.Create self st = (Ok tt, st')
    ∧ st' = set_groups
              (<[self := set_rg_base (set_created true (rg_base g)) g]>
                 (groups st))
              (set_trace (trace st') st)
    ∧ calls st' = calls st
                  ++ (if created (rg_base g) then []
                      else [group_create_call g]).
Proof.
  intros Hok Hg. destruct (created (rg_base g)) eqn:Hc.
  - exists st. rewrite (AzureResourceGroup_Create_created st self g) by done.
    rewrite set_created_created, set_rg_base_id, list_insert_id by done.
    rewrite app_nil_r. split_and!; [done| |done]. by destruct st.
  - eexists. rewrite (AzureResourceGroup_Create_fresh st self g) by done.
    split_and!; [done|done|]. unfold calls. simpl. by rewrite map_app.
Qed.

Lemma AzureResourceGroup_Delete_returns st self g :
  groups st !! self = Some g →
  ∃ st',
    AzureResourceGroup.Delete self st = (Ok tt, st')
    ∧ st' = set_groups
              (<[self := set_rg_base (set_deleted true (rg_base g)) g]>
                 (groups st))
              (set_trace (trace st') st)
    ∧ calls st' = calls st
                  ++ (if deleted (rg_base g) then []
                      else [group_delete_call g]).
Proof.
  intros Hg. destruct (deleted (rg_base g)) eqn:Hd.
  - exists st. rewrite (AzureResourceGroup_Delete_deleted st self g) by done.
    rewrite set_deleted_deleted, set_rg_base_id, list_insert_id by done.
    rewrite app_nil_r. split_and!; [done| |done]. by destruct st.
  - eexists. rewrite (AzureResourceGroup_Delete_fresh st self g) by done.
    split_and!; [done|done|]. unfold calls. simpl. by rewrite map_app.
Qed.

Lemma AzureNetwork_Create_fresh st self net b g a v s n cmd :
  commands_succeed →
  storage_queries_answered →
  networks st !! self = Some net →
  fresh_network st net b g a v s n cmd →
  ∃ st' a',
    AzureNetwork.Create self st = (Ok tt, st')
    ∧ calls st'
      = calls st
        ++ (if created b then [] else [group_create_call g])
        ++ [IssueCommandCall cmd false; connection_call a g; keys_call a g;
            vnet_create_call v g; subnet_create_call s v g;
            nsg_create_call n g; attach_call n s g v]
    ∧ stores_updated st st' net
        (set_rg_base (set_created true b) g) a'
        (set_vnet_base (set_created true (vnet_base v)) v)
        (set_subnet_base (set_created true (subnet_base s)) s)
        (set_nsg_base (set_created true (nsg_base n)) n)
    ∧ sa_base a' = set_created true (sa_base a)
    ∧ sa_name a' = sa_name a
    ∧ sa_resource_group a' = sa_resource_group a.
Proof.
  intros Hok Hans Hnet (Hobj & Hb & Hab & Hvb & Hsb & Hnb & Hcmd).
  destruct Hobj as (Hg & Ha & Harg & Hv & Hvrg & Hs & Hsv & Hsrg & Hn & Hns & Hnrg).
  assert (Hrg : (net_resource_group net < length (groups st))%nat)
    by (by eapply lookup_lt_Some).
  destruct (AzureResourceGroup_Create_returns st _ g Hok Hg)
    as (st1 & Hrun1 & Hst1 & Hcalls1).
  rewrite Hb in Hst1, Hcalls1.
  set (g1 := set_rg_base (set_created true b) g) in *.
  assert (Hg1 : groups st1 !! net_resource_group net = Some g1).
  { rewrite Hst1. simpl. by apply list_lookup_insert_eq. }
  assert (Ha1 : accounts st1 !! net_storage_account net = Some a)
    by (by rewrite Hst1).
  destruct (AzureStorageAccount_Create_fresh st1 _ a g1 cmd Hok Hans Ha1)
    as (a' & Hrun2 & Ha'b & Ha'n & Ha'rg); [by rewrite Harg|by rewrite Hab|done|].
  set (st2 := set_accounts _ _) in Hrun2.
  assert (Hrun3 := AzureVirtualNetwork_Create_fresh st2 (net_vnet net) v g1).
  set (st3 := set_vnets _ _) in Hrun3.
  assert (Hrun4 := AzureSubnet_Create_fresh st3 (net_subnet net) s
                     (set_vnet_base (set_created true (vnet_base v)) v) g1).
  set (st4 := set_subnets _ _) in Hrun4.
  assert (Hrun5 := AzureNetworkSecurityGroup_Create_fresh st4 (net_nsg net) n g1).
  set (st5 := set_nsgs _ _) in Hrun5.
  assert (Hrun6 := AttachToSubnet_returns st5 (net_nsg net)
                     (set_nsg_base (set_created true (nsg_base n)) n)
                     (set_subnet_base (set_created true (subnet_base s)) s)
                     g1
                     (set_vnet_base (set_created true (vnet_base v)) v) Hok).
  exists (issue
            (attach_call (set_nsg_base (set_created true (nsg_base n)) n)
               (set_subnet_base (set_created true (subnet_base s)) s) g1
               (set_vnet_base (set_created true (vnet_base v)) v)) st5), a'.
  assert (Hvn : (net_vnet net < length (vnets st))%nat) by (by eapply lookup_lt_Some).
  assert (Hsn : (net_subnet net < length (subnets st))%nat) by (by eapply lookup_lt_Some).
  assert (Hnn : (net_nsg net < length (nsgs st))%nat) by (by eapply lookup_lt_Some).
  split_and!.
  - unfold AzureNetwork.Create, vm_util.Retry_default.
    apply Retry_returns.
    unfold AzureNetwork.Create_body, AzureNetwork.get, deref.
    unfold mbind at 1, M_bind at 1. rewrite Hnet.
    unfold mbind at 1, M_bind at 1. rewrite Hrun1.
    unfold mbind at 1, M_bind at 1. rewrite Hrun2.
    unfold mbind at 1, M_bind at 1. rewrite Hrun3; cycle 1.
    { subst st2. simpl. by rewrite Hst1. }
    { subst st2. simpl. by rewrite Hvrg. }
    { by rewrite Hvb. }
    unfold mbind at 1, M_bind at 1. rewrite Hrun4; cycle 1.
    { subst st3 st2. simpl. by rewrite Hst1. }
    { subst st3. simpl. rewrite Hsv. by apply list_lookup_insert_eq; rewrite Hst1. }
    { subst st3 st2. simpl. by rewrite Hsrg. }
    { by rewrite Hsb. }
    unfold mbind at 1, M_bind at 1. rewrite Hrun5; cycle 1.
    { subst st4 st3 st2. simpl. by rewrite Hst1. }
    { subst st4 st3 st2. simpl. by rewrite Hnrg. }
    { by rewrite Hnb. }
    rewrite Hrun6; [done|..].
    + subst st5. simpl. apply list_lookup_insert_eq.
      subst st4 st3 st2. simpl. by rewrite Hst1.
    + subst st5 st4. simpl. rewrite Hns. apply list_lookup_insert_eq.
      subst st3 st2. simpl. by rewrite Hst1.
    + subst st5 st4 st3 st2. simpl. by rewrite Hnrg.
    + subst st5 st4 st3. simpl. rewrite Hsv. apply list_lookup_insert_eq.
      subst st2. simpl. by rewrite Hst1.
  - rewrite calls_issue. subst st5 st4 st3 st2. unfold calls in *. simpl.
    rewrite !map_app. simpl. rewrite Hcalls1. rewrite <- !app_assoc. done.
  - subst st5 st4 st3 st2. unfold stores_updated. simpl.
    rewrite Hst1. simpl. done.
  - done.
  - done.
  - done.
Qed.

Lemma AzureNetwork_Delete_live st self net g a v s n :
  networks st !! self = Some net →
  network_objects st net g a v s n →
  deleted (sa_base a) = false →
  deleted (vnet_base v) = false →
  deleted (subnet_base s) = false →
  deleted (nsg_base n) = false →
  ∃ st',
    AzureNetwork.Delete self st = (Ok tt, st')
    ∧ calls st'
      = calls st
        ++ [subnet_delete_call s v g; nsg_delete_call n g;
            vnet_delete_call v g; account_delete_call a g]
        ++ (if deleted (rg_base g) then [] else [group_delete_call g])
    ∧ stores_updated st st' net
        (set_rg_base (set_deleted true (rg_base g)) g)
        (set_sa_base (set_deleted true (sa_base a)) a)
        (set_vnet_base (set_deleted true (vnet_base v)) v)
        (set_subnet_base (set_deleted true (subnet_base s)) s)
        (set_nsg_base (set_deleted true (nsg_base n)) n).
Proof.
  intros Hnet Hobj Had Hvd Hsd Hnd.
  destruct Hobj as (Hg & Ha & Harg & Hv & Hvrg & Hs & Hsv & Hsrg & Hn & Hns & Hnrg).
  assert (Hrun1 := AzureSubnet_Delete_fresh st (net_subnet net) s v g).
  set (st1 := set_subnets _ _) in Hrun1.
  assert (Hrun2 := AzureNetworkSecurityGroup_Delete_fresh st1 (net_nsg net) n g).
  set (st2 := set_nsgs _ _) in Hrun2.
  assert (Hrun3 := AzureVirtualNetwork_Delete_fresh st2 (net_vnet net) v g).
  set (st3 := set_vnets _ _) in Hrun3.
  assert (Hrun4 := AzureStorageAccount_Delete_fresh st3 (net_storage_account net) a g).
  set (st4 := set_accounts _ _) in Hrun4.
  destruct (AzureResourceGroup_Delete_returns st4 (net_resource_group net) g)
    as (st5 & Hrun5 & Hst5 & Hcalls5); [done|].
  exists st5. split_and!.
  - unfold AzureNetwork.Delete, AzureNetwork.get, deref.
    unfold mbind at 1, M_bind at 1. rewrite Hnet.
    unfold mbind at 1, M_bind at 1.
    rewrite Hrun1 by (done || by rewrite ?Hsv, ?Hsrg).
    unfold mbind at 1, M_bind at 1.
    rewrite Hrun2 by (done || by rewrite ?Hnrg).
    unfold mbind at 1, M_bind at 1.
    rewrite Hrun3 by (done || by rewrite ?Hvrg).
    unfold mbind at 1, M_bind at 1.
    rewrite Hrun4 by (done || by rewrite ?Harg).
    done.
  - rewrite Hcalls5. subst st4 st3 st2 st1. unfold calls. simpl.
    rewrite !map_app. simpl. rewrite <- !app_assoc. done.
  - unfold stores_updated. rewrite Hst5. subst st4 st3 st2 st1. simpl. done.
Qed.

(** The objects of a network after its own objects were replaced by
    objects with the same references. *)
Lemma network_objects_updated st st' net g a v s n g' a' v' s' n' :
  network_objects st net g a v s n →
  stores_updated st st' net g' a' v' s' n' →
  sa_resource_group a' = sa_resource_group a →
  vnet_resource_group v' = vnet_resource_group v →
  subnet_vnet s' = subnet_vnet s →
  subnet_resource_group s' = subnet_resource_group s →
  nsg_subnet n' = nsg_subnet n →
  nsg_resource_group n' = nsg_resource_group n →
  network_objects st' net g' a' v' s' n'.
Proof.
  intros (Hg & Ha & Harg & Hv & Hvrg & Hs & Hsv & Hsrg & Hn & Hns & Hnrg)
         (Egs & Eas & Evs & Ess & Ens & _) Ea Ev Es1 Es2 En1 En2.
  unfold network_objects.
  rewrite Egs, Eas, Evs, Ess, Ens, Ea, Ev, Es1, Es2, En1, En2.
  split_and!; try done; apply list_lookup_insert_eq; by eapply lookup_lt_Some.
Qed.

(** The objects of a network after the objects of another network,
    with which it shares the resource group only, were replaced. *)
Lemma network_objects_other st st' net1 net2 g a2 v2 s2 n2 g' a' v' s' n' :
  network_objects st net2 g a2 v2 s2 n2 →
  share_only_group net1 net2 →
  stores_updated st st' net1 g' a' v' s' n' →
  network_objects st' net2 g' a2 v2 s2 n2.
Proof.
  intros (Hg & Ha & Harg & Hv & Hvrg & Hs & Hsv & Hsrg & Hn & Hns & Hnrg)
         (Erg & Nsa & Nvn & Nsn & Nnn)
         (Egs & Eas & Evs & Ess & Ens & _).
  unfold network_objects.
  rewrite Egs, Eas, Evs, Ess, Ens, Erg.
  rewrite (list_lookup_insert_ne (accounts st)) by done.
  rewrite (list_lookup_insert_ne (vnets st)) by done.
  rewrite (list_lookup_insert_ne (subnets st)) by done.
  rewrite (list_lookup_insert_ne (nsgs st)) by done.
  split_and!; try done. apply list_lookup_insert_eq. by eapply lookup_lt_Some.
Qed.

Lemma step_of_account_create a g cmd :
  AzureStorageAccount.create_cmd a g = Some cmd →
  step_of (IssueCommandCall cmd false) = Some CreateStorageAccount.
Proof.
  unfold AzureStorageAccount.create_cmd. intros Hcmd.
  destruct (decide (sa_location a = "")), (decide (sa_kind a = "BlobStorage"));
    try destruct (sa_access_tier a); simplify_eq; reflexivity.
Qed.

Lemma steps_between_app st st' l :
  calls st' = calls st ++ l → steps_between st st' = omap step_of l.
Proof. intros Hl. unfold steps_between. by rewrite Hl, drop_app_length. Qed.

(** C5.  Two regional networks that share the resource group and
    nothing else, none of their resources created or deleted yet, with a
    provider whose commands succeed: [Create] on the first issues the
    steps resource group, storage account, virtual network, subnet,
    network security group, attach, in this order; [Create] on the
    second issues the same steps without the resource group; [Delete] on
    the first issues subnet, network security group, virtual network,
    storage account, resource group; [Delete] on the second the same
    without the resource group.  The creation and the deletion of the
    resource group are each issued once. *)
Theorem network_lifecycle_order st self1 self2 net1 net2 g
    a1 v1 s1 n1 cmd1 a2 v2 s2 n2 cmd2 :
  commands_succeed →
  storage_queries_answered →
  networks st !! self1 = Some net1 →
  networks st !! self2 = Some net2 →
  fresh_network st net1 resource.BaseResource__init__ g a1 v1 s1 n1 cmd1 →
  fresh_network st net2 resource.BaseResource__init__ g a2 v2 s2 n2 cmd2 →
  share_only_group net1 net2 →
  ∃ st1 st2 st3 st4,
    AzureNetwork.Create self1 st = (Ok tt, st1)
    ∧ AzureNetwork.Create self2 st1 = (Ok tt, st2)
    ∧ AzureNetwork.Delete self1 st2 = (Ok tt, st3)
    ∧ AzureNetwork.Delete self2 st3 = (Ok tt, st4)
    ∧ steps_between st st1
      = [CreateResourceGroup; CreateStorageAccount; CreateVirtualNetwork;
         CreateSubnet; CreateNetworkSecurityGroup; AttachSecurityGroup]
    ∧ steps_between st1 st2
      = [CreateStorageAccount; CreateVirtualNetwork;
         CreateSubnet; CreateNetworkSecurityGroup; AttachSecurityGroup]
    ∧ steps_between st2 st3
      = [DeleteSubnet; DeleteNetworkSecurityGroup; DeleteVirtualNetwork;
         DeleteStorageAccount; DeleteResourceGroup]
    ∧ steps_between st3 st4
      = [DeleteSubnet; DeleteNetworkSecurityGroup; DeleteVirtualNetwork;
         DeleteStorageAccount].
Proof.
  intros Hok Hans Hnet1 Hnet2 Hfresh1 Hfresh2 Hshare.
  pose proof Hfresh1 as (Hobj1 & Hgb & Hab1 & Hvb1 & Hsb1 & Hnb1 & Hcmd1).
  pose proof Hfresh2 as (Hobj2 & _ & Hab2 & Hvb2 & Hsb2 & Hnb2 & Hcmd2).
  (* the first network is created *)
  destruct (AzureNetwork_Create_fresh st self1 net1 _ g a1 v1 s1 n1 cmd1
              Hok Hans Hnet1 Hfresh1)
    as (st1 & a1' & Hrun1 & Hcalls1 & Hup1 & Ha1b & Ha1n & Ha1rg).
  set (g1 := set_rg_base _ g) in Hup1.
  set (v1' := set_vnet_base _ v1) in Hup1.
  set (s1' := set_subnet_base _ s1) in Hup1.
  set (n1' := set_nsg_base _ n1) in Hup1.
  assert (Hobj1a : network_objects st1 net1 g1 a1' v1' s1' n1')
    by (by eapply network_objects_updated).
  assert (Hobj2a : network_objects st1 net2 g1 a2 v2 s2 n2)
    by (by eapply network_objects_other).
  assert (Hnets1 : networks st1 = networks st) by apply Hup1.
  (* the second network is created *)
  destruct (AzureNetwork_Create_fresh st1 self2 net2
              (set_created true resource.BaseResource__init__)
              g1 a2 v2 s2 n2 cmd2 Hok Hans)
    as (st2 & a2' & Hrun2 & Hcalls2 & Hup2 & Ha2b & Ha2n & Ha2rg).
  { by rewrite Hnets1. }
  { by split_and!. }
  set (g2 := set_rg_base _ g1) in Hup2.
  set (v2' := set_vnet_base _ v2) in Hup2.
  set (s2' := set_subnet_base _ s2) in Hup2.
  set (n2' := set_nsg_base _ n2) in Hup2.
  assert (Hshare' : share_only_group net2 net1).
  { destruct Hshare as (? & ? & ? & ? & ?). by split_and!. }
  assert (Hobj2b : network_objects st2 net2 g2 a2' v2' s2' n2')
    by (by eapply network_objects_updated).
  assert (Hobj1b : network_objects st2 net1 g2 a1' v1' s1' n1')
    by (by eapply network_objects_other).
  assert (Hnets2 : networks st2 = networks st1) by apply Hup2.
  (* the first network is deleted *)
  destruct (AzureNetwork_Delete_live st2 self1 net1 g2 a1' v1' s1' n1')
    as (st3 & Hrun3 & Hcalls3 & Hup3).
  { by rewrite Hnets2, Hnets1. }
  { done. }
  { by rewrite Ha1b, Hab1. }
  { subst v1'. simpl. by rewrite Hvb1. }
  { subst s1'. simpl. by rewrite Hsb1. }
  { subst n1'. simpl. by rewrite Hnb1. }
  assert (Hobj2c : network_objects st3 net2
                     (set_rg_base (set_deleted true (rg_base g2)) g2)
                     a2' v2' s2' n2')
    by (by eapply network_objects_other).
  assert (Hnets3 : networks st3 = networks st2) by apply Hup3.
  (* the second network is deleted *)
  set (g3 := set_rg_base (set_deleted true (rg_base g2)) g2) in *.
  destruct (AzureNetwork_Delete_live st3 self2 net2 g3 a2' v2' s2' n2')
    as (st4 & Hrun4 & Hcalls4 & Hup4).
  { by rewrite Hnets3, Hnets2, Hnets1. }
  { done. }
  { by rewrite Ha2b, Hab2. }
  { subst v2'. simpl. by rewrite Hvb2. }
  { subst s2'. simpl. by rewrite Hsb2. }
  { subst n2'. simpl. by rewrite Hnb2. }
  exists st1, st2, st3, st4. split_and!; try done.
  - rewrite (steps_between_app _ _ _ Hcalls1). simpl.
    by rewrite (step_of_account_create a1 g cmd1).
  - rewrite (steps_between_app _ _ _ Hcalls2). simpl.
    by rewrite (step_of_account_create a2 g1 cmd2).
  - rewrite (steps_between_app _ _ _ Hcalls3). done.
  - rewrite (steps_between_app _ _ _ Hcalls4). done.
Qed.
End network.

(** ** [AllowPort]: the ways it can go, and the firewall *)

Section AllowPort_steps.
Context `{!Environment}.
Import AzureNetworkSecurityGroup.

(** The three ways [AllowPort] can go. *)
Lemma AllowPort_step st self n g vm s e sr r st' :
  nsgs st !! self = Some n →
  groups st !! nsg_resource_group n = Some g →
  AllowPort self vm s e sr st = (r, st') →
  let k := request_key s e in
  (is_Some (rules n !! k) ∧ r = Ok tt ∧ st' = st)
  ∨ (rules n !! k = None ∧ 3995 ≤ Z.of_nat (size (rules n))
     ∧ r = Raise (ValueError "Too many firewall rules!") ∧ st' = st)
  ∨ (rules n !! k = None ∧ Z.of_nat (size (rules n)) < 3995
     ∧ let c := rule_create_call k (100 + Z.of_nat (size (rules n))) g n in
       let st1 := with_rules self (<[k := rule_name_of k]> (rules n)) n st in
       r = retryable_outcome c st1 ∧ st' = issue c st1).
Proof.
  intros Hn Hg Hrun k.
  destruct (rules n !! k) as [x|] eqn:Hk.
  - rewrite (AllowPort_present st self n vm s e sr x) in Hrun by done.
    injection Hrun as <- <-. left. eauto.
  - destruct (decide (3995 ≤ Z.of_nat (size (rules n)))) as [Hfull|Hroom].
    + rewrite (AllowPort_full st self n) in Hrun by done.
      injection Hrun as <- <-. right. left. done.
    + rewrite (AllowPort_absent st self n g) in Hrun by (done || lia).
      injection Hrun as <- <-. right. right. split_and!; try done. lia.
Qed.

Lemma with_rules_frame st self table n c :
  set_trace (trace st) (set_nsgs (nsgs st) (issue c (with_rules self table n st)))
  = st.
Proof. by destruct st. Qed.

Lemma table_named_insert t k :
  table_named t → table_named (<[k := rule_name_of k]> t).
Proof.
  intros Ht k' name. destruct (decide (k = k')) as [->|Hne].
  - rewrite lookup_insert_eq. congruence.
  - rewrite lookup_insert_ne by done. apply Ht.
Qed.

Lemma table_named_empty : table_named ∅.
Proof. intros k name. by rewrite lookup_empty. Qed.
End AllowPort_steps.

Section firewall_AllowPort.
Context `{!Environment}.
Import AzureNetworkSecurityGroup.

(** X1.  [AzureFirewall.AllowPort] for a machine acts on the group of the
    machine's network and on nothing else: apart from the trace, the
    only thing that can change is that group's table, which keeps every
    rule it had and gains at most the requested pair; the other groups,
    the flag and all other objects are as they were, whether the call
    returns or raises. *)
Theorem AllowPort_only_files_the_pair st vm net n g s e sr r st' :
  networks st !! vm_network vm = Some net →
  nsgs st !! net_nsg net = Some n →
  groups st !! nsg_resource_group n = Some g →
  AzureFirewall.AllowPort vm s e sr st = (r, st') →
  ∃ table,
    nsgs st' = <[net_nsg net := set_rules table n]> (nsgs st)
    ∧ rules n ⊆ table
    ∧ (table = rules n
       ∨ table = <[request_key s e := rule_name_of (request_key s e)]> (rules n))
    ∧ (∀ i, i ≠ net_nsg net → nsgs st' !! i = nsgs st !! i)
    ∧ set_trace (trace st) (set_nsgs (nsgs st) st') = st.
Proof.
  intros Hnet Hn Hg Hrun.
  unfold AzureFirewall.AllowPort, AzureNetwork.get, deref, mbind, M_bind in Hrun.
  rewrite Hnet in Hrun.
  assert (Hsame : nsgs st = <[net_nsg net := set_rules (rules n) n]> (nsgs st)).
  { by rewrite set_rules_id, list_insert_id. }
  destruct (AllowPort_step _ _ _ _ _ _ _ _ _ _ Hn Hg Hrun)
    as [(_ & _ & ->)|[(_ & _ & _ & ->)|(Hk & _ & _ & ->)]].
  - exists (rules n). split_and!; try done; [by left|by destruct st].
  - exists (rules n). split_and!; try done; [by left|by destruct st].
  - eexists. split_and!.
    + reflexivity.
    + by apply insert_subseteq.
    + by right.
    + intros i Hi. simpl. by rewrite list_lookup_insert_ne.
    + apply with_rules_frame.
Qed.
End firewall_AllowPort.

(** ** [DisallowAllPorts]: the ways it can go *)

Section DisallowAllPorts_steps.
Context `{!Environment}.
Import AzureNetworkSecurityGroup.

Lemma with_table_id n : with_table (rules n) (have_deny_all_rule n) n = n.
Proof. by destruct n. Qed.

(** The loop issues the deletions of the items in the order of the list,
    as far as it gets: to the end when it returns, to the first deletion
    that fails when it raises. *)
Lemma DisallowAllPorts_items_prefix self n g items : ∀ st r st',
  nsgs st !! self = Some n →
  groups st !! nsg_resource_group n = Some g →
  for_each (DisallowAllPorts_body self) items st = (r, st') →
  ∃ reached events,
    st' = set_trace (trace st ++ events) st
    ∧ ev_call <$> events = (λ item, rule_delete_call item.2 g n) <$> reached
    ∧ match r with
      | Ok _ => reached = items
      | Raise e => e = CalledProcessException
                   ∧ reached ≠ [] ∧ reached `prefix_of` items
                   ∧ ¬ commands_succeed
      end.
Proof.
  induction items as [|item items IH]; intros st r st' Hn Hg Hrun.
  - simpl in Hrun. injection Hrun as <- <-. exists [], [].
    rewrite app_nil_r. split_and!; [by destruct st|done..].
  - simpl in Hrun.
    unfold mbind, M_bind, DisallowAllPorts_body at 1, get, deref in Hrun.
    unfold mbind, M_bind, AzureResourceGroup.get, deref in Hrun.
    rewrite Hn, Hg in Hrun.
    unfold vm_util.IssueRetryableCommand in Hrun.
    change (IssueRetryableCommandCall (rule_delete_cmd item.2 g n))
      with (rule_delete_call item.2 g n) in Hrun.
    set (c := rule_delete_call item.2 g n) in *.
    set (ev := {| ev_call := c; ev_result := env (trace st) c |}).
    destruct (decide (retcode (env (trace st) c) = 0)) as [Hok|Hfail].
    + simpl in Hrun.
      apply IH in Hrun as (reached & events & Hst' & Hcalls & Hr); [|done..].
      exists (item :: reached), (ev :: events).
      split; [|split].
      * rewrite Hst'. unfold vm_util.record. simpl. by rewrite <- app_assoc.
      * simpl. by f_equal.
      * destruct r as [[]|e].
        -- by f_equal.
        -- destruct Hr as (-> & _ & Hpre & Hfail). split_and!; [done| done| |done].
           by apply prefix_cons.
    + injection Hrun as <- <-. exists [item], [ev].
      split; [done|]. split; [done|].
      split_and!; [done..| |].
      * by apply prefix_cons, prefix_nil.
      * intros Hall. by apply Hfail.
Qed.

(** Every way [DisallowAllPorts] can go, with the calls it makes. *)
Lemma DisallowAllPorts_step st self n g r st' :
  nsgs st !! self = Some n →
  groups st !! nsg_resource_group n = Some g →
  DisallowAllPorts self st = (r, st') →
  let items := iteritems (trace st) (rules n) in
  let delete := λ item : Z * Z * string, rule_delete_call item.2 g n in
  ∃ table flag new,
    st' = set_trace (trace st')
            (set_nsgs (<[self := with_table table flag n]> (nsgs st)) st)
    ∧ calls st' = calls st ++ new
    ∧ ((r = Ok tt ∧ table = ∅ ∧ flag = true
        ∧ new = (delete <$> items)
                ++ (if have_deny_all_rule n then [] else [deny_all_call g n]))
       ∨ (r = Raise CalledProcessException ∧ ¬ commands_succeed
          ∧ table = rules n ∧ flag = have_deny_all_rule n
          ∧ ∃ reached, reached ≠ [] ∧ reached `prefix_of` items
                       ∧ new = delete <$> reached)
       ∨ (r = Raise CalledProcessException ∧ ¬ commands_succeed
          ∧ table = ∅ ∧ flag = false ∧ have_deny_all_rule n = false
          ∧ new = (delete <$> items) ++ [deny_all_call g n])).
Proof.
  intros Hn Hg Hrun items delete.
  assert (Hself : (self < length (nsgs st))%nat) by (by eapply lookup_lt_Some).
  destruct (DisallowAllPorts_outcome st self n g _ _ Hn Hg Hrun)
    as (r_loop & st_loop & events0 & Hloop & _ & _ & _ & Hrest).
  unfold DisallowAllPorts_loop, mbind, M_bind, get, get_state, deref in Hloop.
  rewrite Hn in Hloop.
  apply (DisallowAllPorts_items_prefix self n g) in Hloop
    as (reached & events & Hst & Hcalls & Hr); [|done..].
  assert (Hcalls_loop : calls st_loop = calls st ++ (delete <$> reached)).
  { rewrite Hst. unfold calls. simpl. rewrite map_app. f_equal. exact Hcalls. }
  destruct r_loop as [[]|e].
  - subst reached. simpl in Hrest. destruct (have_deny_all_rule n) eqn:Hflag.
    + destruct Hrest as [-> ->]. exists ∅, true, (delete <$> items).
      split_and!.
      * assert (Hwt : with_table ∅ true n = set_rules ∅ n)
          by (destruct n; simpl in *; by subst).
        rewrite Hwt, Hst. reflexivity.
      * unfold with_rules, calls. simpl. exact Hcalls_loop.
      * left. by rewrite app_nil_r.
    + destruct (decide _) as [Hok|Hfail]; destruct Hrest as [-> ->].
      * exists ∅, true, ((delete <$> items) ++ [deny_all_call g n]).
        split_and!.
        -- rewrite Hst. reflexivity.
        -- unfold calls at 1. simpl. rewrite map_app. simpl.
           unfold calls in Hcalls_loop. rewrite Hcalls_loop.
           by rewrite <- app_assoc.
        -- by left.
      * exists ∅, false, ((delete <$> items) ++ [deny_all_call g n]).
        split_and!.
        -- assert (Hwt : with_table ∅ false n = set_rules ∅ n)
             by (destruct n; simpl in *; by subst).
           rewrite Hwt, Hst. reflexivity.
        -- rewrite calls_issue. unfold with_rules, calls. simpl.
           unfold calls in Hcalls_loop. rewrite Hcalls_loop.
           by rewrite <- app_assoc.
        -- right. right. split_and!; try done. intros Hall. by apply Hfail.
  - destruct Hr as (-> & Hne & Hpre & Hnot). destruct Hrest as [-> ->].
    exists (rules n), (have_deny_all_rule n), (delete <$> reached).
    split_and!.
    + rewrite with_table_id, list_insert_id by done. rewrite Hst.
      by destruct st.
    + done.
    + right. left. split_and!; try done. by exists reached.
Qed.
End DisallowAllPorts_steps.

(** ** Failures, and the firewall over all groups *)

Section DisallowAllPorts_raises.
Context `{!Environment}.
Import AzureNetworkSecurityGroup.

(** X3.  When [DisallowAllPorts] raises, the exception is the one of the
    command that failed and the flag is as it was.  Either a deletion
    failed: then deletions were issued for an initial part of the items
    of the table, in the order the dict yields them, none after the
    failed one, and the table is still whole.  Or the deletions went through and the creation of [DenyAll]
    failed: then the table is empty and the flag is not set. *)
Theorem DisallowAllPorts_failure st self n g e st' :
  nsgs st !! self = Some n →
  groups st !! nsg_resource_group n = Some g →
  DisallowAllPorts self st = (Raise e, st') →
  let items := iteritems (trace st) (rules n) in
  let delete := λ item : Z * Z * string, rule_delete_call item.2 g n in
  e = CalledProcessException
  ∧ ∃ n',
      nsgs st' = <[self := n']> (nsgs st)
      ∧ have_deny_all_rule n' = have_deny_all_rule n
      ∧ ((rules n' = rules n
          ∧ ∃ reached, reached ≠ [] ∧ reached `prefix_of` items
                       ∧ calls st' = calls st ++ (delete <$> reached))
         ∨ (rules n' = ∅ ∧ have_deny_all_rule n = false
            ∧ calls st' = calls st ++ (delete <$> items)
                          ++ [deny_all_call g n])).
Proof.
  intros Hn Hg Hrun items delete.
  destruct (DisallowAllPorts_step st self n g _ _ Hn Hg Hrun)
    as (table & flag & new & Hst & Hcalls
        & [(Hr & _)|[(Hr & _ & -> & -> & reached & Hne & Hpre & ->)
                    |(Hr & _ & -> & -> & Hflag & ->)]]);
    [done|..]; injection Hr as ->; (split; [done|]);
    apply (f_equal nsgs) in Hst; simpl in Hst.
  - exists (with_table (rules n) (have_deny_all_rule n) n).
    split_and!; try done. left. split; [done|]. by exists reached.
  - exists (with_table ∅ false n). split_and!; try done. by right.
Qed.
End DisallowAllPorts_raises.

Section AllowPort_failure.
Context `{!Environment}.
Import AzureNetworkSecurityGroup.

(** X2.  The pair is filed before the creation is issued.  So when
    [AllowPort] raises because the creation failed, the pair is in the
    table all the same, and every later request for the pair returns
    without issuing the creation again. *)
Theorem AllowPort_failed_creation_stays_filed st self n g vm s e sr st' :
  nsgs st !! self = Some n →
  groups st !! nsg_resource_group n = Some g →
  AllowPort self vm s e sr st = (Raise CalledProcessException, st') →
  let k := request_key s e in
  rules n !! k = None
  ∧ calls st'
    = calls st ++ [rule_create_call k (100 + Z.of_nat (size (rules n))) g n]
  ∧ nsgs st' !! self = Some (set_rules (<[k := rule_name_of k]> (rules n)) n)
  ∧ ∀ vm2 e2 sr2, request_key s e2 = k →
                  AllowPort self vm2 s e2 sr2 st' = (Ok tt, st').
Proof.
  intros Hn Hg Hrun k.
  assert (Hself : (self < length (nsgs st))%nat) by (by eapply lookup_lt_Some).
  destruct (AllowPort_step _ _ _ _ _ _ _ _ _ _ Hn Hg Hrun)
    as [(_ & Hr & _)|[(_ & _ & Hr & _)|(Hk & _ & _ & ->)]]; [done..|].
  fold k in Hk |- *.
  assert (Hn1 : nsgs (issue (rule_create_call k (100 + Z.of_nat (size (rules n))) g n)
                        (with_rules self (<[k := rule_name_of k]> (rules n)) n st))
                !! self = Some (set_rules (<[k := rule_name_of k]> (rules n)) n)).
  { simpl. by apply list_lookup_insert_eq. }
  split_and!; try done.
  - by rewrite calls_issue.
  - intros vm2 e2 sr2 Hk2. eapply AllowPort_present; [exact Hn1|].
    rewrite Hk2. simpl. apply lookup_insert_eq.
Qed.
End AllowPort_failure.

Section all_groups.
Context `{!Environment}.
Import AzureNetworkSecurityGroup.

(** What [DisallowAllPorts] on one group changes. *)
Lemma DisallowAllPorts_frame st self n g r st' :
  nsgs st !! self = Some n →
  groups st !! nsg_resource_group n = Some g →
  DisallowAllPorts self st = (r, st') →
  ∃ n',
    nsgs st' = <[self := n']> (nsgs st)
    ∧ groups st' = groups st
    ∧ ALL_NSGS st' = ALL_NSGS st
    ∧ nsg_resource_group n' = nsg_resource_group n
    ∧ (r = Ok tt → rules n' = ∅ ∧ have_deny_all_rule n' = true)
    ∧ (commands_succeed → r = Ok tt).
Proof.
  intros Hn Hg Hrun.
  destruct (DisallowAllPorts_step st self n g _ _ Hn Hg Hrun)
    as (table & flag & new & Hst & _ & Hcases).
  exists (with_table table flag n).
  pose proof (f_equal nsgs Hst) as Hnsgs.
  pose proof (f_equal groups Hst) as Hgroups.
  pose proof (f_equal ALL_NSGS Hst) as Hall.
  simpl in Hnsgs, Hgroups, Hall.
  split_and!; try done.
  - intros ->.
    destruct Hcases as [(_ & -> & -> & _)|[(Hr & _)|(Hr & _)]]; done.
  - intros Hok.
    destruct Hcases as [(-> & _)|[(_ & Hnot & _)|(_ & Hnot & _)]]; done.
Qed.

Lemma for_each_DisallowAllPorts l : ∀ st r st',
  NoDup l →
  (∀ i, i ∈ l → ∃ n g, nsgs st !! i = Some n
                        ∧ groups st !! nsg_resource_group n = Some g) →
  for_each DisallowAllPorts l st = (r, st') →
  groups st' = groups st
  ∧ ALL_NSGS st' = ALL_NSGS st
  ∧ (∀ i, i ∉ l → nsgs st' !! i = nsgs st !! i)
  ∧ (r = Ok tt →
       ∀ i, i ∈ l → ∃ n', nsgs st' !! i = Some n'
                          ∧ rules n' = ∅ ∧ have_deny_all_rule n' = true)
  ∧ (commands_succeed → r = Ok tt).
Proof.
  induction l as [|i l IH]; intros st r st' Hnd Hvalid Hrun.
  - simpl in Hrun. injection Hrun as <- <-. split_and!; try done.
    intros _ i Hi. by apply elem_of_nil in Hi.
  - apply NoDup_cons in Hnd as [Hnotin Hnd].
    simpl in Hrun. unfold mbind, M_bind in Hrun.
    destruct (DisallowAllPorts i st) as [r1 st1] eqn:Hone.
    destruct (Hvalid i) as (n & g & Hn & Hg); [by left|].
    destruct (DisallowAllPorts_frame st i n g _ _ Hn Hg Hone)
      as (n1 & Hns1 & Hgs1 & Hall1 & Hrg1 & Hclosed1 & Hok1).
    assert (Hi : (i < length (nsgs st))%nat) by (by eapply lookup_lt_Some).
    destruct r1 as [[]|e1].
    + assert (Hvalid1 : ∀ j, j ∈ l →
                ∃ n g, nsgs st1 !! j = Some n
                       ∧ groups st1 !! nsg_resource_group n = Some g).
      { intros j Hj. destruct (Hvalid j) as (nj & gj & Hnj & Hgj); [by right|].
        exists nj, gj. rewrite Hns1, Hgs1.
        rewrite list_lookup_insert_ne by (intros ->; done). done. }
      destruct (IH st1 r st' Hnd Hvalid1 Hrun)
        as (Hgs & Hall & Hother & Hclosed & Hok).
      split_and!.
      * by rewrite Hgs.
      * by rewrite Hall.
      * intros j Hj. apply not_elem_of_cons in Hj as [Hji Hj].
        rewrite Hother, Hns1 by done. by rewrite list_lookup_insert_ne.
      * intros Hr j Hj. apply elem_of_cons in Hj as [->|Hj].
        -- rewrite Hother, Hns1 by done. exists n1.
           rewrite list_lookup_insert_eq by done.
           destruct (Hclosed1 eq_refl). done.
        -- by apply Hclosed.
      * done.
    + injection Hrun as <- <-. split_and!; try done.
      * intros j Hj. apply not_elem_of_cons in Hj as [Hji Hj].
        rewrite Hns1. by rewrite list_lookup_insert_ne.
Qed.

Lemma for_each_closed l : ∀ st,
  (∀ i, i ∈ l → ∃ n, nsgs st !! i = Some n
                     ∧ rules n = ∅ ∧ have_deny_all_rule n = true) →
  for_each DisallowAllPorts l st = (Ok tt, st).
Proof.
  induction l as [|i l IH]; intros st Hclosed; [done|].
  simpl. unfold mbind, M_bind.
  destruct (Hclosed i) as (n & Hn & Hempty & Hflag); [by left|].
  rewrite (DisallowAllPorts_closed st i n) by done.
  apply IH. intros j Hj. apply Hclosed. by right.
Qed.

(** X7.  [AzureFirewall.DisallowAllPorts] closes the ports of every group
    that a network has registered in [ALL_NSGS]: when it returns, each
    of them has an empty table and its flag set, the groups that are not
    registered are as they were, and a second call returns without
    changing the state, trace included.  It returns whenever the
    commands of the provider succeed. *)
Theorem AzureFirewall_DisallowAllPorts_closes_all st :
  registered_valid st →
  (commands_succeed →
     ∃ st', AzureFirewall.DisallowAllPorts st = (Ok tt, st'))
  ∧ ∀ st', AzureFirewall.DisallowAllPorts st = (Ok tt, st') →
      (∀ i, i ∈ ALL_NSGS st →
            ∃ n', nsgs st' !! i = Some n'
                  ∧ rules n' = ∅ ∧ have_deny_all_rule n' = true)
      ∧ (∀ i, i ∉ ALL_NSGS st → nsgs st' !! i = nsgs st !! i)
      ∧ AzureFirewall.DisallowAllPorts st' = (Ok tt, st').
Proof.
  intros Hvalid.
  pose proof (set_iter_elements (trace st) (ALL_NSGS st)) as Hperm.
  assert (Hnd : NoDup (set_iter (trace st) (ALL_NSGS st)))
    by (rewrite Hperm; apply NoDup_elements).
  assert (Hin : ∀ i, i ∈ set_iter (trace st) (ALL_NSGS st) ↔ i ∈ ALL_NSGS st)
    by (intros i; by rewrite Hperm, elem_of_elements).
  assert (Hvalid' : ∀ i, i ∈ set_iter (trace st) (ALL_NSGS st) →
            ∃ n g, nsgs st !! i = Some n
                   ∧ groups st !! nsg_resource_group n = Some g).
  { intros i Hi. apply Hvalid. by apply Hin. }
  unfold AzureFirewall.DisallowAllPorts, get_state, mbind, M_bind.
  split.
  - intros Hok.
    destruct (for_each DisallowAllPorts (set_iter (trace st) (ALL_NSGS st)) st)
      as [r st'] eqn:Hrun.
    destruct (for_each_DisallowAllPorts _ _ _ _ Hnd Hvalid' Hrun)
      as (_ & _ & _ & _ & Hr).
    rewrite (Hr Hok). by exists st'.
  - intros st' Hrun.
    destruct (for_each_DisallowAllPorts _ _ _ _ Hnd Hvalid' Hrun)
      as (_ & Hall & Hother & Hclosed & _).
    specialize (Hclosed eq_refl).
    split_and!.
    + intros i Hi. apply Hclosed. by apply Hin.
    + intros i Hi. apply Hother. by rewrite Hin.
    + rewrite Hall. apply for_each_closed. intros i Hi. apply Hclosed.
      apply Hin. by rewrite set_iter_elements, elem_of_elements in Hi.
Qed.
End all_groups.

(** ** Rule names and priorities *)

(** ** Texts of numbers *)

Lemma pretty_N_char_no_dash x : String (pretty_N_char x) "" ≠ "-".
Proof. unfold pretty_N_char. by repeat case_match. Qed.

Lemma pretty_N_go_no_dash x : ∀ s, no_dash s → no_dash (pretty_N_go x s).
Proof.
  induction (N.lt_wf_0 x) as [x _ IH]; intros s Hs.
  destruct (decide (x = 0%N)) as [->|Hx]; [by rewrite pretty_N_go_0|].
  rewrite pretty_N_go_step by lia. apply IH.
  - apply N.div_lt; lia.
  - split; [apply pretty_N_char_no_dash|done].
Qed.

Lemma pretty_N_go_length x : ∀ s,
  (String.length s ≤ String.length (pretty_N_go x s))%nat.
Proof.
  induction (N.lt_wf_0 x) as [x _ IH]; intros s.
  destruct (decide (x = 0%N)) as [->|Hx]; [by rewrite pretty_N_go_0|].
  rewrite pretty_N_go_step by lia.
  etrans; [|apply IH; apply N.div_lt; lia]. simpl. lia.
Qed.

Lemma pretty_N_shape (x : N) : no_dash (pretty x) ∧ pretty x ≠ "".
Proof.
  unfold pretty, pretty_N. destruct (decide (x = 0%N)) as [->|Hx].
  - split; [|done]. simpl. split; [|done]. discriminate.
  - split; [by apply pretty_N_go_no_dash|].
    rewrite pretty_N_go_step by lia. intros Hnil.
    pose proof (pretty_N_go_length (x `div` 10)
                  (String (pretty_N_char (x `mod` 10)) "")) as Hlen.
    rewrite Hnil in Hlen. simpl in Hlen. lia.
Qed.

(** The text of an integer: digits, after a hyphen if it is negative. *)
Lemma pretty_Z_shape (z : Z) :
  ∃ d, no_dash d ∧ d ≠ "" ∧ (pretty z = d ∨ pretty z = "-" +:+ d).
Proof.
  destruct z as [|p|p].
  - exists "0". split_and!; [|done|by left]. simpl. split; [|done]. discriminate.
  - exists (pretty (Npos p)). destruct (pretty_N_shape (Npos p)).
    split_and!; [done..|by left].
  - exists (pretty (Npos p)). destruct (pretty_N_shape (Npos p)).
    split_and!; [done..|by right].
Qed.

Lemma string_app_cons c (s t : string) :
  String c s +:+ t = String c (s +:+ t).
Proof. reflexivity. Qed.

Lemma string_app_nil (s : string) : "" +:+ s = s.
Proof. reflexivity. Qed.

(** Two texts without hyphens that are followed by a hyphen: the first
    hyphen tells where each ends. *)
Lemma app_dash_inj d1 : ∀ d2 r1 r2,
  no_dash d1 → no_dash d2 →
  d1 +:+ "-" +:+ r1 = d2 +:+ "-" +:+ r2 → d1 = d2 ∧ r1 = r2.
Proof.
  induction d1 as [|c1 d1 IH]; intros [|c2 d2] r1 r2 H1 H2 Heq;
    rewrite ?string_app_cons, ?string_app_nil in Heq; simpl in H1, H2.
  - by injection Heq as ->.
  - injection Heq as Hc _. destruct H2 as [Hne _]. by subst.
  - injection Heq as Hc _. destruct H1 as [Hne _]. by subst.
  - injection Heq as -> Heq. destruct H1 as [_ H1], H2 as [_ H2].
    destruct (IH d2 r1 r2 H1 H2 Heq) as [-> ->]. done.
Qed.

Lemma port_range_of_inj : Inj (=) (=) port_range_of.
Proof.
  intros [a1 b1] [a2 b2]. unfold port_range_of. simpl. intros Heq.
  destruct (pretty_Z_shape a1) as (d1 & Hd1 & Hne1 & Ha1).
  destruct (pretty_Z_shape a2) as (d2 & Hd2 & Hne2 & Ha2).
  assert (pretty a1 = pretty a2 ∧ pretty b1 = pretty b2) as [Ha Hb].
  { destruct Ha1 as [Ha1|Ha1], Ha2 as [Ha2|Ha2]; rewrite Ha1, Ha2 in Heq |- *.
    - by apply app_dash_inj.
    - destruct d1 as [|c1 d1]; [done|].
      rewrite ?string_app_cons, ?string_app_nil in Heq. simpl in Hd1.
      injection Heq as -> _. by destruct Hd1.
    - destruct d2 as [|c2 d2]; [done|].
      rewrite ?string_app_cons, ?string_app_nil in Heq. simpl in Hd2.
      injection Heq as <- _. by destruct Hd2.
    - rewrite ?string_app_cons, ?string_app_nil in Heq. injection Heq as Heq.
      destruct (app_dash_inj d1 d2 _ _ Hd1 Hd2 Heq) as [-> ->]. done. }
  apply (inj pretty) in Ha, Hb. by subst.
Qed.

Lemma rule_name_of_inj : Inj (=) (=) rule_name_of.
Proof.
  intros k1 k2. unfold rule_name_of.
  rewrite !string_app_cons, !string_app_nil. intros Heq.
  injection Heq as Heq. by apply port_range_of_inj.
Qed.

(** The names of a table whose rules are named after their keys are
    pairwise different. *)
Lemma table_named_NoDup t :
  table_named t → NoDup (map_to_list t).*2.
Proof.
  intros Ht.
  assert (Heq : (map_to_list t).*2 = rule_name_of <$> (map_to_list t).*1).
  { rewrite <- list_fmap_compose. apply list_fmap_ext.
    intros i [k name] Hi. simpl.
    apply Ht. apply elem_of_map_to_list. by eapply list_elem_of_lookup_2. }
  rewrite Heq. apply NoDup_fmap_2; [apply rule_name_of_inj|].
  apply NoDup_fst_map_to_list.
Qed.

Section operations_calls.
Context `{!Environment}.
Import AzureNetworkSecurityGroup.

(** The commands of one operation, and what it leaves of the group. *)
Lemma run_op_calls st self n g op r st' :
  nsgs st !! self = Some n →
  groups st !! nsg_resource_group n = Some g →
  table_named (rules n) →
  run_op self op st = (r, st') →
  ∃ table flag new,
    nsgs st' = <[self := with_table table flag n]> (nsgs st)
    ∧ groups st' = groups st
    ∧ table_named table
    ∧ Z.of_nat (size table) ≤ Z.max (Z.of_nat (size (rules n))) 3995
    ∧ calls st' = calls st ++ new
    ∧ Forall (nsg_call g n) new.
Proof.
  intros Hn Hg Hnamed Hrun.
  assert (Hself : (self < length (nsgs st))%nat) by (by eapply lookup_lt_Some).
  destruct op as [req|]; simpl in Hrun.
  - exists (match (nsgs st' !! self) with Some n' => rules n' | None => ∅ end),
           (have_deny_all_rule n).
    unfold allow in Hrun.
    destruct (AllowPort_step _ _ _ _ _ _ _ _ _ _ Hn Hg Hrun)
      as [(_ & _ & ->)|[(_ & _ & _ & ->)|(Hk & Hroom & _ & ->)]].
    + exists []. rewrite Hn, with_table_id, list_insert_id, app_nil_r by done.
      split_and!; try done. lia.
    + exists []. rewrite Hn, with_table_id, list_insert_id, app_nil_r by done.
      split_and!; try done. lia.
    + eexists [_]. simpl. rewrite list_lookup_insert_eq by done. simpl.
      split_and!.
      * clear Hrun. unfold with_table. by destruct n.
      * done.
      * by apply table_named_insert.
      * rewrite map_size_insert_None by done. lia.
      * by rewrite calls_issue.
      * constructor; [|done]. right. right. eexists _, _.
        split; [reflexivity|lia].
  - destruct (DisallowAllPorts_step st self n g _ _ Hn Hg Hrun)
      as (table & flag & new & Hst & Hcalls & Hcases).
    exists table, flag, new.
    pose proof (f_equal nsgs Hst) as Hnsgs.
    pose proof (f_equal groups Hst) as Hgroups.
    simpl in Hnsgs, Hgroups.
    assert (Hdel : ∀ items, items ⊆ iteritems (trace st) (rules n) →
              Forall (nsg_call g n)
                ((λ item : Z * Z * string, rule_delete_call item.2 g n) <$> items)).
    { intros items Hsub. apply Forall_fmap, Forall_forall.
      intros [k name] Hitem. simpl. left. exists k.
      apply Hsub in Hitem. rewrite iteritems_items in Hitem.
      apply elem_of_map_to_list in Hitem. by rewrite (Hnamed k name). }
    assert (Hdeny : nsg_call g n (deny_all_call g n)) by (right; by left).
    split_and!; try done.
    + destruct Hcases as [(_ & -> & _)|[(_ & _ & -> & _)|(_ & _ & -> & _)]];
        done || apply table_named_empty.
    + destruct Hcases as [(_ & -> & _)|[(_ & _ & -> & _)|(_ & _ & -> & _)]];
        rewrite ?map_size_empty; lia.
    + destruct Hcases as [(_ & _ & _ & ->)
                         |[(_ & _ & _ & _ & reached & _ & Hpre & ->)
                          |(_ & _ & _ & _ & _ & ->)]].
      * apply Forall_app. split; [by apply Hdel|].
        destruct (have_deny_all_rule n); by repeat constructor.
      * apply Hdel. intros item Hitem. destruct Hpre as [rest ->].
        apply elem_of_app. by left.
      * apply Forall_app. split; [by apply Hdel|]. by repeat constructor.
Qed.

(** The same over any operations. *)
Lemma run_ops_calls self g ops : ∀ st n,
  nsgs st !! self = Some n →
  groups st !! nsg_resource_group n = Some g →
  table_named (rules n) →
  let st' := after_calls (run_op self <$> ops) st in
  ∃ table flag new,
    nsgs st' = <[self := with_table table flag n]> (nsgs st)
    ∧ groups st' = groups st
    ∧ table_named table
    ∧ Z.of_nat (size table) ≤ Z.max (Z.of_nat (size (rules n))) 3995
    ∧ calls st' = calls st ++ new
    ∧ Forall (nsg_call g n) new.
Proof.
  induction ops as [|op ops IH]; intros st n Hn Hg Hnamed st'.
  - exists (rules n), (have_deny_all_rule n), []. subst st'. simpl.
    rewrite with_table_id, list_insert_id, app_nil_r by done.
    split_and!; try done. lia.
  - subst st'. rewrite fmap_cons. cbn [after_calls].
    assert (Hself : (self < length (nsgs st))%nat) by (by eapply lookup_lt_Some).
    destruct (run_op self op st) as [r st1] eqn:Hop. cbn [snd].
    destruct (run_op_calls st self n g op r st1 Hn Hg Hnamed Hop)
      as (t1 & f1 & new1 & Hns1 & Hgs1 & Hnamed1 & Hsize1 & Hcalls1 & Hall1).
    assert (Hn1 : nsgs st1 !! self = Some (with_table t1 f1 n)).
    { rewrite Hns1. by apply list_lookup_insert_eq. }
    assert (Hg1 : groups st1 !! nsg_resource_group (with_table t1 f1 n) = Some g).
    { by rewrite Hgs1. }
    destruct (IH st1 (with_table t1 f1 n) Hn1 Hg1 Hnamed1)
      as (t2 & f2 & new2 & Hns2 & Hgs2 & Hnamed2 & Hsize2 & Hcalls2 & Hall2).
    exists t2, f2, (new1 ++ new2). split_and!.
    + rewrite Hns2, Hns1, list_insert_insert_eq. done.
    + by rewrite Hgs2.
    + done.
    + simpl in Hsize2. lia.
    + by rewrite Hcalls2, Hcalls1, app_assoc.
    + apply Forall_app. split; [done|]. exact Hall2.
Qed.

(** X5.  Over any operations on a group whose rules are named after
    their keys (a new group has none): every command issued is the
    deletion of a rule named after a key, the creation of [DenyAll], or
    the creation of an allow rule at a priority from 100 to 4094.  No
    allow rule is ever given the priority 4095 of [DenyAll], and a table
    of 3995 rules or fewer never grows beyond 3995 rules. *)
Theorem allow_rules_keep_off_DenyAll st self n g (ops : list NsgOp) :
  nsgs st !! self = Some n →
  groups st !! nsg_resource_group n = Some g →
  table_named (rules n) →
  let st' := after_calls (run_op self <$> ops) st in
  Forall (nsg_call g n) (drop (length (calls st)) (calls st'))
  ∧ (∀ k p, rule_create_call k p g n ∈ drop (length (calls st)) (calls st') →
            100 ≤ p < 4095)
  ∧ (Z.of_nat (size (rules n)) ≤ 3995 →
     ∃ n', nsgs st' !! self = Some n' ∧ Z.of_nat (size (rules n')) ≤ 3995).
Proof.
  intros Hn Hg Hnamed st'.
  assert (Hself : (self < length (nsgs st))%nat) by (by eapply lookup_lt_Some).
  destruct (run_ops_calls self g ops st n Hn Hg Hnamed)
    as (table & flag & new & Hns & _ & _ & Hsize & Hcalls & Hall).
  fold st' in Hcalls, Hns. rewrite Hcalls, drop_app_length.
  split; [done|]. split; cycle 1.
  { intros Hroom. exists (with_table table flag n). rewrite Hns.
    split; [by apply list_lookup_insert_eq|]. simpl. lia. }
  intros k p Hin. rewrite Forall_forall in Hall.
  destruct (Hall _ Hin) as [(k' & Heq)|[Heq|(k' & p' & Heq & Hp)]].
  - discriminate Heq.
  - discriminate Heq.
  - unfold rule_create_call, rule_create_cmd in Heq.
    injection Heq as _ _ Heq. by apply (inj pretty) in Heq as ->.
Qed.

(** X6.  Different pairs of ports have different rule names, and the
    names in the table are the names of its keys; so, over any
    operations on a group that starts with such a table (a new group
    has an empty one), no two rules of the table share a name, and the
    deletions of [DisallowAllPorts] name each rule once. *)
Theorem rule_names_distinct st self n g (ops : list NsgOp) :
  nsgs st !! self = Some n →
  groups st !! nsg_resource_group n = Some g →
  table_named (rules n) →
  let st' := after_calls (run_op self <$> ops) st in
  ∃ n', nsgs st' !! self = Some n'
        ∧ (∀ k name, rules n' !! k = Some name → name = rule_name_of k)
        ∧ (∀ k1 k2 name, rules n' !! k1 = Some name →
                         rules n' !! k2 = Some name → k1 = k2)
        ∧ NoDup ((λ item : Z * Z * string, rule_delete_call item.2 g n')
                   <$> map_to_list (rules n')).
Proof.
  intros Hn Hg Hnamed st'.
  assert (Hself : (self < length (nsgs st))%nat) by (by eapply lookup_lt_Some).
  destruct (run_ops_calls self g ops st n Hn Hg Hnamed)
    as (table & flag & new & Hns & _ & Hnamed' & _).
  fold st' in Hns. exists (with_table table flag n). split_and!.
  - rewrite Hns. by apply list_lookup_insert_eq.
  - exact Hnamed'.
  - simpl. intros k1 k2 name H1 H2.
    apply Hnamed' in H1, H2. subst name. by apply rule_name_of_inj in H2.
  - simpl.
    assert (Heq : ((λ item : Z * Z * string,
                      rule_delete_call item.2 g (with_table table flag n))
                     <$> map_to_list table)
                  = (λ rule, rule_delete_call rule g (with_table table flag n))
                      <$> (map_to_list table).*2)
      by (by rewrite <- list_fmap_compose).
    rewrite Heq. apply NoDup_fmap_2; [|by apply table_named_NoDup].
    intros r1 r2 Hr. unfold rule_delete_call, rule_delete_cmd in Hr.
    by injection Hr.
Qed.
End operations_calls.

(** ** What is created is what is deleted *)

Section round_trip.
Context `{!Environment}.
Import AzureNetworkSecurityGroup.

(** Any run of requests: the items of the table are the ones it had and
    one for each creation issued, under the name of its key. *)
Lemma after_calls_allow_items self g reqs : ∀ st n,
  nsgs st !! self = Some n →
  groups st !! nsg_resource_group n = Some g →
  let st' := after_calls (allow self <$> reqs) st in
  ∃ table added,
    nsgs st' = <[self := set_rules table n]> (nsgs st)
    ∧ groups st' = groups st
    ∧ map_to_list table
      ≡ₚ ((λ k, (k, rule_name_of k)) <$> added) ++ map_to_list (rules n)
    ∧ calls st' = calls st ++
        imap (λ i key, rule_create_call key
                         (100 + Z.of_nat (size (rules n) + i)) g n) added.
Proof.
  induction reqs as [|r reqs IH]; intros st n Hn Hg st'.
  - exists (rules n), []. subst st'.
    rewrite !fmap_nil. cbn [after_calls imap app].
    rewrite set_rules_id, list_insert_id, app_nil_r by done. done.
  - subst st'. rewrite !fmap_cons. cbn [after_calls].
    assert (Hself : (self < length (nsgs st))%nat) by (by eapply lookup_lt_Some).
    destruct (rules n !! req_key r) as [x|] eqn:Hk.
    + rewrite (allow_present st self n r x) by done. cbn [snd].
      apply IH; done.
    + destruct (decide (Z.of_nat (size (rules n)) < 3995)) as [Hroom|Hfull].
      * rewrite (allow_absent st self n g r) by done. cbn [snd].
        set (n1 := set_rules (<[req_key r := rule_name_of (req_key r)]> (rules n)) n).
        set (c := rule_create_call _ _ _ _).
        set (st1 := issue c _).
        assert (Hn1 : nsgs st1 !! self = Some n1).
        { subst st1. simpl. by rewrite list_lookup_insert_eq. }
        destruct (IH st1 n1 Hn1 Hg)
          as (table & added & Hns & Hgs & Hitems & Hcalls).
        exists table, (req_key r :: added). split_and!.
        -- rewrite Hns. subst st1 n1. simpl. by rewrite list_insert_insert_eq.
        -- by rewrite Hgs.
        -- rewrite Hitems. subst n1. simpl.
           rewrite map_to_list_insert by done.
           by rewrite <- Permutation_middle.
        -- rewrite Hcalls. subst st1. rewrite calls_issue.
           unfold with_rules, calls. simpl.
           rewrite <- app_assoc. f_equal. simpl. f_equal.
           ++ subst c. do 2 f_equal. lia.
           ++ apply imap_ext. intros i key _. simpl.
              rewrite map_size_insert_None by done.
              replace (S (size (rules n)) + i)%nat
                with (size (rules n) + S i)%nat by lia.
              reflexivity.
      * rewrite (allow_full st self n r) by (done || lia). cbn [snd].
        apply IH; done.
Qed.

(** X4.  What [AllowPort] creates, [DisallowAllPorts] deletes.  On a
    group that starts with an empty table: when [DisallowAllPorts]
    returns after any run of requests, the rules it has deleted are the
    rules whose creation was issued since, each of them once and under
    the name it was created with, and no other. *)
Theorem DisallowAllPorts_deletes_what_was_created st self n g
    (reqs : list PortRequest) st2 :
  nsgs st !! self = Some n →
  groups st !! nsg_resource_group n = Some g →
  rules n = ∅ →
  let st1 := after_calls (allow self <$> reqs) st in
  DisallowAllPorts self st1 = (Ok tt, st2) →
  ∃ created deleted,
    calls st1
    = calls st ++ imap (λ i k, rule_create_call k (100 + Z.of_nat i) g n)
                       created
    ∧ calls st2
      = calls st1
        ++ ((λ k, rule_delete_call (rule_name_of k) g n) <$> deleted)
        ++ (if have_deny_all_rule n then [] else [deny_all_call g n])
    ∧ deleted ≡ₚ created
    ∧ NoDup created.
Proof.
  intros Hn Hg Hempty st1 Hrun.
  assert (Hself : (self < length (nsgs st))%nat) by (by eapply lookup_lt_Some).
  destruct (after_calls_allow_items self g reqs st n Hn Hg)
    as (table & created & Hns & Hgs & Hitems & Hcalls).
  fold st1 in Hns, Hgs, Hcalls.
  rewrite Hempty, map_to_list_empty, app_nil_r in Hitems.
  rewrite Hempty, map_size_empty in Hcalls.
  assert (Hn1 : nsgs st1 !! self = Some (set_rules table n)).
  { rewrite Hns. by apply list_lookup_insert_eq. }
  assert (Hg1 : groups st1 !! nsg_resource_group (set_rules table n) = Some g).
  { by rewrite Hgs. }
  destruct (DisallowAllPorts_step st1 self _ g _ _ Hn1 Hg1 Hrun)
    as (table' & flag & new & _ & Hcalls2
        & [(_ & _ & _ & ->)|[(Hr & _)|(Hr & _)]]); [|done..].
  exists created, (iteritems (trace st1) table).*1.
  assert (Hdel : (iteritems (trace st1) table).*1 ≡ₚ created).
  { rewrite iteritems_items, Hitems, <- list_fmap_compose. simpl.
    by rewrite list_fmap_id. }
  split_and!.
  - exact Hcalls.
  - rewrite Hcalls2. simpl. do 2 f_equal.
    rewrite <- list_fmap_compose. apply list_fmap_ext.
    intros i [k name] Hi. simpl.
    apply list_elem_of_lookup_2 in Hi.
    rewrite iteritems_items, Hitems in Hi.
    apply list_elem_of_fmap in Hi as (k' & [= -> ->] & _). done.
  - exact Hdel.
  - rewrite <- Hdel, iteritems_items. apply NoDup_fst_map_to_list.
Qed.
End round_trip.

(** ** [AzureNetwork.__init__] *)

Section AzureNetwork__init__.
Context `{!Environment}.

(** The list [_Create] builds for an account that has an access tier if
    it is of kind ['BlobStorage'] is the command written out. *)
Lemma create_cmd_written_out a g :
  (sa_kind a = "BlobStorage" → is_Some (sa_access_tier a)) →
  AzureStorageAccount.create_cmd a g = Some (cmd_of (account_create_call a g)).
Proof.
  intros Htier. unfold AzureStorageAccount.create_cmd, account_create_call.
  cbn [cmd_of].
  destruct (decide (sa_location a = "")), (decide (sa_kind a = "BlobStorage"))
    as [Hkind|Hkind];
    try (destruct (Htier Hkind) as [tier ->]);
    rewrite ?app_nil_r, <- ?app_assoc; reflexivity.
Qed.

Lemma AzureNetwork__init__cached st zone r g :
  azure_resource_group (spec st) = Some r →
  groups st !! r = Some g →
  AzureNetwork.__init__ zone st
  = (Ok (length (networks st)), with_constructed_network zone r g st).
Proof.
  intros Hr Hg.
  unfold AzureNetwork.__init__, AzureStorageAccount.__init__,
    AzureVirtualNetwork.__init__, AzureSubnet.__init__,
    AzureNetworkSecurityGroup.__init__, GetResourceGroup, get_state,
    AzureResourceGroup.get, AzureVirtualNetwork.get, AzureSubnet.get,
    AzureStorageAccount.alloc, AzureVirtualNetwork.alloc, AzureSubnet.alloc,
    AzureNetworkSecurityGroup.alloc, AzureNetwork.alloc,
    AzureVirtualNetwork.take_vnet_num.
  unfold mbind, M_bind, mret, M_ret, deref, modify. simpl.
  rewrite Hr. simpl. rewrite Hg. simpl. rewrite Hr. simpl.
  rewrite Hr. simpl.
  rewrite (list_lookup_middle (vnets st) []) by done. simpl.
  rewrite Hr. simpl.
  rewrite (list_lookup_middle (subnets st) []) by done. simpl.
  rewrite Hr. simpl.
  reflexivity.
Qed.
End AzureNetwork__init__.

Section AzureNetwork__init__facts.
Context `{!Environment}.

(** [GetResourceGroup] leaves the spec with a resource group that is in
    the store, and changes nothing but the spec and the groups. *)
Lemma GetResourceGroup_valid st :
  spec_group_valid st →
  ∃ r g st0,
    GetResourceGroup st = (Ok r, st0)
    ∧ azure_resource_group (spec st0) = Some r
    ∧ groups st0 !! r = Some g
    ∧ match azure_resource_group (spec st) with
      | Some _ => st0 = st
      | None => g = new_group st ∧ r = length (groups st)
                ∧ groups st0 = groups st ++ [g]
      end
    ∧ st0 = set_spec (spec st0) (set_groups (groups st0) st).
Proof.
  intros Hvalid. destruct (azure_resource_group (spec st)) as [r|] eqn:Hr.
  - destruct (Hvalid r Hr) as [g Hg]. exists r, g, st.
    rewrite (GetResourceGroup_cached st r) by done.
    split_and!; try done. by destruct st.
  - exists (length (groups st)), (new_group st).
    rewrite (GetResourceGroup_first st) by done. eexists.
    split_and!; try done. simpl. by apply list_lookup_middle.
Qed.

(** The constructor starts by obtaining the resource group, and goes on
    as it would in the state that leaves. *)
Lemma bind_GetResourceGroup {A} (k : nat → M A) st :
  (GetResourceGroup ≫= k) st
  = (GetResourceGroup ≫= k) (GetResourceGroup st).2.
Proof.
  unfold mbind, M_bind.
  destruct (azure_resource_group (spec st)) as [r|] eqn:Hr.
  - rewrite (GetResourceGroup_cached st r) by done. cbn [snd].
    by rewrite (GetResourceGroup_cached st r).
  - rewrite (GetResourceGroup_first st) by done. cbn [snd].
    by erewrite (GetResourceGroup_cached (set_spec _ _)) by reflexivity.
Qed.

Lemma AzureNetwork__init__after_group st zone :
  AzureNetwork.__init__ zone st
  = AzureNetwork.__init__ zone (GetResourceGroup st).2.
Proof. unfold AzureNetwork.__init__. apply bind_GetResourceGroup. Qed.

Lemma AzureNetwork__init__returns st zone :
  spec_group_valid st →
  ∃ r g st0,
    GetResourceGroup st = (Ok r, st0)
    ∧ azure_resource_group (spec st0) = Some r
    ∧ groups st0 !! r = Some g
    ∧ st0 = set_spec (spec st0) (set_groups (groups st0) st)
    ∧ AzureNetwork.__init__ zone st
      = (Ok (length (networks st)), with_constructed_network zone r g st0).
Proof.
  intros Hvalid.
  destruct (GetResourceGroup_valid st Hvalid)
    as (r & g & st0 & Hget & Hr & Hg & _ & Hst0).
  exists r, g, st0. split_and!; try done.
  rewrite AzureNetwork__init__after_group, Hget. cbn [snd].
  rewrite (AzureNetwork__init__cached st0 zone r g) by done.
  assert (Hnet : networks st0 = networks st) by (rewrite Hst0; reflexivity).
  by rewrite Hnet.
Qed.
End AzureNetwork__init__facts.

(** ** [AzureStorageAccount.__init__] and the wiring of a network *)

(** ** Slices *)

Lemma length_substring_0 (s : string) : ∀ k,
  String.length (String.substring 0 k s) = (k `min` String.length s)%nat.
Proof.
  induction s as [|c s IH]; intros [|k]; simpl; try done.
  by rewrite IH.
Qed.

Lemma py_slice_to_length n s :
  Z.of_nat (String.length (py_slice_to n s))
  = if decide (n < 0) then Z.max 0 (Z.of_nat (String.length s) + n)
    else Z.min n (Z.of_nat (String.length s)).
Proof.
  unfold py_slice_to. rewrite length_substring_0.
  destruct (decide (n < 0)); lia.
Qed.

Section storage_account.
Context `{!Environment}.

(** X8.  [AzureStorageAccount.__init__] returns unless an access tier is
    given for a kind other than ['BlobStorage'], which is an
    [AssertionError] and constructs nothing.  The account it constructs
    is of kind ['BlobStorage'] exactly when that kind was asked for, and
    it has an access tier, not empty, exactly when it is of that kind:
    ['Hot'] unless a tier was given.  So [_Create] can build its command
    for every account the constructor returns, and the command is the
    one [account_create_call] writes out. *)
Theorem AzureStorageAccount__init__access_tier st storage_type location name
    (kind access_tier : option string) :
  ∃ r st0,
    GetResourceGroup st = (Ok r, st0)
    ∧ accounts st0 = accounts st
    ∧ if decide (kind = Some "BlobStorage" ∨ access_tier = None)
      then
        ∃ a,
          AzureStorageAccount.__init__ storage_type location name kind
            access_tier st
          = (Ok (length (accounts st)), set_accounts (accounts st ++ [a]) st0)
          ∧ sa_kind a = match kind with
                        | None | Some "" => "Storage"
                        | Some kind => kind
                        end
          ∧ (sa_kind a = "BlobStorage" ↔ kind = Some "BlobStorage")
          ∧ (sa_kind a = "BlobStorage" →
               ∃ tier, sa_access_tier a = Some tier ∧ tier ≠ ""
                       ∧ (access_tier = Some tier ∨ tier = "Hot"))
          ∧ (sa_kind a ≠ "BlobStorage" → sa_access_tier a = None)
          ∧ ∀ g, AzureStorageAccount.create_cmd a g
                 = Some (cmd_of (account_create_call a g))
      else
        AzureStorageAccount.__init__ storage_type location name kind
          access_tier st
        = (Raise AssertionError, st0).
Proof.
  destruct (GetResourceGroup st) as [res st0] eqn:Hget.
  assert (∃ r, res = Ok r ∧ accounts st0 = accounts st) as (r & -> & Hacc).
  { unfold GetResourceGroup, get_state, mbind, M_bind, mret, M_ret, modify,
      AzureResourceGroup.__init__, AzureResourceGroup.alloc in Hget.
    simpl in Hget.
    destruct (azure_resource_group (spec st)); injection Hget as <- <-; eauto. }
  exists r, st0. split; [done|]. split; [done|].
  unfold AzureStorageAccount.__init__, AzureStorageAccount.alloc.
  unfold mbind, M_bind, mret, M_ret, raise. rewrite Hget.
  assert (Hkind_out : py_or_str kind "Storage"
                      = match kind with
                        | None | Some "" => "Storage"
                        | Some kind => kind
                        end).
  { unfold py_or_str. destruct kind as [[|c k]|]; reflexivity. }
  destruct (decide (kind = Some "BlobStorage")) as [->|Hkind].
  - rewrite decide_True by (by left). simpl. rewrite Hacc.
    eexists. split; [reflexivity|]. simpl.
    assert (Htier : py_or_str access_tier "Hot" ≠ "").
    { unfold py_or_str. destruct access_tier as [t|]; [|done].
      by destruct (decide (t = "")). }
    split_and!; try done.
    + intros _. eexists. split_and!; [done..|].
      unfold py_or_str. destruct access_tier as [t|]; [|by right].
      destruct (decide (t = "")); [by right|by left].
    + intros g. apply create_cmd_written_out. simpl. eauto.
  - assert (Hk : py_or_str kind "Storage" ≠ "BlobStorage").
    { unfold py_or_str. destruct kind as [k|]; [|done].
      destruct (decide (k = "")); [done|]. congruence. }
    destruct access_tier as [t|].
    + rewrite decide_False by (intros [?|?]; done). reflexivity.
    + rewrite decide_True by (by right). simpl. rewrite Hacc.
      eexists. split; [reflexivity|]. simpl.
      split_and!; try done.
      intros g. apply create_cmd_written_out. simpl. done.
Qed.
End storage_account.

Section AzureNetwork__init__wiring.
Context `{!Environment}.

Lemma with_constructed_network_fresh zone r g st :
  groups st !! r = Some g →
  fresh_network (with_constructed_network zone r g st)
    (constructed_network zone r st) (rg_base g) g
    (constructed_account zone r g)
    (constructed_vnet zone r g (num_vnets st))
    (constructed_subnet zone r g (length (vnets st)))
    (constructed_nsg zone r g (length (subnets st)))
    (cmd_of (account_create_call (constructed_account zone r g) g)).
Proof.
  intros Hg. unfold fresh_network, network_objects.
  split_and!; try done; simpl; rewrite ?list_lookup_middle by done; try done.
  by apply create_cmd_written_out.
Qed.

(** X9.  [AzureNetwork.__init__] returns a regional network that is wired
    as the lifecycle expects it: its storage account, virtual network,
    subnet and security group are new objects, none created or deleted,
    all in the resource group of the spec, which is a new one if the
    spec had none; the subnet is in the virtual network and the
    security group on the subnet; the names are built from the name of
    the group and the zone; the security group starts with no rule and
    no [DenyAll], and it is registered in [ALL_NSGS].  The constructor
    issues no command. *)
Theorem AzureNetwork__init__wires st zone :
  spec_group_valid st →
  ∃ st' net g a v s n,
    AzureNetwork.__init__ zone st = (Ok (length (networks st)), st')
    ∧ networks st' = networks st ++ [net]
    ∧ net_zone net = zone
    ∧ azure_resource_group (spec st') = Some (net_resource_group net)
    ∧ (azure_resource_group (spec st) = None → g = new_group st)
    ∧ fresh_network st' net (rg_base g) g a v s n
        (cmd_of (account_create_call a g))
    ∧ sa_kind a = "Storage" ∧ sa_access_tier a = None
    ∧ sa_storage_type a = azure_storage_type FLAGS
    ∧ sa_location a = zone ∧ vnet_location v = zone ∧ nsg_location n = zone
    ∧ vnet_name v = (rg_name g +:+ "-" +:+ zone) +:+ "-vnet"
    ∧ subnet_name s = vnet_name v +:+ "-subnet"
    ∧ nsg_name n = subnet_name s +:+ "-nsg"
    ∧ rules n = ∅ ∧ have_deny_all_rule n = false
    ∧ ALL_NSGS st' = {[net_nsg net]} ∪ ALL_NSGS st
    ∧ trace st' = trace st
    ∧ spec_group_valid st'
    ∧ (registered_valid st → registered_valid st').
Proof.
  intros Hvalid.
  destruct (GetResourceGroup_valid st Hvalid)
    as (r & g & st0 & Hget & Hr & Hg & Hnew & Hst0).
  destruct (AzureNetwork__init__returns st zone Hvalid)
    as (r' & g' & st0' & Hget' & _ & Hg' & _ & Hinit).
  rewrite Hget in Hget'. injection Hget' as <- <-.
  rewrite Hg in Hg'. injection Hg' as <-.
  pose proof (with_constructed_network_fresh zone r g st0 Hg) as Hfresh.
  assert (Hnsgs : nsgs st0 = nsgs st) by (rewrite Hst0; reflexivity).
  assert (Hall : ALL_NSGS st0 = ALL_NSGS st) by (rewrite Hst0; reflexivity).
  assert (Hnets : networks st0 = networks st) by (rewrite Hst0; reflexivity).
  assert (Htrace : trace st0 = trace st) by (rewrite Hst0; reflexivity).
  assert (Hgroups : ∀ i x, groups st !! i = Some x → groups st0 !! i = Some x).
  { intros i x Hi. destruct (azure_resource_group (spec st)).
    - by subst st0.
    - destruct Hnew as (_ & _ & ->). by apply lookup_app_l_Some. }
  exists (with_constructed_network zone r g st0),
         (constructed_network zone r st0), g,
         (constructed_account zone r g),
         (constructed_vnet zone r g (num_vnets st0)),
         (constructed_subnet zone r g (length (vnets st0))),
         (constructed_nsg zone r g (length (subnets st0))).
  split; [exact Hinit|].
  split_and!; try done.
  - simpl. by rewrite Hnets.
  - intros Hnone. rewrite Hnone in Hnew. by destruct Hnew.
  - simpl. by rewrite Hall.
  - intros r' Hr'. simpl in *. rewrite Hr in Hr'. injection Hr' as <-. eauto.
  - intros Hreg i Hi. simpl in Hi |- *.
    apply elem_of_union in Hi as [Hi|Hi].
    + apply elem_of_singleton in Hi as ->.
      eexists _, g. rewrite list_lookup_middle by done. done.
    + rewrite Hall in Hi. destruct (Hreg i Hi) as (n & gn & Hn & Hgn).
      exists n, gn. rewrite Hnsgs. split; [by apply lookup_app_l_Some|].
      by apply Hgroups.
Qed.

(** X10.  The name of the storage account of a regional network ends with
    the zone and ["storage"], after an initial part of the storage
    account prefix of the resource group.  For a zone of 17 characters
    or fewer the prefix is cut so that the name has 24 characters at
    most.  For a longer zone the bound of the slice is negative: it then
    counts from the end of the prefix, and the name is longer than 24
    characters. *)
Theorem storage_account_name_length st zone :
  spec_group_valid st →
  ∃ st' net g a kept,
    AzureNetwork.__init__ zone st = (Ok (length (networks st)), st')
    ∧ networks st' !! length (networks st) = Some net
    ∧ groups st' !! net_resource_group net = Some g
    ∧ accounts st' !! net_storage_account net = Some a
    ∧ sa_name a = kept +:+ zone +:+ "storage"
    ∧ (let prefix := Z.of_nat (String.length (rg_storage_account_prefix g)) in
       let zone_length := Z.of_nat (String.length zone) in
       let name_length := Z.of_nat (String.length (sa_name a)) in
       (zone_length ≤ 17 →
          name_length = Z.min 24 (prefix + zone_length + 7))
       ∧ (17 < zone_length →
            name_length = Z.max (zone_length + 7) (prefix + 24)))
    ∧ ∃ dropped, rg_storage_account_prefix g = kept +:+ dropped.
Proof.
  intros Hvalid.
  destruct (AzureNetwork__init__returns st zone Hvalid)
    as (r & g & st0 & Hget & Hr & Hg & Hst0 & Hinit).
  assert (Hnets : networks st0 = networks st) by (rewrite Hst0; reflexivity).
  eexists _, _, g, _, _. split; [exact Hinit|].
  split_and!.
  - simpl. rewrite Hnets. by apply list_lookup_middle.
  - done.
  - simpl. by apply list_lookup_middle.
  - reflexivity.
  - simpl. unfold storage_account_name.
    rewrite !string_length_app.
    pose proof (py_slice_to_length
                  (24 - Z.of_nat (String.length (zone +:+ "storage")))
                  (rg_storage_account_prefix g)) as Hlen.
    rewrite string_length_app in Hlen. simpl in Hlen.
    simpl. destruct (decide _) in Hlen; lia.
  - unfold py_slice_to.
    set (k := Z.to_nat _). clearbody k.
    generalize (rg_storage_account_prefix g). clear. intros s. revert k.
    induction s as [|c s IH]; intros [|k]; simpl.
    + by exists "".
    + by exists "".
    + by eexists.
    + destruct (IH k) as [dropped Hd]. exists dropped.
      rewrite string_app_cons. by f_equal.
Qed.
End AzureNetwork__init__wiring.

(** ** Networks constructed one after the other *)

Section regions.
Context `{!Environment}.

Lemma construct_networks_cached zones : ∀ st r g,
  azure_resource_group (spec st) = Some r →
  groups st !! r = Some g →
  construct_networks zones st
  = (Ok (seq (length (networks st)) (length zones)),
     with_constructed_networks zones r g st).
Proof.
  induction zones as [|zone zones IH]; intros st r g Hr Hg; [done|].
  cbn [construct_networks]. unfold mbind, M_bind.
  rewrite (AzureNetwork__init__cached st zone r g) by done.
  rewrite (IH _ r g) by done.
  simpl. rewrite length_app. simpl.
  by replace (length (networks st) + 1)%nat with (S (length (networks st)))
    by lia.
Qed.

Lemma with_constructed_networks_grows zones r g : ∀ st,
  let st' := with_constructed_networks zones r g st in
  spec st' = spec st ∧ groups st' = groups st ∧ trace st' = trace st
  ∧ (∃ e, accounts st' = accounts st ++ e)
  ∧ (∃ e, vnets st' = vnets st ++ e ∧ length e = length zones)
  ∧ (∃ e, subnets st' = subnets st ++ e)
  ∧ (∃ e, nsgs st' = nsgs st ++ e)
  ∧ (∃ e, networks st' = networks st ++ e ∧ length e = length zones)
  ∧ ALL_NSGS st ⊆ ALL_NSGS st'
  ∧ num_vnets st' = (num_vnets st + N.of_nat (length zones))%N.
Proof.
  induction zones as [|zone zones IH]; intros st st'.
  - subst st'. simpl. split_and!; try done; try (by exists []; rewrite app_nil_r).
    lia.
  - subst st'. cbn [with_constructed_networks].
    destruct (IH (with_constructed_network zone r g st))
      as (Hspec & Hgroups & Htrace & [ea Ha] & (ev & Hv & Hlv) & [es Hs]
          & [en Hn] & (enet & Hnet & Hlnet) & Hall & Hnum).
    simpl in *. split_and!; try done.
    + eexists. rewrite Ha, <- app_assoc. done.
    + eexists. rewrite Hv, <- app_assoc. split; [done|]. simpl. by rewrite Hlv.
    + eexists. rewrite Hs, <- app_assoc. done.
    + eexists. rewrite Hn, <- app_assoc. done.
    + eexists. rewrite Hnet, <- app_assoc. split; [done|]. simpl. by rewrite Hlnet.
    + set_solver.
    + lia.
Qed.

Lemma with_constructed_networks_lookup zones r g : ∀ st i zone,
  zones !! i = Some zone →
  let st' := with_constructed_networks zones r g st in
  networks st' !! (length (networks st) + i)%nat
    = Some (nth_network zone r st i)
  ∧ accounts st' !! (length (accounts st) + i)%nat
    = Some (constructed_account zone r g)
  ∧ vnets st' !! (length (vnets st) + i)%nat
    = Some (constructed_vnet zone r g (num_vnets st + N.of_nat i)%N)
  ∧ subnets st' !! (length (subnets st) + i)%nat
    = Some (constructed_subnet zone r g (length (vnets st) + i))
  ∧ nsgs st' !! (length (nsgs st) + i)%nat
    = Some (constructed_nsg zone r g (length (subnets st) + i))
  ∧ (length (nsgs st) + i)%nat ∈ ALL_NSGS st'.
Proof.
  induction zones as [|zone0 zones IH]; intros st i zone Hi st'; [done|].
  subst st'. cbn [with_constructed_networks].
  set (st1 := with_constructed_network zone0 r g st).
  destruct i as [|i].
  - injection Hi as ->. rewrite !Nat.add_0_r.
    destruct (with_constructed_networks_grows zones r g st1)
      as (_ & _ & _ & [ea Ha] & (ev & Hv & _) & [es Hs] & [en Hn]
          & (enet & Hnet & _) & Hall & _).
    rewrite Ha, Hv, Hs, Hn, Hnet. subst st1. simpl.
    rewrite <- !app_assoc. simpl. rewrite !list_lookup_middle by done.
    split_and!; try done.
    + unfold nth_network, constructed_network. by rewrite !Nat.add_0_r.
    + by rewrite N.add_0_r.
    + apply Hall. simpl. set_solver.
  - simpl in Hi. destruct (IH st1 i zone Hi) as (Hnet & Ha & Hv & Hs & Hn & Hall).
    subst st1. simpl in *. rewrite !length_app in *. simpl in *.
    replace (length (networks st) + S i)%nat
      with (length (networks st) + 1 + i)%nat by lia.
    replace (length (accounts st) + S i)%nat
      with (length (accounts st) + 1 + i)%nat by lia.
    replace (length (vnets st) + S i)%nat
      with (length (vnets st) + 1 + i)%nat by lia.
    replace (length (subnets st) + S i)%nat
      with (length (subnets st) + 1 + i)%nat by lia.
    replace (length (nsgs st) + S i)%nat
      with (length (nsgs st) + 1 + i)%nat by lia.
    split_and!; try done.
    + rewrite Hnet. unfold nth_network. simpl. rewrite !length_app. simpl.
      do 2 f_equal; lia.
    + rewrite Hv. do 2 f_equal. lia.
Qed.

Lemma with_constructed_networks_numbered zones r g : ∀ st,
  vnets_numbered st →
  vnets_numbered (with_constructed_networks zones r g st).
Proof.
  induction zones as [|zone zones IH]; intros st Hnum; [done|].
  cbn [with_constructed_networks]. apply IH.
  destruct Hnum as [Hcount Hspace]. split; simpl.
  - rewrite length_app. simpl. lia.
  - intros k v Hk. apply lookup_app_Some in Hk as [Hk|[Hge Hk]].
    + by apply Hspace.
    + apply list_lookup_singleton_Some in Hk as [Hk <-]. simpl.
      rewrite Hcount. f_equal. lia.
Qed.

Lemma with_constructed_network_registered zone r g st :
  groups st !! r = Some g →
  registered_valid st →
  registered_valid (with_constructed_network zone r g st).
Proof.
  intros Hg Hreg i Hi. simpl in Hi |- *.
  apply elem_of_union in Hi as [Hi|Hi].
  - apply elem_of_singleton in Hi as ->.
    eexists _, g. rewrite list_lookup_middle by done. done.
  - destruct (Hreg i Hi) as (n & gn & Hn & Hgn).
    exists n, gn. split; [by apply lookup_app_l_Some|done].
Qed.

Lemma with_constructed_networks_registered zones r g : ∀ st,
  groups st !! r = Some g →
  registered_valid st →
  registered_valid (with_constructed_networks zones r g st).
Proof.
  induction zones as [|zone zones IH]; intros st Hg Hreg; [done|].
  cbn [with_constructed_networks]. apply IH; [done|].
  by apply with_constructed_network_registered.
Qed.
End regions.

Section regions_theorem.
Context `{!Environment}.

Lemma construct_networks_after_group zones st :
  zones ≠ [] →
  construct_networks zones st
  = construct_networks zones (GetResourceGroup st).2.
Proof.
  destruct zones as [|zone zones]; [done|]. intros _.
  cbn [construct_networks]. unfold mbind, M_bind.
  by rewrite AzureNetwork__init__after_group.
Qed.

(** X11.  Regional networks constructed one after the other, for any
    zones: the constructors return; they issue no command; every
    network is wired as the lifecycle expects it, in the one resource
    group of the spec; the [i]-th virtual network constructed gets the
    address space numbered after the virtual networks there were, so the
    address spaces of all virtual networks differ; every security group
    is registered in [ALL_NSGS]; and two of these networks have the
    resource group in common and no other object. *)
Theorem construct_networks_regions st (zones : list string) :
  spec_group_valid st →
  vnets_numbered st →
  ∃ st',
    construct_networks zones st
    = (Ok (seq (length (networks st)) (length zones)), st')
    ∧ trace st' = trace st
    ∧ NoDup (vnet_address_space <$> vnets st')
    ∧ (registered_valid st → registered_valid st')
    ∧ (∀ i zone, zones !! i = Some zone →
         ∃ net g a v s n,
           networks st' !! (length (networks st) + i)%nat = Some net
           ∧ net_zone net = zone
           ∧ azure_resource_group (spec st') = Some (net_resource_group net)
           ∧ fresh_network st' net (rg_base g) g a v s n
               (cmd_of (account_create_call a g))
           ∧ vnet_address_space v
             = address_space_of (N.of_nat (length (vnets st) + i))
           ∧ net_nsg net ∈ ALL_NSGS st')
    ∧ (∀ i j net1 net2,
         i ≠ j →
         (i < length zones)%nat →
         (j < length zones)%nat →
         networks st' !! (length (networks st) + i)%nat = Some net1 →
         networks st' !! (length (networks st) + j)%nat = Some net2 →
         share_only_group net1 net2).
Proof.
  intros Hvalid Hnum.
  destruct (decide (zones = [])) as [->|Hne].
  { exists st. split_and!; try done.
    - by apply vnets_numbered_NoDup.
    - intros i j net1 net2 _ Hi. simpl in Hi. lia. }
  destruct (GetResourceGroup_valid st Hvalid)
    as (r & g & st0 & Hget & Hr & Hg & _ & Hst0).
  assert (Hnets : networks st0 = networks st) by (rewrite Hst0; reflexivity).
  assert (Hvnets : vnets st0 = vnets st) by (rewrite Hst0; reflexivity).
  assert (Hnsgs : nsgs st0 = nsgs st) by (rewrite Hst0; reflexivity).
  assert (Hall0 : ALL_NSGS st0 = ALL_NSGS st) by (rewrite Hst0; reflexivity).
  assert (Hnumv : num_vnets st0 = num_vnets st) by (rewrite Hst0; reflexivity).
  assert (Htrace : trace st0 = trace st) by (rewrite Hst0; reflexivity).
  assert (Hgroups0 : ∀ i x, groups st !! i = Some x → groups st0 !! i = Some x).
  { intros i x Hi. unfold GetResourceGroup, get_state, mbind, M_bind, mret,
      M_ret, modify, AzureResourceGroup.__init__, AzureResourceGroup.alloc
      in Hget. simpl in Hget.
    destruct (azure_resource_group (spec st)); injection Hget as <- <-;
      [done|]. simpl. by apply lookup_app_l_Some. }
  assert (Hnum0 : vnets_numbered st0).
  { destruct Hnum as [Hc Hs]. split; [by rewrite Hnumv, Hvnets|].
    by rewrite Hvnets. }
  exists (with_constructed_networks zones r g st0).
  rewrite construct_networks_after_group, Hget by done. cbn [snd].
  rewrite (construct_networks_cached zones st0 r g), Hnets by done.
  destruct (with_constructed_networks_grows zones r g st0)
    as (Hspec & Hgroups & Htr & _).
  pose proof (with_constructed_networks_lookup zones r g st0) as Hlookup.
  rewrite Hnets in Hlookup.
  split_and!.
  - done.
  - by rewrite Htr.
  - by apply vnets_numbered_NoDup, with_constructed_networks_numbered.
  - intros Hreg. apply with_constructed_networks_registered; [done|].
    intros i Hi. rewrite Hall0 in Hi.
    destruct (Hreg i Hi) as (n & gn & Hni & Hgn).
    exists n, gn. rewrite Hnsgs. split; [done|by apply Hgroups0].
  - intros i zone Hi.
    destruct (Hlookup i zone Hi) as (Hnet & Ha & Hv & Hs & Hnsg & Hall).
    exists (nth_network zone r st0 i), g, (constructed_account zone r g),
      (constructed_vnet zone r g (num_vnets st0 + N.of_nat i)%N),
      (constructed_subnet zone r g (length (vnets st0) + i)),
      (constructed_nsg zone r g (length (subnets st0) + i)).
    split_and!.
    + exact Hnet.
    + done.
    + by rewrite Hspec.
    + unfold fresh_network, network_objects.
      rewrite Hgroups. split_and!; try done.
      by apply create_cmd_written_out.
    + simpl. destruct Hnum0 as [-> _]. rewrite Hvnets. f_equal. lia.
    + exact Hall.
  - intros i j net1 net2 Hij Hi Hj Hnet1 Hnet2.
    destruct (lookup_lt_is_Some_2 zones i Hi) as [zi Hzi].
    destruct (lookup_lt_is_Some_2 zones j Hj) as [zj Hzj].
    destruct (Hlookup i zi Hzi) as (Hnet1' & _).
    destruct (Hlookup j zj Hzj) as (Hnet2' & _).
    rewrite Hnet1' in Hnet1. rewrite Hnet2' in Hnet2.
    injection Hnet1 as <-. injection Hnet2 as <-.
    unfold share_only_group. simpl. split_and!; [done|lia..].
Qed.
End regions_theorem.

(** ** Which commands are checked; [_PostCreate] *)

Section checked_commands.
Context `{!Environment}.

(** X13.  Which failures the lifecycle methods notice.  Each [_Create] and
    [_Delete] issues its one command, written out in the calls named
    here.  [AzureResourceGroup._Create]
    reads the exit status and raises [RetryableCreationError] when it is
    not 0, and [AttachToSubnet] raises when its retried command fails;
    the [_Create] of a storage account, a virtual network, a subnet and
    a security group and every [_Delete] return whatever the status of
    the command is. *)
Theorem only_group_creation_is_checked st net g a v s n :
  network_objects st net g a v s n →
  (sa_kind a = "BlobStorage" → is_Some (sa_access_tier a)) →
  let status := λ c, retcode (env (trace st) c) in
  AzureResourceGroup._Create (net_resource_group net) st
  = (if decide (status (group_create_call g) = 0) then Ok tt
     else Raise (RetryableCreationError "Error creating Azure resource group"),
     issue (group_create_call g) st)
  ∧ AzureNetworkSecurityGroup.AttachToSubnet (net_nsg net) st
    = (if decide (status (attach_call n s g v) = 0) then Ok tt
       else Raise CalledProcessException,
       issue (attach_call n s g v) st)
  ∧ AzureStorageAccount._Create (net_storage_account net) st
    = (Ok tt, issue (account_create_call a g) st)
  ∧ AzureVirtualNetwork._Create (net_vnet net) st
    = (Ok tt, issue (vnet_create_call v g) st)
  ∧ AzureSubnet._Create (net_subnet net) st
    = (Ok tt, issue (subnet_create_call s v g) st)
  ∧ AzureNetworkSecurityGroup._Create (net_nsg net) st
    = (Ok tt, issue (nsg_create_call n g) st)
  ∧ AzureSubnet._Delete (net_subnet net) st
    = (Ok tt, issue (subnet_delete_call s v g) st)
  ∧ AzureNetworkSecurityGroup._Delete (net_nsg net) st
    = (Ok tt, issue (nsg_delete_call n g) st)
  ∧ AzureVirtualNetwork._Delete (net_vnet net) st
    = (Ok tt, issue (vnet_delete_call v g) st)
  ∧ AzureStorageAccount._Delete (net_storage_account net) st
    = (Ok tt, issue (account_delete_call a g) st)
  ∧ AzureResourceGroup._Delete (net_resource_group net) st
    = (Ok tt, issue (group_delete_call g) st).
Proof.
  intros (Hg & Ha & Hag & Hv & Hvg & Hs & Hsv & Hsg & Hn & Hns & Hng) Htier
    status.
  pose proof (create_cmd_written_out a g Htier) as Hcmd.
  unfold AzureResourceGroup._Create, AzureResourceGroup._Delete,
    AzureStorageAccount._Create, AzureStorageAccount._Delete,
    AzureVirtualNetwork._Create, AzureVirtualNetwork._Delete,
    AzureSubnet._Create, AzureSubnet._Delete,
    AzureNetworkSecurityGroup._Create, AzureNetworkSecurityGroup._Delete,
    AzureNetworkSecurityGroup.AttachToSubnet,
    AzureResourceGroup.get, AzureStorageAccount.get, AzureVirtualNetwork.get,
    AzureSubnet.get, AzureNetworkSecurityGroup.get,
    vm_util.IssueRetryableCommand.
  unfold mbind, M_bind, mret, M_ret, deref, raise, vm_util.IssueCommand.
  subst status.
  repeat (progress (simpl;
    rewrite ?Hg, ?Ha, ?Hv, ?Hs, ?Hn, ?Hag, ?Hvg, ?Hsg, ?Hsv, ?Hng, ?Hns,
      ?Hcmd)).
  fold (group_create_call g). fold (attach_call n s g v).
  split_and!; try reflexivity; by destruct (decide _).
Qed.
End checked_commands.

Lemma assoc_lookup_elem_of key fields v :
  assoc_lookup key fields = Some v → (key, v) ∈ fields.
Proof.
  induction fields as [|[k x] fields IH]; simpl; [done|].
  destruct (decide (k = key)) as [->|_].
  - intros [= ->]. by left.
  - intros Hv. right. by apply IH.
Qed.

Lemma json_getitem_str_object key j v :
  json_getitem_str key j = Ok v →
  ∃ fields, j = JObject fields ∧ (key, v) ∈ fields.
Proof.
  destruct j as [| | | | |fields]; simpl; try done.
  destruct (assoc_lookup key fields) as [x|] eqn:Hx; [|done].
  intros [= <-]. exists fields. split; [done|]. by apply assoc_lookup_elem_of.
Qed.

Lemma json_getitem_0_first j first :
  json_getitem_0 j = Ok first →
  (∃ items, j = JArray (first :: items))
  ∨ (∃ c text, j = JString (String c text) ∧ first = JString (String c "")).
Proof.
  destruct j as [| | |[|c text]|[|x items]|]; simpl; try done.
  - intros [= <-]. right. by exists c, text.
  - intros [= <-]. left. by exists items.
Qed.

Section PostCreate.
Context `{!Environment}.

Lemma with_credentials_id a : with_credentials a a = a.
Proof. by destruct a. Qed.

(** X14.  [_PostCreate] changes nothing but the trace and the credentials
    of its account.  When it returns it has made its two queries, the
    account holds the connection string that the first answer gives
    under ["string"], the connection arguments made from it, and as key
    the ["value"] of the first record of the second answer, a list,
    whose ["permissions"] are ["Full"].  When it raises, the key is as it
    was; if the second query was made, the connection string of the
    first answer is stored all the same. *)
Theorem PostCreate_credentials st self a g r st' :
  accounts st !! self = Some a →
  groups st !! sa_resource_group a = Some g →
  AzureStorageAccount._PostCreate self st = (r, st') →
  ∃ a',
    st' = set_trace (trace st')
            (set_accounts (<[self := with_credentials a' a]> (accounts st)) st)
    ∧ match r with
      | Ok _ =>
          ∃ fields connection record items key,
            calls st' = calls st ++ [connection_call a g; keys_call a g]
            ∧ json_loads (stdout (env (trace st) (connection_call a g)))
              = Some (JObject fields)
            ∧ ("string", connection) ∈ fields
            ∧ sa_connection_string a' = Some connection
            ∧ sa_connection_args a'
              = Some [JString "--connection-string"; connection]
            ∧ json_loads (stdout (env (trace st ++ [{|
                  ev_call := connection_call a g;
                  ev_result := env (trace st) (connection_call a g) |}])
                (keys_call a g)))
              = Some (JArray (JObject record :: items))
            ∧ ("permissions", JString "Full") ∈ record
            ∧ ("value", key) ∈ record
            ∧ sa_key a' = Some key
      | Raise e =>
          sa_key a' = sa_key a
          ∧ ((calls st' = calls st ++ [connection_call a g]
              ∧ sa_connection_string a' = sa_connection_string a
              ∧ sa_connection_args a' = sa_connection_args a)
             ∨ (calls st' = calls st ++ [connection_call a g; keys_call a g]
                ∧ ∃ fields connection,
                    json_loads (stdout (env (trace st) (connection_call a g)))
                    = Some (JObject fields)
                    ∧ ("string", connection) ∈ fields
                    ∧ sa_connection_string a' = Some connection
                    ∧ sa_connection_args a'
                      = Some [JString "--connection-string"; connection]))
      end.
Proof.
  intros Ha Hg Hrun.
  assert (Hself : (self < length (accounts st))%nat) by (by eapply lookup_lt_Some).
  unfold AzureStorageAccount._PostCreate, AzureStorageAccount.put,
    AzureStorageAccount.get, AzureResourceGroup.get,
    vm_util.IssueRetryableCommand in Hrun.
  unfold mbind, M_bind, mret, M_ret, deref, modify, raise, lift_result in Hrun.
  rewrite Ha, Hg in Hrun.
  fold (connection_call a g) in Hrun.
  set (c1 := connection_call a g) in *.
  set (r1 := env (trace st) c1) in *.
  assert (Hfirst : calls (vm_util.record c1 r1 st) = calls st ++ [c1]).
  { unfold calls, vm_util.record. simpl. by rewrite map_app. }
  assert (Hkeep : ∀ tr, set_trace tr st
            = set_trace tr
                (set_accounts (<[self := with_credentials a a]> (accounts st)) st)).
  { intros tr. rewrite with_credentials_id, list_insert_id by done.
    by destruct st. }
  destruct (decide (retcode r1 = 0)) as [Hok1|Hfail1]; cycle 1.
  { injection Hrun as <- <-. exists a. split; [apply Hkeep|].
    split; [done|]. left. done. }
  simpl in Hrun.
  destruct (json_loads (stdout r1)) as [response1|] eqn:Hjson1; cycle 1.
  { injection Hrun as <- <-. exists a. split; [apply Hkeep|].
    split; [done|]. left. done. }
  destruct (json_getitem_str "string" response1) as [connection|e1] eqn:Hconn;
    cycle 1.
  { injection Hrun as <- <-. exists a. split; [apply Hkeep|].
    split; [done|]. left. done. }
  apply json_getitem_str_object in Hconn as (fields & -> & Hstring).
  simpl in Hrun. rewrite Ha in Hrun. simpl in Hrun.
  rewrite list_lookup_insert_eq in Hrun by done. simpl in Hrun.
  rewrite Hg in Hrun.
  change (IssueRetryableCommandCall
            (AZURE_PATH :: "storage" :: "account" :: "keys" :: "list"
               :: "--json" :: sa_name a :: rg_args g))
    with (keys_call a g) in Hrun.
  set (c2 := keys_call a g) in *.
  set (a1 := set_sa_connection connection a) in *.
  set (st1 := set_accounts _ _) in Hrun.
  set (r2 := env (trace st1) c2) in *.
  assert (Hsecond : calls (vm_util.record c2 r2 st1) = calls st ++ [c1; c2]).
  { unfold calls, vm_util.record. subst st1. simpl.
    rewrite !map_app. simpl. by rewrite <- app_assoc. }
  assert (Hkeep1 : ∀ tr,
            set_trace tr st1
            = set_trace tr
                (set_accounts (<[self := with_credentials a1 a]> (accounts st)) st)).
  { intros tr. subst st1 a1. unfold with_credentials, set_sa_connection.
    simpl. by destruct a. }
  destruct (decide (retcode r2 = 0)) as [Hok2|Hfail2]; cycle 1.
  { injection Hrun as <- <-. exists a1. split; [apply Hkeep1|].
    split; [reflexivity|]. right. split; [exact Hsecond|].
    exists fields, connection. split_and!; (reflexivity || assumption). }
  simpl in Hrun.
  destruct (json_loads (stdout r2)) as [response2|] eqn:Hjson2; cycle 1.
  { injection Hrun as <- <-. exists a1. split; [apply Hkeep1|].
    split; [reflexivity|]. right. split; [exact Hsecond|].
    exists fields, connection. split_and!; (reflexivity || assumption). }
  destruct (json_getitem_0 response2) as [first|e2] eqn:Hitem; cycle 1.
  { injection Hrun as <- <-. exists a1. split; [apply Hkeep1|].
    split; [reflexivity|]. right. split; [exact Hsecond|].
    exists fields, connection. split_and!; (reflexivity || assumption). }
  destruct (json_getitem_str "permissions" first) as [permissions|e3] eqn:Hperm;
    cycle 1.
  { injection Hrun as <- <-. exists a1. split; [apply Hkeep1|].
    split; [reflexivity|]. right. split; [exact Hsecond|].
    exists fields, connection. split_and!; (reflexivity || assumption). }
  destruct (json_eq_str permissions "Full") eqn:Hfull; cycle 1.
  { injection Hrun as <- <-. exists a1. split; [apply Hkeep1|].
    split; [reflexivity|]. right. split; [exact Hsecond|].
    exists fields, connection. split_and!; (reflexivity || assumption). }
  assert (permissions = JString "Full") as ->.
  { destruct permissions; simpl in Hfull; try done.
    by apply bool_decide_eq_true in Hfull as ->. }
  destruct (json_getitem_str "value" first) as [key|e4] eqn:Hvalue; cycle 1.
  { injection Hrun as <- <-. exists a1. split; [apply Hkeep1|].
    split; [reflexivity|]. right. split; [exact Hsecond|].
    exists fields, connection. split_and!; (reflexivity || assumption). }
  simpl in Hrun. rewrite list_lookup_insert_eq in Hrun by done.
  injection Hrun as <- <-.
  exists (set_sa_key key a1). split.
  - simpl. rewrite list_insert_insert_eq. subst st1. simpl.
    unfold with_credentials, set_sa_key, a1, set_sa_connection. simpl.
    by destruct a.
  - apply json_getitem_str_object in Hperm as (record & -> & Hpermissions).
    apply json_getitem_str_object in Hvalue as (record' & [= <-] & Hkey).
    apply json_getitem_0_first in Hitem
      as [(items & ->)|(c & text & _ & Htext)]; [|discriminate Htext].
    exists fields, connection, record, items, key.
    split_and!; (reflexivity || assumption).
Qed.
End PostCreate.

(** ** From the constructor to the teardown *)

Section constructed_lifecycle.
Context `{!Environment}.

(** X15.  From the constructor to the teardown of one regional network,
    with a provider whose commands succeed: [AzureNetwork.__init__]
    issues nothing; [Create] then issues the creation of the resource
    group unless it was created before, of the storage account with its
    two queries, of the virtual network, of the subnet with the address
    space of the virtual network, of the security group, and the
    attachment; [Delete] issues the deletions of subnet, security group,
    virtual network and storage account, and of the resource group
    unless it was deleted before.  All of them are commands on the
    objects the constructor made, in the resource group of the spec. *)
Theorem constructed_network_lifecycle st zone :
  commands_succeed →
  storage_queries_answered →
  spec_group_valid st →
  ∃ st1 st2 st3 net g a v s n,
    let self := length (networks st) in
    AzureNetwork.__init__ zone st = (Ok self, st1)
    ∧ AzureNetwork.Create self st1 = (Ok tt, st2)
    ∧ AzureNetwork.Delete self st2 = (Ok tt, st3)
    ∧ networks st1 !! self = Some net
    ∧ azure_resource_group (spec st1) = Some (net_resource_group net)
    ∧ fresh_network st1 net (rg_base g) g a v s n
        (cmd_of (account_create_call a g))
    ∧ calls st1 = calls st
    ∧ calls st2
      = calls st1
        ++ (if created (rg_base g) then [] else [group_create_call g])
        ++ [account_create_call a g; connection_call a g; keys_call a g;
            vnet_create_call v g; subnet_create_call s v g;
            nsg_create_call n g; attach_call n s g v]
    ∧ steps_between st1 st2
      = (if created (rg_base g) then [] else [CreateResourceGroup])
        ++ [CreateStorageAccount; CreateVirtualNetwork; CreateSubnet;
            CreateNetworkSecurityGroup; AttachSecurityGroup]
    ∧ calls st3
      = calls st2
        ++ [subnet_delete_call s v g; nsg_delete_call n g;
            vnet_delete_call v g; account_delete_call a g]
        ++ (if deleted (rg_base g) then [] else [group_delete_call g])
    ∧ steps_between st2 st3
      = [DeleteSubnet; DeleteNetworkSecurityGroup; DeleteVirtualNetwork;
         DeleteStorageAccount]
        ++ (if deleted (rg_base g) then [] else [DeleteResourceGroup]).
Proof.
  intros Hok Hans Hvalid.
  destruct (AzureNetwork__init__returns st zone Hvalid)
    as (r & g & st0 & Hget & Hr & Hg & Hst0 & Hinit).
  assert (Hnets : networks st0 = networks st) by (rewrite Hst0; reflexivity).
  assert (Htrace : trace st0 = trace st) by (rewrite Hst0; reflexivity).
  pose proof (with_constructed_network_fresh zone r g st0 Hg) as Hfresh.
  set (st1 := with_constructed_network zone r g st0) in *.
  set (net := constructed_network zone r st0) in *.
  set (a := constructed_account zone r g) in *.
  set (v := constructed_vnet zone r g (num_vnets st0)) in *.
  set (s := constructed_subnet zone r g (length (vnets st0))) in *.
  set (n := constructed_nsg zone r g (length (subnets st0))) in *.
  pose proof Hfresh as (Hobj & _ & Hab & Hvb & Hsb & Hnb & Hcmd).
  assert (Hnet : networks st1 !! length (networks st) = Some net).
  { subst st1. simpl. rewrite <- Hnets. by apply list_lookup_middle. }
  destruct (AzureNetwork_Create_fresh st1 _ net _ g a v s n _
              Hok Hans Hnet Hfresh)
    as (st2 & a' & Hrun2 & Hcalls2 & Hup2 & Hab' & Han' & Harg').
  set (g2 := set_rg_base _ g) in Hup2.
  set (v' := set_vnet_base _ v) in Hup2.
  set (s' := set_subnet_base _ s) in Hup2.
  set (n' := set_nsg_base _ n) in Hup2.
  assert (Hobj2 : network_objects st2 net g2 a' v' s' n')
    by (by eapply network_objects_updated).
  assert (Hnets2 : networks st2 = networks st1) by apply Hup2.
  destruct (AzureNetwork_Delete_live st2 (length (networks st)) net
              g2 a' v' s' n')
    as (st3 & Hrun3 & Hcalls3 & Hup3).
  { by rewrite Hnets2. }
  { done. }
  { by rewrite Hab', Hab. }
  { subst v'. simpl. by rewrite ?Hvb. }
  { subst s'. simpl. by rewrite ?Hsb. }
  { subst n'. simpl. by rewrite ?Hnb. }
  assert (Hcalls3' : calls st3
            = calls st2
              ++ [subnet_delete_call s v g; nsg_delete_call n g;
                  vnet_delete_call v g; account_delete_call a g]
              ++ (if deleted (rg_base g) then [] else [group_delete_call g])).
  { rewrite Hcalls3. f_equal.
    unfold account_delete_call. rewrite Han'. reflexivity. }
  exists st1, st2, st3, net, g, a, v, s, n.
  split_and!; try done.
  - unfold calls. subst st1. simpl. by rewrite Htrace.
  - rewrite (steps_between_app _ _ _ Hcalls2).
    by destruct (created (rg_base g)).
  - rewrite (steps_between_app _ _ _ Hcalls3'). simpl.
    by destruct (deleted (rg_base g)).
Qed.
End constructed_lifecycle.

(** ** Names of the resources *)

Lemma string_app_inj_l (s t1 t2 : string) :
  s +:+ t1 = s +:+ t2 → t1 = t2.
Proof.
  induction s as [|c s IH]; rewrite ?string_app_cons, ?string_app_nil;
    [done|].
  intros [= Heq]. by apply IH.
Qed.

Section names.
Context `{!Environment}.

(** X12.  The names of the resources of a regional network are made from
    the resource group and the zone alone.  So, among the networks
    constructed for one spec, two networks of different zones differ in
    the names of their virtual networks, subnets and security groups,
    and two networks of the same zone have all these names in common,
    and the name of the storage account as well.  Storage accounts of
    different zones of the same length have different names. *)
Theorem resource_names_follow_zones st (zones : list string) i j zi zj :
  spec_group_valid st →
  zones !! i = Some zi →
  zones !! j = Some zj →
  ∃ refs st' ni nj ai aj vi vj si sj gi gj,
    construct_networks zones st = (Ok refs, st')
    ∧ networks st' !! (length (networks st) + i)%nat = Some ni
    ∧ networks st' !! (length (networks st) + j)%nat = Some nj
    ∧ accounts st' !! net_storage_account ni = Some ai
    ∧ accounts st' !! net_storage_account nj = Some aj
    ∧ vnets st' !! net_vnet ni = Some vi
    ∧ vnets st' !! net_vnet nj = Some vj
    ∧ subnets st' !! net_subnet ni = Some si
    ∧ subnets st' !! net_subnet nj = Some sj
    ∧ nsgs st' !! net_nsg ni = Some gi
    ∧ nsgs st' !! net_nsg nj = Some gj
    ∧ (vnet_name vi = vnet_name vj ↔ zi = zj)
    ∧ (subnet_name si = subnet_name sj ↔ zi = zj)
    ∧ (nsg_name gi = nsg_name gj ↔ zi = zj)
    ∧ (zi = zj → sa_name ai = sa_name aj)
    ∧ (String.length zi = String.length zj →
       sa_name ai = sa_name aj → zi = zj).
Proof.
  intros Hvalid Hi Hj.
  assert (Hne : zones ≠ []) by (intros ->; done).
  destruct (GetResourceGroup_valid st Hvalid)
    as (r & g & st0 & Hget & Hr & Hg & _ & Hst0).
  assert (Hnets : networks st0 = networks st) by (rewrite Hst0; reflexivity).
  pose proof (with_constructed_networks_lookup zones r g st0) as Hlookup.
  rewrite Hnets in Hlookup.
  destruct (Hlookup i zi Hi) as (Hni & Hai & Hvi & Hsi & Hgi & _).
  destruct (Hlookup j zj Hj) as (Hnj & Haj & Hvj & Hsj & Hgj & _).
  eexists _, (with_constructed_networks zones r g st0).
  eexists _, _, _, _, _, _, _, _, _, _.
  rewrite construct_networks_after_group, Hget by done. cbn [snd].
  rewrite (construct_networks_cached zones st0 r g) by done.
  split; [reflexivity|].
  split; [exact Hni|]. split; [exact Hnj|].
  split; [exact Hai|]. split; [exact Haj|].
  split; [exact Hvi|]. split; [exact Hvj|].
  split; [exact Hsi|]. split; [exact Hsj|].
  split; [exact Hgi|]. split; [exact Hgj|].
  simpl. split_and!.
  - split; [|by intros ->]. intros Heq.
    apply string_app_inj_r in Heq. by do 2 apply string_app_inj_l in Heq.
  - split; [|by intros ->]. intros Heq.
    do 2 apply string_app_inj_r in Heq. by do 2 apply string_app_inj_l in Heq.
  - split; [|by intros ->]. intros Heq.
    do 3 apply string_app_inj_r in Heq. by do 2 apply string_app_inj_l in Heq.
  - by intros ->.
  - unfold storage_account_name. intros Hlen Heq.
    rewrite !string_length_app, Hlen in Heq.
    apply string_app_inj_l in Heq. by apply string_app_inj_r in Heq.
Qed.
End names.

(** ** The statements at work on examples *)

Section examples.
Local Existing Instance obliging_environment.
Import AzureNetworkSecurityGroup.

Lemma AllowPort_same_pair_once_witness :
  length (calls (after_calls
                   [AllowPort 0 {| vm_network := 0 |} 80 None None;
                    AllowPort 0 {| vm_network := 1 |} 80 None (Some "10.0.0.0/8");
                    AllowPort 0 {| vm_network := 0 |} 80 None None]
                   two_regions))
  = (length (calls two_regions) + 1)%nat.
Proof.
  epose proof (AllowPort_same_pair_once two_regions 0%nat _ _ 80 None
               {| vm_network := 0 |} None
               [({| vm_network := 1 |}, Some "10.0.0.0/8");
                ({| vm_network := 0 |}, None)]) as Hthm.
  edestruct Hthm as (_ & _ & Hafter & Hcalls & _).
  - reflexivity.
  - reflexivity.
  - reflexivity.
  - vm_compute. reflexivity.
  - rewrite <- Hafter in Hcalls. apply (f_equal length) in Hcalls.
    rewrite length_app in Hcalls. exact Hcalls.
Defined.

Lemma AllowPort_priorities_witness :
  ∃ st2,
    (allow 0 (port 8080)
       (after_calls (allow 0 <$> [port 80; port 443; port 80]) two_regions)).2
    = st2
    ∧ ∃ g n, last (calls st2) = Some (rule_create_call (8080, 8080) 102 g n).
Proof.
  epose proof (AllowPort_priorities two_regions 0%nat _ _
               [port 80; port 443; port 80] (port 8080)) as Hthm.
  edestruct Hthm as (_ & Hkth & _).
  - reflexivity.
  - reflexivity.
  - reflexivity.
  - apply (bool_decide_unpack _). vm_compute. exact I.
  - destruct Hkth as (table & _ & Hrun); [vm_compute; discriminate|].
    cbv zeta in Hrun. eexists. split; [reflexivity|].
    rewrite Hrun. cbn [snd]. rewrite calls_issue, last_snoc.
    eexists _, _. reflexivity.
Defined.

Lemma DisallowAllPorts_closes_witness :
  DisallowAllPorts 0 (DisallowAllPorts 0 two_rules).2
  = (Ok tt, (DisallowAllPorts 0 two_rules).2).
Proof.
  epose proof (DisallowAllPorts_closes two_rules 0%nat _ _
                 (DisallowAllPorts 0 two_rules).2) as Hthm.
  edestruct Hthm
    as (st_loop & n1 & deletions & _ & _ & _ & _ & _ & _ & _ & _ & Hagain).
  - vm_compute. reflexivity.
  - vm_compute. reflexivity.
  - vm_compute. reflexivity.
  - exact Hagain.
Defined.

Lemma deny_all_then_allow_counterexample :
  let st1 := (DisallowAllPorts 0 two_regions).2 in
  let st2 := (AllowPort 0 {| vm_network := 0 |} 80 None None st1).2 in
  (have_deny_all_rule <$> nsgs st1 !! 0%nat) = Some true
  ∧ (have_deny_all_rule <$> nsgs st2 !! 0%nat) = Some true
  ∧ (rules <$> nsgs st2 !! 0%nat) = Some {[ (80, 80) := "allow-80-80" ]}.
Proof. vm_compute. split_and!; reflexivity. Qed.

Lemma deny_all_flag_is_final_witness :
  (length (deny_all_successes
             (drop (length (trace two_regions))
                (trace (after_calls
                          (run_op 0 <$> [OpAllowPort (port 80);
                                         OpDisallowAllPorts])
                          (after_calls (run_op 0 <$> [OpDisallowAllPorts])
                             two_regions))))) ≤ 1)%nat.
Proof.
  epose proof (deny_all_flag_is_final two_regions 0%nat _ _
                 [OpDisallowAllPorts]
                 [OpAllowPort (port 80); OpDisallowAllPorts]) as Hthm.
  edestruct Hthm as (_ & Honce & _).
  - reflexivity.
  - reflexivity.
  - apply Honce. reflexivity.
Defined.

Lemma obliging_commands_succeed : commands_succeed.
Proof. intros history c. reflexivity. Qed.

Lemma obliging_storage_queries_answered : storage_queries_answered.
Proof.
  split; intros history rest.
  - eexists _, _. split; reflexivity.
  - eexists _, _, _. split_and!; reflexivity.
Qed.

Lemma network_lifecycle_order_witness :
  ∃ st1 st2 st3 st4,
    AzureNetwork.Create 0 two_regions = (Ok tt, st1)
    ∧ AzureNetwork.Create 1 st1 = (Ok tt, st2)
    ∧ AzureNetwork.Delete 0 st2 = (Ok tt, st3)
    ∧ AzureNetwork.Delete 1 st3 = (Ok tt, st4)
    ∧ steps_between two_regions st1
      = [CreateResourceGroup; CreateStorageAccount; CreateVirtualNetwork;
         CreateSubnet; CreateNetworkSecurityGroup; AttachSecurityGroup]
    ∧ steps_between st1 st2
      = [CreateStorageAccount; CreateVirtualNetwork;
         CreateSubnet; CreateNetworkSecurityGroup; AttachSecurityGroup]
    ∧ steps_between st2 st3
      = [DeleteSubnet; DeleteNetworkSecurityGroup; DeleteVirtualNetwork;
         DeleteStorageAccount; DeleteResourceGroup]
    ∧ steps_between st3 st4
      = [DeleteSubnet; DeleteNetworkSecurityGroup; DeleteVirtualNetwork;
         DeleteStorageAccount].
Proof.
  eapply (network_lifecycle_order two_regions 0%nat 1%nat).
  - exact obliging_commands_succeed.
  - exact obliging_storage_queries_answered.
  - reflexivity.
  - reflexivity.
  - unfold fresh_network, network_objects. split_and!; reflexivity.
  - unfold fresh_network, network_objects. split_and!; reflexivity.
  - unfold share_only_group. simpl. split_and!; [reflexivity|lia..].
Defined.

Lemma GetResourceGroup_one_group_witness :
  ∃ st', obtain_and_create 3 (initial_state "1") = (Ok [0; 0; 0]%nat, st')
         ∧ length (calls st') = 1%nat.
Proof.
  epose proof (GetResourceGroup_one_group (initial_state "1") 2) as Hthm.
  edestruct Hthm as (_ & _ & st' & g' & Hrun & _ & _ & _ & Hcalls).
  - reflexivity.
  - reflexivity.
  - exists st'. split; [exact Hrun|]. rewrite Hcalls. reflexivity.
Defined.

Lemma vnet_address_spaces_distinct_witness :
  ∃ st',
    construct_vnets [("eastus2", "a"); ("westus2", "b"); ("eastus2", "c")]
      (initial_state "1")
    = (Ok [0; 1; 2]%nat, st')
    ∧ NoDup (vnet_address_space <$> vnets st').
Proof.
  epose proof (vnet_address_spaces_distinct (initial_state "1")
                 [("eastus2", "a"); ("westus2", "b"); ("eastus2", "c")])
    as Hthm.
  edestruct Hthm as (st' & Hrun & _ & _ & Hnd).
  - reflexivity.
  - reflexivity.
  - exists st'. split; [exact Hrun|exact Hnd].
Defined.

Lemma AllowPort_falsy_end_port_witness :
  let st1 := (AllowPort 0 {| vm_network := 0 |} 80 None None two_regions).2 in
  AllowPort 0 {| vm_network := 1 |} 80 (Some 0) (Some "10.0.0.0/8") st1
  = (Ok tt, st1).
Proof.
  intros st1.
  epose proof (AllowPort_falsy_end_port two_regions 0%nat _ _ 80 None (Some 0)
                 {| vm_network := 0 |} {| vm_network := 1 |}
                 None (Some "10.0.0.0/8") st1) as Hthm.
  edestruct Hthm as (_ & _ & _ & Hagain).
  - apply (bool_decide_unpack _). vm_compute. exact I.
  - apply (bool_decide_unpack _). vm_compute. exact I.
  - reflexivity.
  - reflexivity.
  - vm_compute. reflexivity.
  - exact Hagain.
Defined.
End examples.

Section empty_answers.
Local Existing Instance empty_object_environment.

Lemma Exists_empty_object_counterexample :
  ∃ c_account c_group,
    stdout (env (trace two_regions) c_account) = EMPTY_OBJECT
    ∧ AzureStorageAccount._Exists 0 two_regions
      = (Ok true, issue c_account two_regions)
    ∧ stdout (env (trace two_regions) c_group) = EMPTY_OBJECT
    ∧ AzureResourceGroup._Exists 0 two_regions
      = (Ok true, issue c_group two_regions).
Proof. eexists _, _. split_and!; reflexivity. Qed.

Lemma Exists_reads_the_answer_witness :
  (AzureVirtualNetwork._Exists 0 two_regions).1 = Ok false
  ∧ (AzureSubnet._Exists 0 two_regions).1 = Ok false
  ∧ (AzureNetworkSecurityGroup._Exists 0 two_regions).1 = Ok false
  ∧ (AzureResourceGroup._Exists 0 two_regions).1 = Ok true
  ∧ (AzureStorageAccount._Exists 0 two_regions).1 = Ok true.
Proof.
  epose proof (Exists_reads_the_answer two_regions
                 {| net_zone := "eastus2"; net_resource_group := 0;
                    net_storage_account := 0; net_vnet := 0;
                    net_subnet := 0; net_nsg := 0 |} _ _ _ _ _) as Hthm.
  edestruct Hthm as ((_ & Hv) & (_ & Hs) & (_ & Hn) & Hg & Ha);
    [unfold network_objects; split_and!; reflexivity|].
  split_and!.
  - apply Hv. reflexivity.
  - apply Hs. reflexivity.
  - apply Hn. reflexivity.
  - simpl in Hg. rewrite Hg. reflexivity.
  - simpl in Ha. rewrite Ha. reflexivity.
Defined.
End empty_answers.

(** ** More statements at work on examples *)

Lemma initial_state_spec_group_valid uid : spec_group_valid (initial_state uid).
Proof. intros r Hr. discriminate Hr. Qed.

Lemma initial_state_vnets_numbered uid : vnets_numbered (initial_state uid).
Proof. split; [reflexivity|]. intros k v Hk. discriminate Hk. Qed.

Lemma two_regions_registered_valid : registered_valid two_regions.
Proof.
  intros i Hi.
  assert (Hel : elements (ALL_NSGS two_regions) = [1; 0]%nat)
    by (vm_compute; reflexivity).
  rewrite <- elem_of_elements, Hel in Hi.
  repeat (apply elem_of_cons in Hi as [->|Hi]);
    [eexists _, _; split; reflexivity..|].
  by apply elem_of_nil in Hi.
Qed.

Section more_examples.
Local Existing Instance obliging_environment.
Import AzureNetworkSecurityGroup.

Lemma AllowPort_only_files_the_pair_witness :
  nsgs (AzureFirewall.AllowPort {| vm_network := 1 |} 22 None None
          two_regions).2 !! 0%nat
  = nsgs two_regions !! 0%nat.
Proof.
  epose proof (AllowPort_only_files_the_pair two_regions
                 {| vm_network := 1 |} _ _ _ 22 None None
                 (AzureFirewall.AllowPort {| vm_network := 1 |} 22 None None
                    two_regions).1
                 (AzureFirewall.AllowPort {| vm_network := 1 |} 22 None None
                    two_regions).2) as Hthm.
  edestruct Hthm as (table & _ & _ & _ & Hother & _).
  - reflexivity.
  - reflexivity.
  - reflexivity.
  - vm_compute. reflexivity.
  - apply Hother. simpl. lia.
Defined.

Lemma DisallowAllPorts_deletes_what_was_created_witness :
  let st1 := after_calls (allow 0 <$> [port 80; port 443; port 80])
               two_regions in
  ∃ created deleted g n,
    calls (DisallowAllPorts 0 st1).2
    = calls st1
      ++ ((λ k, rule_delete_call (rule_name_of k) g n) <$> deleted)
      ++ [deny_all_call g n]
    ∧ deleted ≡ₚ created
    ∧ NoDup created.
Proof.
  intros st1.
  epose proof (DisallowAllPorts_deletes_what_was_created two_regions 0%nat
                 _ _ [port 80; port 443; port 80]
                 (DisallowAllPorts 0 st1).2) as Hthm.
  edestruct Hthm as (created & deleted & _ & Hcalls & Hperm & Hnd).
  - reflexivity.
  - reflexivity.
  - reflexivity.
  - vm_compute. reflexivity.
  - eexists created, deleted, _, _.
    split; [exact Hcalls|]. split; [exact Hperm|exact Hnd].
Defined.

Lemma allow_rules_keep_off_DenyAll_witness :
  let st' := after_calls
               (run_op 0 <$> [OpAllowPort (port 80); OpDisallowAllPorts;
                              OpAllowPort (port 443)])
               two_regions in
  ∃ g n, Forall (nsg_call g n) (drop (length (calls two_regions)) (calls st')).
Proof.
  intros st'.
  epose proof (allow_rules_keep_off_DenyAll two_regions 0%nat _ _
                 [OpAllowPort (port 80); OpDisallowAllPorts;
                  OpAllowPort (port 443)]) as Hthm.
  edestruct Hthm as (Hall & _ & _).
  - reflexivity.
  - reflexivity.
  - apply table_named_empty.
  - eexists _, _. exact Hall.
Defined.

Lemma rule_names_distinct_witness :
  let st' := after_calls
               (run_op 0 <$> [OpAllowPort (port 80); OpAllowPort (port 443)])
               two_regions in
  ∃ n', nsgs st' !! 0%nat = Some n' ∧ NoDup (map_to_list (rules n')).*1.
Proof.
  intros st'.
  epose proof (rule_names_distinct two_regions 0%nat _ _
                 [OpAllowPort (port 80); OpAllowPort (port 443)]) as Hthm.
  edestruct Hthm as (n' & Hn' & _ & Hinj & _).
  - reflexivity.
  - reflexivity.
  - apply table_named_empty.
  - exists n'. split; [exact Hn'|]. apply NoDup_fst_map_to_list.
Defined.

Lemma AzureFirewall_DisallowAllPorts_closes_all_witness :
  ∃ st', AzureFirewall.DisallowAllPorts two_regions = (Ok tt, st')
         ∧ AzureFirewall.DisallowAllPorts st' = (Ok tt, st').
Proof.
  destruct (AzureFirewall_DisallowAllPorts_closes_all two_regions
              two_regions_registered_valid) as [Hreturns Hcloses].
  destruct (Hreturns obliging_commands_succeed) as [st' Hrun].
  exists st'. split; [exact Hrun|]. by apply Hcloses.
Defined.

Lemma AzureNetwork__init__wires_witness :
  ∃ st', AzureNetwork.__init__ "eastus2" (initial_state "1") = (Ok 0%nat, st')
         ∧ trace st' = [].
Proof.
  destruct (AzureNetwork__init__wires (initial_state "1") "eastus2"
              (initial_state_spec_group_valid "1"))
    as (st' & net & g & a & v & s & n & Hrun & Hrest).
  exists st'. split; [exact Hrun|].
  destruct Hrest as (_ & _ & _ & _ & _ & _ & _ & _ & _ & _ & _ & _ & _ & _
                     & _ & _ & _ & Htrace & _).
  exact Htrace.
Defined.

Lemma storage_account_name_length_witness :
  ∃ st' net a,
    AzureNetwork.__init__ "eastus2" (initial_state "1") = (Ok 0%nat, st')
    ∧ accounts st' !! net_storage_account net = Some a
    ∧ Z.of_nat (String.length (sa_name a)) ≤ 24.
Proof.
  destruct (storage_account_name_length (initial_state "1") "eastus2"
              (initial_state_spec_group_valid "1"))
    as (st' & net & g & a & kept & Hrun & _ & _ & Ha & _ & [Hshort _] & _).
  exists st', net, a. split; [exact Hrun|]. split; [exact Ha|].
  rewrite Hshort; [lia|]. vm_compute. discriminate.
Defined.

Lemma construct_networks_regions_witness :
  ∃ st',
    construct_networks three_zones (initial_state "1")
    = (Ok [0; 1; 2]%nat, st')
    ∧ NoDup (vnet_address_space <$> vnets st').
Proof.
  destruct (construct_networks_regions (initial_state "1") three_zones
              (initial_state_spec_group_valid "1")
              (initial_state_vnets_numbered "1"))
    as (st' & Hrun & _ & Hnd & _).
  exists st'. split; [exact Hrun|exact Hnd].
Defined.

Lemma resource_names_follow_zones_witness :
  ∃ refs st' ni nj vi vj,
    construct_networks three_zones (initial_state "1") = (Ok refs, st')
    ∧ networks st' !! 0%nat = Some ni
    ∧ networks st' !! 1%nat = Some nj
    ∧ vnets st' !! net_vnet ni = Some vi
    ∧ vnets st' !! net_vnet nj = Some vj
    ∧ vnet_name vi ≠ vnet_name vj.
Proof.
  destruct (resource_names_follow_zones (initial_state "1") three_zones
              0 1 "eastus2" "westus2" (initial_state_spec_group_valid "1")
              eq_refl eq_refl)
    as (refs & st' & ni & nj & ai & aj & vi & vj & si & sj & gi & gj
        & Hrun & Hni & Hnj & _ & _ & Hvi & Hvj & _ & _ & _ & _ & Hname & _).
  exists refs, st', ni, nj, vi, vj.
  split; [exact Hrun|]. split; [exact Hni|]. split; [exact Hnj|].
  split; [exact Hvi|]. split; [exact Hvj|].
  intros Heq. apply Hname in Heq. discriminate Heq.
Defined.

Lemma PostCreate_credentials_witness :
  ∃ a', is_Some (sa_key a')
        ∧ (AzureStorageAccount._PostCreate 0 two_regions).2
          = set_trace (trace (AzureStorageAccount._PostCreate 0 two_regions).2)
              (set_accounts
                 (<[0%nat := with_credentials a'
                               {| sa_base := resource.BaseResource__init__;
                                  sa_storage_type := "Standard_LRS";
                                  sa_name := "pkbabc1eastus2storage";
                                  sa_resource_group := 0;
                                  sa_location := "eastus2";
                                  sa_kind := "Storage";
                                  sa_access_tier := None;
                                  sa_connection_string := None;
                                  sa_connection_args := None;
                                  sa_key := None |}]>
                    (accounts two_regions))
                 two_regions).
Proof.
  epose proof (PostCreate_credentials two_regions 0%nat _ _ (Ok tt)
                 (AzureStorageAccount._PostCreate 0 two_regions).2) as Hthm.
  edestruct Hthm as (a' & Hst & Hok).
  - reflexivity.
  - reflexivity.
  - vm_compute. reflexivity.
  - exists a'. split; [|exact Hst].
    destruct Hok as (? & ? & ? & ? & key & Hrest).
    exists key. apply Hrest.
Defined.

Lemma constructed_network_lifecycle_witness :
  ∃ st1 st2 st3,
    AzureNetwork.__init__ "eastus2" (initial_state "1") = (Ok 0%nat, st1)
    ∧ AzureNetwork.Create 0 st1 = (Ok tt, st2)
    ∧ AzureNetwork.Delete 0 st2 = (Ok tt, st3)
    ∧ calls st1 = [].
Proof.
  destruct (constructed_network_lifecycle (initial_state "1") "eastus2"
              obliging_commands_succeed obliging_storage_queries_answered
              (initial_state_spec_group_valid "1"))
    as (st1 & st2 & st3 & net & g & a & v & s & n
        & Hinit & Hcreate & Hdelete & _ & _ & _ & Hcalls & _).
  exists st1, st2, st3.
  split; [exact Hinit|]. split; [exact Hcreate|]. split; [exact Hdelete|].
  exact Hcalls.
Defined.
End more_examples.

Section refusals.
Local Existing Instance refusing_environment.
Import AzureNetworkSecurityGroup.

Lemma AllowPort_failed_creation_stays_filed_witness :
  let st1 := (AllowPort 0 {| vm_network := 0 |} 80 None None two_regions).2 in
  AllowPort 0 {| vm_network := 1 |} 80 (Some 80) None st1 = (Ok tt, st1).
Proof.
  intros st1.
  epose proof (AllowPort_failed_creation_stays_filed two_regions 0%nat _ _
                 {| vm_network := 0 |} 80 None None st1) as Hthm.
  edestruct Hthm as (_ & _ & _ & Hagain).
  - reflexivity.
  - reflexivity.
  - vm_compute. reflexivity.
  - apply Hagain. reflexivity.
Defined.

Lemma DisallowAllPorts_failure_witness :
  ∃ n', nsgs (DisallowAllPorts 0 two_regions).2 !! 0%nat = Some n'
        ∧ have_deny_all_rule n' = false.
Proof.
  epose proof (DisallowAllPorts_failure two_regions 0%nat _ _
                 CalledProcessException
                 (DisallowAllPorts 0 two_regions).2) as Hthm.
  edestruct Hthm as (_ & n' & Hns & Hflag & _).
  - reflexivity.
  - reflexivity.
  - vm_compute. reflexivity.
  - exists n'. rewrite Hns. split; [reflexivity|exact Hflag].
Defined.

Lemma only_group_creation_is_checked_witness :
  (AzureResourceGroup._Create 0 two_regions).1
  = Raise (RetryableCreationError "Error creating Azure resource group")
  ∧ (AzureVirtualNetwork._Create 0 two_regions).1 = Ok tt.
Proof.
  epose proof (only_group_creation_is_checked two_regions
                 {| net_zone := "eastus2"; net_resource_group := 0;
                    net_storage_account := 0; net_vnet := 0;
                    net_subnet := 0; net_nsg := 0 |} _ _ _ _ _) as Hthm.
  edestruct Hthm as (Hgroup & _ & _ & Hvnet & _).
  - unfold network_objects. split_and!; reflexivity.
  - intros Hkind. discriminate Hkind.
  - simpl in Hgroup, Hvnet. rewrite Hgroup, Hvnet. split; reflexivity.
Defined.
End refusals.
